(** * ICM20602 driver core: a shallow embedding of
      [src/drivers/icm20602/icm20602.cpp]

    The development follows the C++ source member by member.  Driver state
    is the record [ICM20602]; every member function becomes a function that
    takes the state and returns the new state together with the list of
    externally visible actions it performed (bus transactions, ring-buffer
    pushes, poll notifications, uORB publications).  Values that the code
    obtains from its collaborators (the clock, the bus, the integrators) are
    inputs of the embedded function. *)

From Stdlib Require Import ZArith NArith List Bool Lia Strings.Byte.
From Stdlib Require Import Floats.SpecFloat.
From stdpp Require Import base list.
Import ListNotations.

Local Open Scope Z_scope.

(** ** Machine integers *)

(** Conversion to [uint8_t], [uint32_t] and [uint64_t]: reduction modulo 2^w. *)
Definition wrap8 (z : Z) : Z := z mod 256.
Definition wrap32 (z : Z) : Z := z mod 4294967296.
Definition wrap64 (z : Z) : Z := z mod 18446744073709551616.

(** Conversion to [int16_t]: two's complement on 16 bits. *)
Definition wrap16s (z : Z) : Z := (z + 32768) mod 65536 - 32768.

Definition INT16_MIN : Z := -32768.
Definition INT16_MAX : Z := 32767.

Definition byte_val (b : byte) : Z := Z.of_N (Byte.to_N b).

(** ** Single-precision arithmetic

    [float] in the driver is IEEE-754 binary32 with round-to-nearest-even;
    the operations are those of the Standard Library's executable
    specification at precision 24 and maximal exponent 128. *)
Module F32.
Definition prec : Z := 24.
Definition emax : Z := 128.
Definition float : Type := spec_float.

(** An integer constant or an integer converted to [float]. *)
Definition of_Z (z : Z) : float := binary_normalize prec emax z 0 false.

Definition add (x y : float) : float := SFadd prec emax x y.
Definition mul (x y : float) : float := SFmul prec emax x y.
Definition div (x y : float) : float := SFdiv prec emax x y.
Definition ltb (x y : float) : bool := SFltb x y.
Definition leb (x y : float) : bool := SFleb x y.
(** [x > y] in C is [y < x]; both are false on a NaN. *)
Definition gtb (x y : float) : bool := SFltb y x.
End F32.

(** ** Status codes (errno.h) *)
Definition OK : Z := 0.
Definition EIO : Z := 5.
Definition EINVAL : Z := 22.

(** ** What the header [icm20602.h] and the sensor headers provide

    [icm20602.h], [drv_accel.h] and [drv_gyro.h] are not part of the
    sources at hand.  The constants the modelled functions take from them
    are gathered in one record and every function is parametric in it. *)
Record icm20602_h := {
  BIT_H_RESET : Z;                  (* reset command for PWR_MGMT_1 *)
  ICM20602_ONE_G : F32.float;       (* standard gravity, m/s^2 *)
  ICM20602_GYRO_DEFAULT_RATE : Z;   (* default sample rate, Hz *)
  GYRO_SAMPLERATE_DEFAULT : Z;      (* "use the default" request value *)
  ACCEL_SAMPLERATE_DEFAULT : Z      (* "use the default" request value *)
}.

(** Register names.  Their numeric addresses come from the missing header;
    the model only relies on distinct names denoting distinct registers. *)
Inductive reg : Set :=
| ICMREG_PWR_MGMT_1 | ICMREG_USER_CTRL | ICMREG_SMPLRT_DIV | ICMREG_CONFIG
| ICMREG_GYRO_CONFIG | ICMREG_ACCEL_CONFIG | ICMREG_INT_ENABLE
| ICMREG_INT_PIN_CFG | ICMREG_INT_STATUS | ICMREG_WHOAMI.

#[global] Instance reg_eq_dec : EqDecision reg.
Proof. solve_decision. Defined.

Inductive bus_speed : Set := ICM20602_LOW_BUS_SPEED | ICM20602_HIGH_BUS_SPEED.

Definition ICM20602_NUM_CHECKED_REGISTERS : Z := 8.

(** The list of registers that [check_registers] verifies. *)
Definition _checked_registers : list reg :=
  [ ICMREG_PWR_MGMT_1; ICMREG_USER_CTRL; ICMREG_SMPLRT_DIV; ICMREG_CONFIG;
    ICMREG_GYRO_CONFIG; ICMREG_ACCEL_CONFIG; ICMREG_INT_ENABLE;
    ICMREG_INT_PIN_CFG ].

(** ** Data *)

(** [struct accel_calibration_s] (drv_accel.h), with the fields the driver
    reads and writes. *)
Record accel_calibration_s := {
  x_offset : F32.float; x_scale : F32.float;
  y_offset : F32.float; y_scale : F32.float;
  z_offset : F32.float; z_scale : F32.float
}.

(** [struct ICMReport]: the block read in one bus transaction, every 16-bit
    field as its two bytes in wire order.  The three accel fields are
    adjacent, which is what the 6-byte [memcmp]/[memcpy] in [measure] rely
    on. *)
Record ICMReport := {
  status : byte;
  accel_x : byte * byte; accel_y : byte * byte; accel_z : byte * byte;
  temp : byte * byte;
  gyro_x : byte * byte; gyro_y : byte * byte; gyro_z : byte * byte
}.

(** The six bytes starting at [&icm_report.accel_x[0]]. *)
Definition accel_bytes (r : ICMReport) : list byte :=
  [ fst (accel_x r); snd (accel_x r); fst (accel_y r); snd (accel_y r);
    fst (accel_z r); snd (accel_z r) ].

(** Modelled from the spec: the macro [int16_t_from_bytes] of the missing
    header [icm20602.h]; it converts a 16-bit field from big-endian wire
    order to a host [int16_t]. *)
Definition int16_t_from_bytes (b : byte * byte) : Z :=
  wrap16s (byte_val (fst b) * 256 + byte_val (snd b)).

(** The local [struct Report] of [measure]. *)
Record Report := {
  r_accel_x : Z; r_accel_y : Z; r_accel_z : Z;
  r_temp : Z;
  r_gyro_x : Z; r_gyro_y : Z; r_gyro_z : Z
}.

(** [accel_report] and [gyro_report]: the integer fields and the scale
    metadata.  The calibrated, filtered and integrated float fields are
    produced by [rotate_3f], [LowPassFilter2p] and [Integrator], which are
    collaborators outside this file, and are not part of the record. *)
Record accel_report := {
  a_timestamp : Z; a_error_count : N;
  a_x_raw : Z; a_y_raw : Z; a_z_raw : Z;
  a_temperature_raw : Z;
  a_scaling : F32.float; a_range_m_s2 : F32.float
}.

Record gyro_report := {
  g_timestamp : Z; g_error_count : N;
  g_x_raw : Z; g_y_raw : Z; g_z_raw : Z;
  g_temperature_raw : Z;
  g_scaling : F32.float; g_range_rad_s : F32.float
}.

(** Externally visible actions, in program order. *)
Inductive event :=
| BusWrite (r : reg) (value : Z)          (* write_reg *)
| BusRead (r : reg) (speed : bus_speed)   (* read_reg *)
| BusReadBlock                            (* _interface->read of an ICMReport *)
| AccelForce (arb : accel_report)         (* _accel_reports->force(&arb) *)
| GyroForce (grb : gyro_report)           (* _gyro_reports->force(&grb) *)
| PollNotify                              (* poll_notify(POLLIN) *)
| ParentPollNotify                        (* _gyro->parent_poll_notify() *)
| OrbPublishAccel (arb : accel_report)    (* orb_publish(sensor_accel) *)
| OrbPublishGyro (grb : gyro_report).     (* orb_publish(sensor_gyro) *)

(** The data members of [class ICM20602] that the modelled functions use.
    Performance counters are represented by their event count. *)
Record ICM20602 := {
  _accel_scale : accel_calibration_s;
  _accel_range_scale : F32.float;
  _accel_range_m_s2 : F32.float;
  _gyro_range_scale : F32.float;
  _gyro_range_rad_s : F32.float;
  _sample_rate : Z;
  _sample_perf : N;
  _bad_transfers : N;
  _bad_registers : N;
  _good_transfers : N;
  _duplicates : N;
  _register_wait : Z;               (* uint8_t *)
  _reset_wait : Z;                  (* uint64_t, microseconds *)
  _checked_values : list Z;         (* uint8_t[8] *)
  _checked_next : Z;                (* uint8_t *)
  _in_factory_test : bool;
  _last_accel : list byte;          (* uint16_t[3], used as 6 raw bytes *)
  _got_duplicate : bool;
  _pub_blocked : bool               (* inherited from CDev *)
}.

(** Assignments to single members. *)
Definition set_accel_scale (v : accel_calibration_s) (d : ICM20602) : ICM20602 :=
  {| _accel_scale := v; _accel_range_scale := _accel_range_scale d;
     _accel_range_m_s2 := _accel_range_m_s2 d; _gyro_range_scale := _gyro_range_scale d;
     _gyro_range_rad_s := _gyro_range_rad_s d; _sample_rate := _sample_rate d;
     _sample_perf := _sample_perf d; _bad_transfers := _bad_transfers d;
     _bad_registers := _bad_registers d; _good_transfers := _good_transfers d;
     _duplicates := _duplicates d; _register_wait := _register_wait d;
     _reset_wait := _reset_wait d; _checked_values := _checked_values d;
     _checked_next := _checked_next d; _in_factory_test := _in_factory_test d;
     _last_accel := _last_accel d; _got_duplicate := _got_duplicate d;
     _pub_blocked := _pub_blocked d |}.

Definition set_accel_range_scale (v : F32.float) (d : ICM20602) : ICM20602 :=
  {| _accel_scale := _accel_scale d; _accel_range_scale := v;
     _accel_range_m_s2 := _accel_range_m_s2 d; _gyro_range_scale := _gyro_range_scale d;
     _gyro_range_rad_s := _gyro_range_rad_s d; _sample_rate := _sample_rate d;
     _sample_perf := _sample_perf d; _bad_transfers := _bad_transfers d;
     _bad_registers := _bad_registers d; _good_transfers := _good_transfers d;
     _duplicates := _duplicates d; _register_wait := _register_wait d;
     _reset_wait := _reset_wait d; _checked_values := _checked_values d;
     _checked_next := _checked_next d; _in_factory_test := _in_factory_test d;
     _last_accel := _last_accel d; _got_duplicate := _got_duplicate d;
     _pub_blocked := _pub_blocked d |}.

Definition set_accel_range_m_s2 (v : F32.float) (d : ICM20602) : ICM20602 :=
  {| _accel_scale := _accel_scale d; _accel_range_scale := _accel_range_scale d;
     _accel_range_m_s2 := v; _gyro_range_scale := _gyro_range_scale d;
     _gyro_range_rad_s := _gyro_range_rad_s d; _sample_rate := _sample_rate d;
     _sample_perf := _sample_perf d; _bad_transfers := _bad_transfers d;
     _bad_registers := _bad_registers d; _good_transfers := _good_transfers d;
     _duplicates := _duplicates d; _register_wait := _register_wait d;
     _reset_wait := _reset_wait d; _checked_values := _checked_values d;
     _checked_next := _checked_next d; _in_factory_test := _in_factory_test d;
     _last_accel := _last_accel d; _got_duplicate := _got_duplicate d;
     _pub_blocked := _pub_blocked d |}.

Definition set_sample_rate (v : Z) (d : ICM20602) : ICM20602 :=
  {| _accel_scale := _accel_scale d; _accel_range_scale := _accel_range_scale d;
     _accel_range_m_s2 := _accel_range_m_s2 d; _gyro_range_scale := _gyro_range_scale d;
     _gyro_range_rad_s := _gyro_range_rad_s d; _sample_rate := v;
     _sample_perf := _sample_perf d; _bad_transfers := _bad_transfers d;
     _bad_registers := _bad_registers d; _good_transfers := _good_transfers d;
     _duplicates := _duplicates d; _register_wait := _register_wait d;
     _reset_wait := _reset_wait d; _checked_values := _checked_values d;
     _checked_next := _checked_next d; _in_factory_test := _in_factory_test d;
     _last_accel := _last_accel d; _got_duplicate := _got_duplicate d;
     _pub_blocked := _pub_blocked d |}.

Definition set_sample_perf (v : N) (d : ICM20602) : ICM20602 :=
  {| _accel_scale := _accel_scale d; _accel_range_scale := _accel_range_scale d;
     _accel_range_m_s2 := _accel_range_m_s2 d; _gyro_range_scale := _gyro_range_scale d;
     _gyro_range_rad_s := _gyro_range_rad_s d; _sample_rate := _sample_rate d;
     _sample_perf := v; _bad_transfers := _bad_transfers d;
     _bad_registers := _bad_registers d; _good_transfers := _good_transfers d;
     _duplicates := _duplicates d; _register_wait := _register_wait d;
     _reset_wait := _reset_wait d; _checked_values := _checked_values d;
     _checked_next := _checked_next d; _in_factory_test := _in_factory_test d;
     _last_accel := _last_accel d; _got_duplicate := _got_duplicate d;
     _pub_blocked := _pub_blocked d |}.

Definition set_bad_transfers (v : N) (d : ICM20602) : ICM20602 :=
  {| _accel_scale := _accel_scale d; _accel_range_scale := _accel_range_scale d;
     _accel_range_m_s2 := _accel_range_m_s2 d; _gyro_range_scale := _gyro_range_scale d;
     _gyro_range_rad_s := _gyro_range_rad_s d; _sample_rate := _sample_rate d;
     _sample_perf := _sample_perf d; _bad_transfers := v;
     _bad_registers := _bad_registers d; _good_transfers := _good_transfers d;
     _duplicates := _duplicates d; _register_wait := _register_wait d;
     _reset_wait := _reset_wait d; _checked_values := _checked_values d;
     _checked_next := _checked_next d; _in_factory_test := _in_factory_test d;
     _last_accel := _last_accel d; _got_duplicate := _got_duplicate d;
     _pub_blocked := _pub_blocked d |}.

Definition set_bad_registers (v : N) (d : ICM20602) : ICM20602 :=
  {| _accel_scale := _accel_scale d; _accel_range_scale := _accel_range_scale d;
     _accel_range_m_s2 := _accel_range_m_s2 d; _gyro_range_scale := _gyro_range_scale d;
     _gyro_range_rad_s := _gyro_range_rad_s d; _sample_rate := _sample_rate d;
     _sample_perf := _sample_perf d; _bad_transfers := _bad_transfers d;
     _bad_registers := v; _good_transfers := _good_transfers d;
     _duplicates := _duplicates d; _register_wait := _register_wait d;
     _reset_wait := _reset_wait d; _checked_values := _checked_values d;
     _checked_next := _checked_next d; _in_factory_test := _in_factory_test d;
     _last_accel := _last_accel d; _got_duplicate := _got_duplicate d;
     _pub_blocked := _pub_blocked d |}.

Definition set_good_transfers (v : N) (d : ICM20602) : ICM20602 :=
  {| _accel_scale := _accel_scale d; _accel_range_scale := _accel_range_scale d;
     _accel_range_m_s2 := _accel_range_m_s2 d; _gyro_range_scale := _gyro_range_scale d;
     _gyro_range_rad_s := _gyro_range_rad_s d; _sample_rate := _sample_rate d;
     _sample_perf := _sample_perf d; _bad_transfers := _bad_transfers d;
     _bad_registers := _bad_registers d; _good_transfers := v;
     _duplicates := _duplicates d; _register_wait := _register_wait d;
     _reset_wait := _reset_wait d; _checked_values := _checked_values d;
     _checked_next := _checked_next d; _in_factory_test := _in_factory_test d;
     _last_accel := _last_accel d; _got_duplicate := _got_duplicate d;
     _pub_blocked := _pub_blocked d |}.

Definition set_duplicates (v : N) (d : ICM20602) : ICM20602 :=
  {| _accel_scale := _accel_scale d; _accel_range_scale := _accel_range_scale d;
     _accel_range_m_s2 := _accel_range_m_s2 d; _gyro_range_scale := _gyro_range_scale d;
     _gyro_range_rad_s := _gyro_range_rad_s d; _sample_rate := _sample_rate d;
     _sample_perf := _sample_perf d; _bad_transfers := _bad_transfers d;
     _bad_registers := _bad_registers d; _good_transfers := _good_transfers d;
     _duplicates := v; _register_wait := _register_wait d; _reset_wait := _reset_wait d;
     _checked_values := _checked_values d; _checked_next := _checked_next d;
     _in_factory_test := _in_factory_test d; _last_accel := _last_accel d;
     _got_duplicate := _got_duplicate d; _pub_blocked := _pub_blocked d |}.

Definition set_register_wait (v : Z) (d : ICM20602) : ICM20602 :=
  {| _accel_scale := _accel_scale d; _accel_range_scale := _accel_range_scale d;
     _accel_range_m_s2 := _accel_range_m_s2 d; _gyro_range_scale := _gyro_range_scale d;
     _gyro_range_rad_s := _gyro_range_rad_s d; _sample_rate := _sample_rate d;
     _sample_perf := _sample_perf d; _bad_transfers := _bad_transfers d;
     _bad_registers := _bad_registers d; _good_transfers := _good_transfers d;
     _duplicates := _duplicates d; _register_wait := v; _reset_wait := _reset_wait d;
     _checked_values := _checked_values d; _checked_next := _checked_next d;
     _in_factory_test := _in_factory_test d; _last_accel := _last_accel d;
     _got_duplicate := _got_duplicate d; _pub_blocked := _pub_blocked d |}.

Definition set_reset_wait (v : Z) (d : ICM20602) : ICM20602 :=
  {| _accel_scale := _accel_scale d; _accel_range_scale := _accel_range_scale d;
     _accel_range_m_s2 := _accel_range_m_s2 d; _gyro_range_scale := _gyro_range_scale d;
     _gyro_range_rad_s := _gyro_range_rad_s d; _sample_rate := _sample_rate d;
     _sample_perf := _sample_perf d; _bad_transfers := _bad_transfers d;
     _bad_registers := _bad_registers d; _good_transfers := _good_transfers d;
     _duplicates := _duplicates d; _register_wait := _register_wait d; _reset_wait := v;
     _checked_values := _checked_values d; _checked_next := _checked_next d;
     _in_factory_test := _in_factory_test d; _last_accel := _last_accel d;
     _got_duplicate := _got_duplicate d; _pub_blocked := _pub_blocked d |}.

Definition set_checked_values (v : list Z) (d : ICM20602) : ICM20602 :=
  {| _accel_scale := _accel_scale d; _accel_range_scale := _accel_range_scale d;
     _accel_range_m_s2 := _accel_range_m_s2 d; _gyro_range_scale := _gyro_range_scale d;
     _gyro_range_rad_s := _gyro_range_rad_s d; _sample_rate := _sample_rate d;
     _sample_perf := _sample_perf d; _bad_transfers := _bad_transfers d;
     _bad_registers := _bad_registers d; _good_transfers := _good_transfers d;
     _duplicates := _duplicates d; _register_wait := _register_wait d;
     _reset_wait := _reset_wait d; _checked_values := v; _checked_next := _checked_next d;
     _in_factory_test := _in_factory_test d; _last_accel := _last_accel d;
     _got_duplicate := _got_duplicate d; _pub_blocked := _pub_blocked d |}.

Definition set_checked_next (v : Z) (d : ICM20602) : ICM20602 :=
  {| _accel_scale := _accel_scale d; _accel_range_scale := _accel_range_scale d;
     _accel_range_m_s2 := _accel_range_m_s2 d; _gyro_range_scale := _gyro_range_scale d;
     _gyro_range_rad_s := _gyro_range_rad_s d; _sample_rate := _sample_rate d;
     _sample_perf := _sample_perf d; _bad_transfers := _bad_transfers d;
     _bad_registers := _bad_registers d; _good_transfers := _good_transfers d;
     _duplicates := _duplicates d; _register_wait := _register_wait d;
     _reset_wait := _reset_wait d; _checked_values := _checked_values d;
     _checked_next := v; _in_factory_test := _in_factory_test d;
     _last_accel := _last_accel d; _got_duplicate := _got_duplicate d;
     _pub_blocked := _pub_blocked d |}.

Definition set_last_accel (v : list byte) (d : ICM20602) : ICM20602 :=
  {| _accel_scale := _accel_scale d; _accel_range_scale := _accel_range_scale d;
     _accel_range_m_s2 := _accel_range_m_s2 d; _gyro_range_scale := _gyro_range_scale d;
     _gyro_range_rad_s := _gyro_range_rad_s d; _sample_rate := _sample_rate d;
     _sample_perf := _sample_perf d; _bad_transfers := _bad_transfers d;
     _bad_registers := _bad_registers d; _good_transfers := _good_transfers d;
     _duplicates := _duplicates d; _register_wait := _register_wait d;
     _reset_wait := _reset_wait d; _checked_values := _checked_values d;
     _checked_next := _checked_next d; _in_factory_test := _in_factory_test d;
     _last_accel := v; _got_duplicate := _got_duplicate d; _pub_blocked := _pub_blocked d |}.

Definition set_got_duplicate (v : bool) (d : ICM20602) : ICM20602 :=
  {| _accel_scale := _accel_scale d; _accel_range_scale := _accel_range_scale d;
     _accel_range_m_s2 := _accel_range_m_s2 d; _gyro_range_scale := _gyro_range_scale d;
     _gyro_range_rad_s := _gyro_range_rad_s d; _sample_rate := _sample_rate d;
     _sample_perf := _sample_perf d; _bad_transfers := _bad_transfers d;
     _bad_registers := _bad_registers d; _good_transfers := _good_transfers d;
     _duplicates := _duplicates d; _register_wait := _register_wait d;
     _reset_wait := _reset_wait d; _checked_values := _checked_values d;
     _checked_next := _checked_next d; _in_factory_test := _in_factory_test d;
     _last_accel := _last_accel d; _got_duplicate := v; _pub_blocked := _pub_blocked d |}.

(** [perf_count(c)] adds one to the event count of [c]. *)
Definition perf_count (c : N) : N := (c + 1)%N.

(** ** Register access *)

(** [write_reg]: one bus write; the driver state is not touched. *)
Definition write_reg (r : reg) (value : Z) : list event :=
  [BusWrite r (wrap8 value)].

(** [write_checked_reg]: the bus write, then the loop over the checked
    registers that records the value in every matching shadow slot. *)
Definition write_checked_reg (r : reg) (value : Z) (d : ICM20602)
  : ICM20602 * list event :=
  let value := wrap8 value in
  let shadow :=
    fold_left
      (fun vals i =>
         if decide (_checked_registers !! i = Some r)
         then <[i := value]> vals else vals)
      (seq 0 (Z.to_nat ICM20602_NUM_CHECKED_REGISTERS))
      (_checked_values d) in
  (set_checked_values shadow d, write_reg r value).

(** ** Sample rate *)

(** [_set_sample_rate].  [div] is a [uint8_t]: the quotient is reduced
    modulo 256 before the two range tests. *)
Definition _set_sample_rate (h : icm20602_h) (desired_sample_rate_hz : Z)
           (d : ICM20602) : ICM20602 * list event :=
  let desired_sample_rate_hz :=
    if (desired_sample_rate_hz =? 0)
       || (desired_sample_rate_hz =? GYRO_SAMPLERATE_DEFAULT h)
       || (desired_sample_rate_hz =? ACCEL_SAMPLERATE_DEFAULT h)
    then ICM20602_GYRO_DEFAULT_RATE h else desired_sample_rate_hz in
  let div := wrap8 (1000 / desired_sample_rate_hz) in
  let div := if 200 <? div then 200 else div in
  let div := if div <? 1 then 1 else div in
  let '(d1, evs) := write_checked_reg ICMREG_SMPLRT_DIV (div - 1) d in
  (set_sample_rate (1000 / div) d1, evs).

(** The divider the chip is left with: the SMPLRT_DIV register holds the
    divider minus one. *)
Definition programmed_divider (evs : list event) : option Z :=
  match evs with
  | [BusWrite ICMREG_SMPLRT_DIV v] => Some (v + 1)
  | _ => None
  end.

(** ** Accelerometer range *)

(** The threshold ladder of [set_accel_range]:
    [(afs_sel, lsb_per_g, max_accel_g)]. *)
Definition accel_range_select (max_g_in : Z) : Z * Z * Z :=
  if 8 <? max_g_in then (3, 2048, 16)
  else if 4 <? max_g_in then (2, 4096, 8)
  else if 2 <? max_g_in then (1, 8192, 4)
  else (0, 16384, 2).

Definition set_accel_range (h : icm20602_h) (max_g_in : Z) (d : ICM20602)
  : Z * ICM20602 * list event :=
  let '(afs_sel, lsb_per_g, max_accel_g) := accel_range_select max_g_in in
  let '(d1, evs) := write_checked_reg ICMREG_ACCEL_CONFIG (Z.shiftl afs_sel 3) d in
  let d2 := set_accel_range_scale
              (F32.div (ICM20602_ONE_G h) (F32.of_Z lsb_per_g)) d1 in
  let d3 := set_accel_range_m_s2
              (F32.mul (F32.of_Z max_accel_g) (ICM20602_ONE_G h)) d2 in
  (OK, d3, evs).

(** ** ioctl *)

(** [s->x_scale + s->y_scale + s->z_scale], evaluated left to right in
    single precision. *)
Definition scale_sum (s : accel_calibration_s) : F32.float :=
  F32.add (F32.add (x_scale s) (y_scale s)) (z_scale s).

(** The requests of [ICM20602::ioctl] that the properties below concern. *)
Inductive ioctl_cmd :=
| ACCELIOCGSAMPLERATE
| ACCELIOCSSAMPLERATE (arg : Z)
| ACCELIOCSSCALE (s : accel_calibration_s)
| ACCELIOCSRANGE (arg : Z).

Definition ioctl (h : icm20602_h) (cmd : ioctl_cmd) (d : ICM20602)
  : Z * ICM20602 * list event :=
  match cmd with
  | ACCELIOCGSAMPLERATE => (_sample_rate d, d, [])
  | ACCELIOCSSAMPLERATE arg =>
      let '(d1, evs) := _set_sample_rate h (wrap32 arg) d in (OK, d1, evs)
  | ACCELIOCSSCALE s =>
      (* copy scale, but only if off by a few percent *)
      let sum := scale_sum s in
      if F32.gtb sum (F32.of_Z 2) && F32.ltb sum (F32.of_Z 4)
      then (OK, set_accel_scale s d, [])
      else (- EINVAL, d, [])
  | ACCELIOCSRANGE arg => set_accel_range h (wrap32 arg) d
  end.

(** ** Register health check *)

(** [_checked_registers[i]] and [_checked_values[i]].  The index is always
    below 8 in the driver; outside that range the C code reads out of
    bounds and the model returns a fixed value. *)
Definition checked_register (i : Z) : reg :=
  default ICMREG_PWR_MGMT_1 (_checked_registers !! Z.to_nat i).

Definition checked_value (d : ICM20602) (i : Z) : Z :=
  default 0 (_checked_values d !! Z.to_nat i).

(** [check_registers].  [now] is the value of [hrt_absolute_time()] and [v]
    the byte that [read_reg] returns for the register under the cursor. *)
Definition check_registers (h : icm20602_h) (now : Z) (v : Z) (d : ICM20602)
  : ICM20602 * list event :=
  let r := checked_register (_checked_next d) in
  let rd := [BusRead r ICM20602_HIGH_BUS_SPEED] in
  let '(d1, evs) :=
    if negb (v =? checked_value d (_checked_next d)) then
      let d1 := set_bad_registers (perf_count (_bad_registers d)) d in
      let '(d2, wr) :=
        if (_register_wait d1 =? 0) || (_checked_next d1 =? 0) then
          (* reset the sensor completely *)
          (set_checked_next 0 (set_reset_wait (wrap64 (now + 10000)) d1),
           write_reg ICMREG_PWR_MGMT_1 (BIT_H_RESET h))
        else
          (* rewrite the one bad register *)
          (set_reset_wait (wrap64 (now + 3000)) d1,
           write_reg r (checked_value d1 (_checked_next d1))) in
      (set_register_wait 20 d2, rd ++ wr)
    else (d, rd) in
  (set_checked_next
     (wrap8 ((_checked_next d1 + 1) mod ICM20602_NUM_CHECKED_REGISTERS)) d1,
   evs).

(** ** Measurement *)

(** What one invocation of [measure] obtains from its collaborators. *)
Record cycle_env := {
  env_now : Z;                   (* hrt_absolute_time() at the reset-wait test *)
  env_read : option ICMReport;   (* the block read; None when the byte count
                                    returned differs from sizeof(icm_report) *)
  env_timestamp : Z;             (* hrt_absolute_time() taken for the reports *)
  env_accel_notify : bool;       (* result of _accel_int.put *)
  env_gyro_notify : bool         (* result of _gyro_int.put *)
}.

(** [memcmp(a, b, n) == 0]. *)
Fixpoint memcmp_eq (a b : list byte) (n : nat) {struct n} : bool :=
  match n with
  | O => true
  | S n' =>
      match a, b with
      | x :: a', y :: b' => Byte.eqb x y && memcmp_eq a' b' n'
      | _, _ => false
      end
  end.

(** [memcpy(dst, src, n)]. *)
Definition memcpy (dst src : list byte) (n : nat) : list byte :=
  firstn n src ++ skipn n dst.

(** The duplicate test of [measure]:
    [!_got_duplicate && memcmp(&icm_report.accel_x[0], &_last_accel[0], 6) == 0]. *)
Definition duplicate_data (d : ICM20602) (icm_report : ICMReport) : bool :=
  negb (_got_duplicate d)
  && memcmp_eq (accel_bytes icm_report) (_last_accel d) 6.

(** Conversion of the seven fields from wire order. *)
Definition report_from_bytes (icm_report : ICMReport) : Report :=
  {| r_accel_x := int16_t_from_bytes (accel_x icm_report);
     r_accel_y := int16_t_from_bytes (accel_y icm_report);
     r_accel_z := int16_t_from_bytes (accel_z icm_report);
     r_temp := int16_t_from_bytes (temp icm_report);
     r_gyro_x := int16_t_from_bytes (gyro_x icm_report);
     r_gyro_y := int16_t_from_bytes (gyro_y icm_report);
     r_gyro_z := int16_t_from_bytes (gyro_z icm_report) |}.

(** The all-zero test on the converted fields. *)
Definition all_zero_data (report : Report) : bool :=
  (r_accel_x report =? 0) && (r_accel_y report =? 0)
  && (r_accel_z report =? 0) && (r_temp report =? 0)
  && (r_gyro_x report =? 0) && (r_gyro_y report =? 0)
  && (r_gyro_z report =? 0).

(** "Swap axes and negate y" followed by "Apply the swap".  The negation is
    computed in [int] and converted back to [int16_t]. *)
Definition swap_axes (report : Report) : Report :=
  let accel_xt := r_accel_y report in
  let accel_yt :=
    if r_accel_x report =? -32768 then 32767
    else wrap16s (- r_accel_x report) in
  let gyro_xt := r_gyro_y report in
  let gyro_yt :=
    if r_gyro_x report =? -32768 then 32767
    else wrap16s (- r_gyro_x report) in
  {| r_accel_x := accel_xt; r_accel_y := accel_yt;
     r_accel_z := r_accel_z report; r_temp := r_temp report;
     r_gyro_x := gyro_xt; r_gyro_y := gyro_yt;
     r_gyro_z := r_gyro_z report |}.

(** The report buffers [arb] and [grb] as [measure] fills them. *)
Definition fill_arb (e : cycle_env) (d : ICM20602) (report : Report)
  : accel_report :=
  {| a_timestamp := env_timestamp e;
     a_error_count := (_bad_transfers d + _bad_registers d)%N;
     a_x_raw := r_accel_x report; a_y_raw := r_accel_y report;
     a_z_raw := r_accel_z report;
     a_temperature_raw := r_temp report;
     a_scaling := _accel_range_scale d;
     a_range_m_s2 := _accel_range_m_s2 d |}.

Definition fill_grb (e : cycle_env) (d : ICM20602) (report : Report)
  : gyro_report :=
  {| g_timestamp := env_timestamp e;
     g_error_count := (_bad_transfers d + _bad_registers d)%N;
     g_x_raw := r_gyro_x report; g_y_raw := r_gyro_y report;
     g_z_raw := r_gyro_z report;
     g_temperature_raw := r_temp report;
     g_scaling := _gyro_range_scale d;
     g_range_rad_s := _gyro_range_rad_s d |}.

(** The tail of [measure]: both reports are pushed, waiters are notified
    and the reports are published when an integration window closed. *)
Definition push_and_publish (e : cycle_env) (d : ICM20602)
           (arb : accel_report) (grb : gyro_report) : list event :=
  let accel_notify := env_accel_notify e in
  let gyro_notify := env_gyro_notify e in
  [AccelForce arb; GyroForce grb]
  ++ (if accel_notify then [PollNotify] else [])
  ++ (if gyro_notify then [ParentPollNotify] else [])
  ++ (if accel_notify && negb (_pub_blocked d)
      then [OrbPublishAccel arb] else [])
  ++ (if gyro_notify && negb (_pub_blocked d)
      then [OrbPublishGyro grb] else []).

(** [measure].  [perf_end(_sample_perf)] is the event that the elapsed-time
    counter counts. *)
Definition measure (e : cycle_env) (d : ICM20602) : Z * ICM20602 * list event :=
  if _in_factory_test d then
    (* don't publish any data while in factory test mode *)
    (OK, d, [])
  else if env_now e <? _reset_wait d then
    (* we're waiting for a reset to complete *)
    (OK, d, [])
  else
    match env_read e with
    | None => (- EIO, d, [BusReadBlock])
    | Some icm_report =>
      if duplicate_data d icm_report then
        (* it isn't new data - wait for next timer *)
        let d := set_sample_perf (perf_count (_sample_perf d)) d in
        let d := set_duplicates (perf_count (_duplicates d)) d in
        (OK, set_got_duplicate true d, [BusReadBlock])
      else
        let d :=
          set_last_accel (memcpy (_last_accel d) (accel_bytes icm_report) 6) d in
        let d := set_got_duplicate false d in
        let report := report_from_bytes icm_report in
        if all_zero_data report then
          (* all zero data - probably a SPI bus error *)
          let d := set_bad_transfers (perf_count (_bad_transfers d)) d in
          let d := set_sample_perf (perf_count (_sample_perf d)) d in
          (- EIO, d, [BusReadBlock])
        else
          let d := set_good_transfers (perf_count (_good_transfers d)) d in
          if negb (_register_wait d =? 0) then
            (* waiting for some good transfers before using the sensor again *)
            (OK, set_register_wait (wrap8 (_register_wait d - 1)) d,
             [BusReadBlock])
          else
            let report := swap_axes report in
            let arb := fill_arb e d report in
            let grb := fill_grb e d report in
            let evs := push_and_publish e d arb grb in
            (OK, set_sample_perf (perf_count (_sample_perf d)) d,
             BusReadBlock :: evs)
    end.

(** The three components of an invocation's outcome. *)
Definition m_ret (o : Z * ICM20602 * list event) : Z := fst (fst o).
Definition m_state (o : Z * ICM20602 * list event) : ICM20602 := snd (fst o).
Definition m_events (o : Z * ICM20602 * list event) : list event := snd o.

(** The timer ([measure_trampoline]) invokes [measure] once per period:
    the driver state after a sequence of invocations. *)
Fixpoint run_cycles (es : list cycle_env) (d : ICM20602) : ICM20602 :=
  match es with
  | [] => d
  | e :: es' => run_cycles es' (m_state (measure e d))
  end.

(** ** Observations on the actions of one invocation *)

(** An action that hands a report to a consumer. *)
Definition is_report_event (ev : event) : bool :=
  match ev with
  | AccelForce _ | GyroForce _ | PollNotify | ParentPollNotify
  | OrbPublishAccel _ | OrbPublishGyro _ => true
  | _ => false
  end.

Definition publishes_nothing (evs : list event) : bool :=
  forallb (fun ev => negb (is_report_event ev)) evs.

Definition is_bus_write (ev : event) : bool :=
  match ev with BusWrite _ _ => true | _ => false end.

(** ** Concrete values for evaluating the model *)

(** One instance of the header constants. *)
Definition reference_h : icm20602_h :=
  {| BIT_H_RESET := 128;
     ICM20602_ONE_G := F32.div (F32.of_Z 980665) (F32.of_Z 100000);
     ICM20602_GYRO_DEFAULT_RATE := 1000;
     GYRO_SAMPLERATE_DEFAULT := 1000003;
     ACCEL_SAMPLERATE_DEFAULT := 1000003 |}.

Definition unit_calibration : accel_calibration_s :=
  {| x_offset := F32.of_Z 0; x_scale := F32.of_Z 1;
     y_offset := F32.of_Z 0; y_scale := F32.of_Z 1;
     z_offset := F32.of_Z 0; z_scale := F32.of_Z 1 |}.

(** The state the constructor leaves behind.  The constructor does not
    initialise the shadow values; they are taken as 0 here. *)
Definition initial_state : ICM20602 :=
  {| _accel_scale := unit_calibration;
     _accel_range_scale := F32.of_Z 0;
     _accel_range_m_s2 := F32.of_Z 0;
     _gyro_range_scale := F32.of_Z 0;
     _gyro_range_rad_s := F32.of_Z 0;
     _sample_rate := 1000;
     _sample_perf := 0; _bad_transfers := 0; _bad_registers := 0;
     _good_transfers := 0; _duplicates := 0;
     _register_wait := 0;
     _reset_wait := 0;
     _checked_values := [0; 0; 0; 0; 0; 0; 0; 0];
     _checked_next := 0;
     _in_factory_test := false;
     _last_accel := [x00; x00; x00; x00; x00; x00]%byte;
     _got_duplicate := false;
     _pub_blocked := false |}.

(** The invocation gets as far as the block read and the bus delivers
    [icm_report]. *)
Definition transfers (e : cycle_env) (d : ICM20602) (icm_report : ICMReport)
  : Prop :=
  _in_factory_test d = false
  /\ _reset_wait d <= env_now e
  /\ env_read e = Some icm_report.

(** The state once the latch is rewritten and the duplicate flag cleared. *)
Definition latched (d : ICM20602) (icm_report : ICMReport) : ICM20602 :=
  set_got_duplicate false
    (set_last_accel (memcpy (_last_accel d) (accel_bytes icm_report) 6) d).

(** The invocation was counted as a duplicate. *)
Definition suppressed (e : cycle_env) (d : ICM20602) : bool :=
  (_duplicates (m_state (measure e d)) =? _duplicates d + 1)%N.

(** The duplicate test for a raw accel triplet [a]. *)
Definition would_suppress (a : list byte) (d : ICM20602) : bool :=
  negb (_got_duplicate d) && memcmp_eq a (_last_accel d) 6.

(** Every invocation of the sequence fetches a sample whose raw accel
    triplet is [a]. *)
Definition same_triplet_run (a : list byte) (d : ICM20602)
           (es : list cycle_env) : Prop :=
  Forall (fun e => _reset_wait d <= env_now e
                   /\ exists r, env_read e = Some r /\ accel_bytes r = a) es.

(** ** The formulas of the specification, in its own words *)

Definition clamp (x lo hi : Z) : Z := Z.max lo (Z.min x hi).

(** [round(n/d)] for positive [n] and [d]: the nearest integer. *)
Definition round_div (n d : Z) : Z := (2 * n + d) / (2 * d).

(** "Sample-rate divider = clamp(round(1000/requested_Hz), 1, 200)". *)
Definition spec_divider (requested_hz : Z) : Z :=
  clamp (round_div 1000 requested_hz) 1 200.

(** The supported accelerometer buckets, "{2→16384, 4→8192, 8→4096,
    16→2048} LSB-per-g", as pairs (bucket g, LSB per g). *)
Definition supported_ranges : list (Z * Z) :=
  [(2, 16384); (4, 8192); (8, 4096); (16, 2048)].

(** "Combined axis scales must sum within [2.0, 4.0]". *)
Definition spec_scale_sum_valid (s : accel_calibration_s) : bool :=
  F32.leb (F32.of_Z 2) (scale_sum s) && F32.leb (scale_sum s) (F32.of_Z 4).

(** ** Sample inputs *)

Definition calibration_with_scales (x y z : Z) : accel_calibration_s :=
  {| x_offset := F32.of_Z 0; x_scale := F32.of_Z x;
     y_offset := F32.of_Z 0; y_scale := F32.of_Z y;
     z_offset := F32.of_Z 0; z_scale := F32.of_Z z |}.

(** A block whose seven fields all have the bytes [hi], [lo], except that
    the accel x field has low byte [ax_lo]. *)
Definition sample_block (hi ax_lo lo : byte) : ICMReport :=
  {| status := x01%byte;
     accel_x := (hi, ax_lo); accel_y := (hi, lo); accel_z := (hi, lo);
     temp := (hi, lo);
     gyro_x := (hi, lo); gyro_y := (hi, lo); gyro_z := (hi, lo) |}.

Definition sample_a : ICMReport := sample_block x01%byte x10%byte x20%byte.
Definition sample_b : ICMReport := sample_block x01%byte x11%byte x20%byte.
Definition sample_zero : ICMReport := sample_block x00%byte x00%byte x00%byte.
(** accel x = gyro x = INT16_MIN. *)
Definition sample_min : ICMReport :=
  {| status := x01%byte;
     accel_x := (x80, x00)%byte; accel_y := (x00, x07)%byte;
     accel_z := (x00, x09)%byte; temp := (x00, x01)%byte;
     gyro_x := (x80, x00)%byte; gyro_y := (xff, xfe)%byte;
     gyro_z := (x00, x03)%byte |}.

(** An invocation at time [now] to which the bus delivers [r] and in which
    both integration windows close. *)
Definition cycle_at (now : Z) (r : ICMReport) : cycle_env :=
  {| env_now := now; env_read := Some r; env_timestamp := now + 50;
     env_accel_notify := true; env_gyro_notify := true |}.

(** The initial state after a register mismatch was found at cursor 0 at
    time 1000. *)
Definition after_mismatch : ICM20602 :=
  fst (check_registers reference_h 1000 7 initial_state).

(** Ten good transfers: the two samples alternate, so none is a duplicate. *)
Definition ten_good (now : Z) : list cycle_env :=
  flat_map (fun k => [cycle_at (now + 2 * k) sample_a;
                      cycle_at (now + 2 * k + 1) sample_b])
           [0; 1; 2; 3; 4].

(** Start-up followed by one all-zero block. *)
Definition after_zero_block : ICM20602 :=
  m_state (measure (cycle_at 20 sample_zero) initial_state).

(** Start-up followed by sample A, and by sample A twice. *)
Definition after_a : ICM20602 :=
  m_state (measure (cycle_at 20 sample_a) initial_state).
Definition after_a_a : ICM20602 :=
  m_state (measure (cycle_at 40 sample_a) after_a).

(** Runs of bit-identical samples. *)
Definition cycle_a : cycle_env := cycle_at 20 sample_a.
Definition run_of_three : list cycle_env := [cycle_a; cycle_a; cycle_a].

(** Ten good transfers, one all-zero block, ten more good transfers. *)
Definition bad_cycle : cycle_env := cycle_at 20010 sample_zero.
Definition interrupted_run : list cycle_env :=
  ten_good 20000 ++ [bad_cycle] ++ ten_good 20020.

(** * The rest of the driver

    The functions of [icm20602.cpp] outside the measurement and health-check
    paths: register helpers, the on-chip filter, start and stop, the
    poll-rate and range requests, the reset protocol and the self tests. *)

(** Conversion to [uint16_t]. *)
Definition wrap16 (z : Z) : Z := z mod 65536.

(** A decimal [float] literal [num/den]: both integers are below 2^24 and
    so exact, and the quotient is rounded once, as the literal is. *)
Definition f32_lit (num den : Z) : F32.float :=
  F32.div (F32.of_Z num) (F32.of_Z den).

Definition f32_sub (x y : F32.float) : F32.float :=
  SFsub F32.prec F32.emax x y.

Definition fabsf (x : F32.float) : F32.float := SFabs x.

(** Conversion of a [float] to an integer type: the fractional part is
    discarded.  The C conversion is undefined for NaN, for infinities and
    when the value does not fit; the model returns 0 for the first two. *)
Definition float_to_Z (x : F32.float) : Z :=
  match x with
  | S754_finite s m e =>
      let magnitude :=
        match e with
        | Zneg p => Zpos m / 2 ^ Zpos p
        | _ => Zpos m * 2 ^ e
        end in
      if s then - magnitude else magnitude
  | _ => 0
  end.

(** A [double] literal [num/den], the quotient of two [double]s, and the
    conversion of a [double] to [float]. *)
Definition f64_lit (num den : Z) : spec_float :=
  SFdiv 53 1024 (binary_normalize 53 1024 num 0 false)
        (binary_normalize 53 1024 den 0 false).

Definition f64_div (x y : spec_float) : spec_float := SFdiv 53 1024 x y.

Definition double_to_float (x : spec_float) : F32.float :=
  match x with
  | S754_finite s m e => binary_round F32.prec F32.emax s m e
  | _ => x
  end.

(** The settings of the on-chip low-pass filter that [_set_dlpf_filter]
    chooses from. *)
Inductive dlpf_cfg : Set :=
| BITS_DLPF_CFG_5HZ | BITS_DLPF_CFG_10HZ | BITS_DLPF_CFG_20HZ
| BITS_DLPF_CFG_42HZ | BITS_DLPF_CFG_98HZ | BITS_DLPF_CFG_188HZ
| BITS_DLPF_CFG_4000HZ_NOLPF.

(** The cut-off frequency each setting is named after; the last one
    switches the filter off. *)
Definition dlpf_cutoff_hz (c : dlpf_cfg) : option Z :=
  match c with
  | BITS_DLPF_CFG_5HZ => Some 5
  | BITS_DLPF_CFG_10HZ => Some 10
  | BITS_DLPF_CFG_20HZ => Some 20
  | BITS_DLPF_CFG_42HZ => Some 42
  | BITS_DLPF_CFG_98HZ => Some 98
  | BITS_DLPF_CFG_188HZ => Some 188
  | BITS_DLPF_CFG_4000HZ_NOLPF => None
  end.

(** The remaining constants of the missing headers ([icm20602.h],
    [drv_sensor.h], the math header). *)
Record icm20602_bits := {
  dlpf_bits : dlpf_cfg -> Z;                (* the values of BITS_DLPF_CFG_* *)
  BITS_BESTCLOCK_PLL3 : Z;
  BITS_FS_2000DPS : Z;
  BIT_DATA_RDY_INT_EN : Z;
  BIT_INT_ANYRD_2CLEAR : Z;
  ICM20602_DEFAULT_ONCHIP_FILTER_FREQ : Z;
  ICM20602_ACCEL_DEFAULT_RATE : Z;
  M_PI_F : F32.float;
  SENSOR_POLLRATE_MANUAL : Z;
  SENSOR_POLLRATE_EXTERNAL : Z;
  SENSOR_POLLRATE_MAX : Z;
  SENSOR_POLLRATE_DEFAULT : Z
}.

Definition ICM20602_TIMER_REDUCTION : Z := 200.

(** [ERANGE] (errno.h): the error that the declaration of
    [set_accel_range] names for a range that cannot be supported. *)
Definition ERANGE : Z := 34.

(** ** Register helpers *)

(** [swap16]: the operands are promoted to [int], the result is converted
    back to [uint16_t]. *)
Definition swap16 (val : Z) : Z :=
  wrap16 (Z.lor (Z.shiftr val 8) (Z.shiftl val 8)).

(** [modify_reg]; [v] is the byte that [read_reg] returns.  Being built on
    [write_reg], it does not touch the shadow values. *)
Definition modify_reg (r : reg) (clearbits setbits : Z) (v : Z) : list event :=
  let val := v in
  let val := wrap8 (Z.land val (Z.lnot clearbits)) in
  let val := wrap8 (Z.lor val setbits) in
  BusRead r ICM20602_LOW_BUS_SPEED :: write_reg r val.

(** The value the last [BusWrite] to [r] carried. *)
Fixpoint last_write (r : reg) (evs : list event) : option Z :=
  match evs with
  | [] => None
  | ev :: evs' =>
      match last_write r evs' with
      | Some v => Some v
      | None =>
          match ev with
          | BusWrite r' v => if decide (r' = r) then Some v else None
          | _ => None
          end
      end
  end.

(** ** On-chip low-pass filter *)

(** The threshold ladder of [_set_dlpf_filter]. *)
Definition dlpf_select (frequency_hz : Z) : dlpf_cfg :=
  if frequency_hz =? 0 then BITS_DLPF_CFG_4000HZ_NOLPF
  else if frequency_hz <=? 5 then BITS_DLPF_CFG_5HZ
  else if frequency_hz <=? 10 then BITS_DLPF_CFG_10HZ
  else if frequency_hz <=? 20 then BITS_DLPF_CFG_20HZ
  else if frequency_hz <=? 42 then BITS_DLPF_CFG_42HZ
  else if frequency_hz <=? 98 then BITS_DLPF_CFG_98HZ
  else if frequency_hz <=? 188 then BITS_DLPF_CFG_188HZ
  else BITS_DLPF_CFG_4000HZ_NOLPF.

(** [_set_dlpf_filter]; the argument is a [uint16_t]. *)
Definition _set_dlpf_filter (b : icm20602_bits) (frequency_hz : Z)
           (d : ICM20602) : ICM20602 * list event :=
  let frequency_hz := wrap16 frequency_hz in
  write_checked_reg ICMREG_CONFIG (dlpf_bits b (dlpf_select frequency_hz)) d.

(** ** Health checks in a row *)

(** [n] health checks in a row during which the chip returns, for each
    register, the value the driver expects. *)
Fixpoint sweep (h : icm20602_h) (now : Z) (n : nat) (d : ICM20602)
  : ICM20602 * list event :=
  match n with
  | O => (d, [])
  | S n' =>
      let '(d1, evs1) :=
        check_registers h now (checked_value d (_checked_next d)) d in
      let '(d2, evs2) := sweep h now n' d1 in
      (d2, evs1 ++ evs2)
  end.

(** The register a read event addresses. *)
Definition read_target (ev : event) : option reg :=
  match ev with
  | BusRead r _ => Some r
  | _ => None
  end.

(** ** Scheduling, filters and critical sections *)

Inductive filter_id : Set :=
| accel_filter_x | accel_filter_y | accel_filter_z
| gyro_filter_x | gyro_filter_y | gyro_filter_z.

(** The actions of the functions below: bus traffic as before, and the
    calls into the timer, the ring buffers, the software filters and the
    operating system. *)
Inductive sys_event :=
| Bus (ev : event)
| EnterCriticalSection                     (* px4_enter_critical_section *)
| LeaveCriticalSection                     (* px4_leave_critical_section *)
| UpUdelay (us : Z)                        (* up_udelay: busy wait *)
| Usleep (us : Z)                          (* usleep *)
| CountResetRetry                          (* perf_count(_reset_retries) *)
| HrtCancel                                (* hrt_cancel(&_call) *)
| HrtCallEvery (delay interval : Z)        (* hrt_call_every *)
| FlushAccelReports                        (* _accel_reports->flush() *)
| FlushGyroReports                         (* _gyro_reports->flush() *)
| SetCutoffFrequency (f : filter_id) (sample_rate cutoff : F32.float).

Definition is_enter (ev : sys_event) : bool :=
  match ev with EnterCriticalSection => true | _ => false end.
Definition is_leave (ev : sys_event) : bool :=
  match ev with LeaveCriticalSection => true | _ => false end.
Definition is_reset_command (h : icm20602_h) (ev : sys_event) : bool :=
  match ev with
  | Bus (BusWrite ICMREG_PWR_MGMT_1 v) => v =? wrap8 (BIT_H_RESET h)
  | _ => false
  end.

(** The bus events among the actions. *)
Definition bus_events (evs : list sys_event) : list event :=
  flat_map (fun ev => match ev with Bus b => [b] | _ => [] end) evs.

(** [struct gyro_calibration_s] (drv_gyro.h). *)
Record gyro_calibration_s := {
  gyro_x_offset : F32.float; gyro_x_scale : F32.float;
  gyro_y_offset : F32.float; gyro_y_scale : F32.float;
  gyro_z_offset : F32.float; gyro_z_scale : F32.float
}.

(** The driver with the members that the functions below use and that
    [ICM20602] leaves out. *)
Record Driver := {
  core : ICM20602;
  _gyro_scale : gyro_calibration_s;
  _call_interval : Z;               (* unsigned, microseconds; 0 = manual *)
  _call_period : Z                  (* _call.period *)
}.

Definition set_core (c : ICM20602) (dv : Driver) : Driver :=
  {| core := c; _gyro_scale := _gyro_scale dv;
     _call_interval := _call_interval dv; _call_period := _call_period dv |}.

(** [stop]: the timer is cancelled, the duplicate latch is zeroed and both
    buffers are flushed.  The duplicate flag is left as it is. *)
Definition stop (d : ICM20602) : ICM20602 * list sys_event :=
  (set_last_accel (repeat x00%byte 6) d,
   [HrtCancel; FlushAccelReports; FlushGyroReports]).

(** [start]. *)
Definition start (dv : Driver) : Driver * list sys_event :=
  let '(c, evs) := stop (core dv) in
  (set_core c dv,
   evs ++ [FlushAccelReports; FlushGyroReports;
           HrtCallEvery 1000
             (wrap32 (_call_interval dv - ICM20602_TIMER_REDUCTION))]).

(** ** Poll rate *)

(** [ioctl(SENSORIOCSPOLLRATE, arg)].  [cutoff_accel] and [cutoff_gyro] are
    what the software filters report as their cut-off frequency.  The
    requests for the maximal and the default rate call [ioctl] again with
    a rate in Hz; [fuel] bounds that recursion. *)
Fixpoint set_pollrate (fuel : nat) (b : icm20602_bits)
         (cutoff_accel cutoff_gyro : F32.float) (arg : Z) (dv : Driver)
  : option (Z * Driver * list sys_event) :=
  match fuel with
  | O => None
  | S fuel' =>
    if arg =? SENSOR_POLLRATE_MANUAL b then
      (* switching to manual polling *)
      let '(c, evs) := stop (core dv) in
      Some (OK,
            {| core := c; _gyro_scale := _gyro_scale dv;
               _call_interval := 0; _call_period := _call_period dv |},
            evs)
    else if (arg =? SENSOR_POLLRATE_EXTERNAL b) || (arg =? 0) then
      (* external signalling not supported; zero would be bad *)
      Some (- EINVAL, dv, [])
    else if arg =? SENSOR_POLLRATE_MAX b then
      set_pollrate fuel' b cutoff_accel cutoff_gyro 1000 dv
    else if arg =? SENSOR_POLLRATE_DEFAULT b then
      set_pollrate fuel' b cutoff_accel cutoff_gyro
                   (ICM20602_ACCEL_DEFAULT_RATE b) dv
    else
      (* adjust to a legal polling interval in Hz *)
      let want_start := _call_interval dv =? 0 in
      let ticks := 1000000 / arg in
      if ticks <? 1000 then Some (- EINVAL, dv, [])
      else
        let sample_rate := F32.div (F32.of_Z 1000000) (F32.of_Z ticks) in
        let '(c1, w1) :=
          _set_dlpf_filter b (float_to_Z cutoff_accel) (core dv) in
        let '(c2, w2) := _set_dlpf_filter b (float_to_Z cutoff_gyro) c1 in
        let evs :=
          map Bus w1
          ++ [SetCutoffFrequency accel_filter_x sample_rate cutoff_accel;
              SetCutoffFrequency accel_filter_y sample_rate cutoff_accel;
              SetCutoffFrequency accel_filter_z sample_rate cutoff_accel]
          ++ map Bus w2
          ++ [SetCutoffFrequency gyro_filter_x sample_rate cutoff_gyro;
              SetCutoffFrequency gyro_filter_y sample_rate cutoff_gyro;
              SetCutoffFrequency gyro_filter_z sample_rate cutoff_gyro] in
        let dv1 :=
          {| core := c2; _gyro_scale := _gyro_scale dv;
             _call_interval := ticks;
             _call_period := ticks - ICM20602_TIMER_REDUCTION |} in
        if want_start then
          let '(dv2, evs2) := start dv1 in Some (OK, dv2, evs ++ evs2)
        else Some (OK, dv1, evs)
  end.

(** [ioctl(SENSORIOCGPOLLRATE)]. *)
Definition get_pollrate (b : icm20602_bits) (dv : Driver) : Z :=
  if _call_interval dv =? 0 then SENSOR_POLLRATE_MANUAL b
  else 1000000 / _call_interval dv.

(** [ioctl(ACCELIOCGRANGE)]:
    [(unsigned long)(_accel_range_m_s2 / ICM20602_ONE_G + 0.5f)]. *)
Definition get_accel_range (h : icm20602_h) (d : ICM20602) : Z :=
  wrap32 (float_to_Z
            (F32.add (F32.div (_accel_range_m_s2 d) (ICM20602_ONE_G h))
                     (f32_lit 1 2))).

(** ** Reset *)

Definition set_gyro_range (scale rad_s : F32.float) (d : ICM20602) : ICM20602 :=
  {| _accel_scale := _accel_scale d;
     _accel_range_scale := _accel_range_scale d;
     _accel_range_m_s2 := _accel_range_m_s2 d;
     _gyro_range_scale := scale; _gyro_range_rad_s := rad_s;
     _sample_rate := _sample_rate d; _sample_perf := _sample_perf d;
     _bad_transfers := _bad_transfers d; _bad_registers := _bad_registers d;
     _good_transfers := _good_transfers d; _duplicates := _duplicates d;
     _register_wait := _register_wait d; _reset_wait := _reset_wait d;
     _checked_values := _checked_values d; _checked_next := _checked_next d;
     _in_factory_test := _in_factory_test d; _last_accel := _last_accel d;
     _got_duplicate := _got_duplicate d; _pub_blocked := _pub_blocked d |}.

(** The loop of [reset]: [tries] attempts are left, [reply k] is the byte
    the [k]-th register read of this call returns.  The result carries the
    number of reads made so far. *)
Fixpoint reset_attempts (h : icm20602_h) (b : icm20602_bits) (tries : nat)
         (k : nat) (reply : nat -> Z) (d : ICM20602)
  : nat * ICM20602 * list sys_event :=
  match tries with
  | O => (k, d, [])
  | S tries' =>
      let evs1 :=
        [EnterCriticalSection]
        ++ map Bus (write_reg ICMREG_PWR_MGMT_1 (BIT_H_RESET h))
        ++ [UpUdelay 10000;
            Bus (BusRead ICMREG_PWR_MGMT_1 ICM20602_HIGH_BUS_SPEED)] in
      if negb (Z.land (wrap8 (reply k)) (BIT_H_RESET h) =? 0) then
        (S k, d, evs1)
      else
        (* wake up the device and select the best available clock *)
        let '(d1, w) :=
          write_checked_reg ICMREG_PWR_MGMT_1 (BITS_BESTCLOCK_PLL3 b) d in
        let evs2 :=
          evs1 ++ map Bus w
          ++ [UpUdelay 1000; LeaveCriticalSection;
              Bus (BusRead ICMREG_PWR_MGMT_1 ICM20602_LOW_BUS_SPEED)] in
        if wrap8 (reply (S k)) =? BITS_BESTCLOCK_PLL3 b then
          (S (S k), d1, evs2)
        else
          let '(k', d', evs3) :=
            reset_attempts h b tries' (S (S k)) reply d1 in
          (k', d', evs2 ++ [CountResetRetry; Usleep 2000] ++ evs3)
  end.

(** [reset].  [tries] starts at 5 and is decremented before it is tested,
    which leaves four attempts. *)
Definition reset (h : icm20602_h) (b : icm20602_bits) (reply : nat -> Z)
           (d : ICM20602) : Z * ICM20602 * list sys_event :=
  let '(k, d, evs) := reset_attempts h b 4 0 reply d in
  let evs := evs ++ [Bus (BusRead ICMREG_PWR_MGMT_1 ICM20602_LOW_BUS_SPEED)] in
  if negb (wrap8 (reply k) =? BITS_BESTCLOCK_PLL3 b) then (- EIO, d, evs)
  else
    (* sample rate *)
    let '(d, w_rate) := _set_sample_rate h (_sample_rate d) d in
    (* on-chip filter *)
    let '(d, w_dlpf) :=
      _set_dlpf_filter b (ICM20602_DEFAULT_ONCHIP_FILTER_FREQ b) d in
    (* gyro scale 2000 deg/s *)
    let '(d, w_gyro) :=
      write_checked_reg ICMREG_GYRO_CONFIG (BITS_FS_2000DPS b) d in
    let d :=
      set_gyro_range
        (double_to_float (f64_div (f64_lit 174532 10000000) (f64_lit 164 10)))
        (F32.mul (F32.div (F32.of_Z 2000) (F32.of_Z 180)) (M_PI_F b)) d in
    let '(_, d, w_range) := set_accel_range h 8 d in
    (* interrupt on data ready, cleared on any read *)
    let '(d, w_int) :=
      write_checked_reg ICMREG_INT_ENABLE (BIT_DATA_RDY_INT_EN b) d in
    let '(d, w_pin) :=
      write_checked_reg ICMREG_INT_PIN_CFG (BIT_INT_ANYRD_2CLEAR b) d in
    (OK, d,
     evs ++ [Usleep 1000] ++ map Bus w_rate ++ [Usleep 1000]
     ++ map Bus w_dlpf ++ [Usleep 1000] ++ map Bus w_gyro ++ [Usleep 1000]
     ++ map Bus w_range ++ [Usleep 1000] ++ map Bus w_int ++ [Usleep 1000]
     ++ map Bus w_pin ++ [Usleep 2000]).

(** ** Self tests *)

(** [self_test]: one measurement is forced when none has completed yet. *)
Definition self_test (e : cycle_env) (d : ICM20602)
  : Z * ICM20602 * list event :=
  let '(d, evs) :=
    if (_sample_perf d =? 0)%N
    then (m_state (measure e d), m_events (measure e d)) else (d, []) in
  (if (0 <? _sample_perf d)%N then 0 else 1, d, evs).

(** The test applied to one axis by [accel_self_test]. *)
Definition accel_axis_bad (offset scale : F32.float) : bool :=
  F32.ltb (fabsf offset) (f32_lit 1 1000000)
  || (F32.gtb (fabsf (f32_sub scale (F32.of_Z 1))) (f32_lit 4 10)
      || F32.ltb (fabsf (f32_sub scale (F32.of_Z 1))) (f32_lit 1 1000000)).

(** [accel_self_test]: 0 on success, 1 on failure. *)
Definition accel_self_test (e : cycle_env) (d : ICM20602)
  : Z * ICM20602 * list event :=
  let '(failed, d, evs) := self_test e d in
  let s := _accel_scale d in
  if negb (failed =? 0) then (1, d, evs)
  else if accel_axis_bad (x_offset s) (x_scale s) then (1, d, evs)
  else if accel_axis_bad (y_offset s) (y_scale s) then (1, d, evs)
  else if accel_axis_bad (z_offset s) (z_scale s) then (1, d, evs)
  else (0, d, evs).

(** The test applied to one axis by [gyro_self_test]. *)
Definition gyro_axis_bad (offset scale : F32.float) : bool :=
  F32.gtb (fabsf offset) (f32_lit 34 100)
  || F32.gtb (fabsf (f32_sub scale (F32.of_Z 1))) (f32_lit 3 10).

(** [gyro_self_test]: 0 on success, 1 on failure. *)
Definition gyro_self_test (e : cycle_env) (dv : Driver)
  : Z * Driver * list event :=
  let '(failed, d, evs) := self_test e (core dv) in
  let dv := set_core d dv in
  let s := _gyro_scale dv in
  if negb (failed =? 0) then (1, dv, evs)
  else if gyro_axis_bad (gyro_x_offset s) (gyro_x_scale s) then (1, dv, evs)
  else if gyro_axis_bad (gyro_y_offset s) (gyro_y_scale s) then (1, dv, evs)
  else if gyro_axis_bad (gyro_z_offset s) (gyro_z_scale s) then (1, dv, evs)
  else if F32.ltb (fabsf (gyro_x_offset s)) (f32_lit 1 1000000)
          && F32.ltb (fabsf (gyro_y_offset s)) (f32_lit 1 1000000)
          && F32.ltb (fabsf (gyro_z_offset s)) (f32_lit 1 1000000)
  then (1, dv, evs)        (* if all are zero, this device is not calibrated *)
  else (0, dv, evs).

(** ** Sequences of calls *)

(** The entry points that act on the core state. *)
Inductive call :=
| CallMeasure (e : cycle_env)
| CallCheckRegisters (now v : Z)
| CallIoctl (cmd : ioctl_cmd)
| CallSetDlpf (frequency_hz : Z)
| CallReset (reply : nat -> Z)
| CallStop.

Definition call_step (h : icm20602_h) (b : icm20602_bits) (c : call)
           (d : ICM20602) : ICM20602 :=
  match c with
  | CallMeasure e => m_state (measure e d)
  | CallCheckRegisters now v => fst (check_registers h now v d)
  | CallIoctl cmd => m_state (ioctl h cmd d)
  | CallSetDlpf f => fst (_set_dlpf_filter b f d)
  | CallReset reply => snd (fst (reset h b reply d))
  | CallStop => fst (stop d)
  end.

Fixpoint run_calls (h : icm20602_h) (b : icm20602_bits) (cs : list call)
         (d : ICM20602) : ICM20602 :=
  match cs with
  | [] => d
  | c :: cs' => run_calls h b cs' (call_step h b c d)
  end.

(** What every call keeps: the counters and the cursor stay in range and
    the shadow set keeps its eight byte-sized entries. *)
Definition driver_inv (d : ICM20602) : Prop :=
  0 <= _register_wait d <= 20
  /\ 0 <= _checked_next d < ICM20602_NUM_CHECKED_REGISTERS
  /\ length (_checked_values d) = 8%nat
  /\ Forall (fun v => 0 <= v < 256) (_checked_values d)
  /\ 5 <= _sample_rate d <= 1000.

(** Whether an invocation fetches a sample depends on the driver state
    only through two members that [measure] never changes. *)
Definition fetches (d : ICM20602) (e : cycle_env) : bool :=
  negb (_in_factory_test d) && negb (env_now e <? _reset_wait d)
  && match env_read e with Some _ => true | None => false end.

(** The three transfer counters together. *)
Definition samples_counted (d : ICM20602) : N :=
  (_duplicates d + _bad_transfers d + _good_transfers d)%N.

(** The bus traffic of one call and of a sequence of calls. *)
Definition call_events (h : icm20602_h) (b : icm20602_bits) (c : call)
           (d : ICM20602) : list event :=
  match c with
  | CallMeasure e => m_events (measure e d)
  | CallCheckRegisters now v => snd (check_registers h now v d)
  | CallIoctl cmd => m_events (ioctl h cmd d)
  | CallSetDlpf f => snd (_set_dlpf_filter b f d)
  | CallReset reply => bus_events (snd (reset h b reply d))
  | CallStop => []
  end.

Fixpoint run_calls_events (h : icm20602_h) (b : icm20602_bits)
         (cs : list call) (d : ICM20602) : list event :=
  match cs with
  | [] => []
  | c :: cs' =>
      call_events h b c d ++ run_calls_events h b cs' (call_step h b c d)
  end.

(** The shadow set of [d'] is in step with the bus traffic [evs] that led
    from [d] to it: for every checked register other than PWR_MGMT_1, the
    shadow value is the byte last written to the register, or what it was
    in [d] when nothing was written to it. *)
Definition in_step (d d' : ICM20602) (evs : list event) : Prop :=
  forall i : nat,
    (1 <= i < 8)%nat ->
    _checked_values d' !! i
    = match last_write (checked_register (Z.of_nat i)) evs with
      | Some v => Some v
      | None => _checked_values d !! i
      end.

(** A configuration step from [d] to [d'] with bus traffic [evs]: the
    shadow set keeps its size and its byte-sized entries and stays in step
    with the bus, and the cursor and the wait counter are not touched. *)
Definition config_step (d d' : ICM20602) (evs : list event) : Prop :=
  length (_checked_values d') = 8%nat
  /\ (Forall (fun v => 0 <= v < 256) (_checked_values d) ->
      Forall (fun v => 0 <= v < 256) (_checked_values d'))
  /\ in_step d d' evs
  /\ _checked_next d' = _checked_next d
  /\ _register_wait d' = _register_wait d.

(** The numbers of critical sections entered and left. *)
Definition sections_entered (evs : list sys_event) : nat :=
  length (List.filter is_enter evs).
Definition sections_left (evs : list sys_event) : nat :=
  length (List.filter is_leave evs).


(** ** More sample inputs *)

Definition reference_bits : icm20602_bits :=
  {| dlpf_bits := fun c =>
       match c with
       | BITS_DLPF_CFG_188HZ => 1 | BITS_DLPF_CFG_98HZ => 2
       | BITS_DLPF_CFG_42HZ => 3 | BITS_DLPF_CFG_20HZ => 4
       | BITS_DLPF_CFG_10HZ => 5 | BITS_DLPF_CFG_5HZ => 6
       | BITS_DLPF_CFG_4000HZ_NOLPF => 7
       end;
     BITS_BESTCLOCK_PLL3 := 3;
     BITS_FS_2000DPS := 24;
     BIT_DATA_RDY_INT_EN := 1;
     BIT_INT_ANYRD_2CLEAR := 16;
     ICM20602_DEFAULT_ONCHIP_FILTER_FREQ := 20;
     ICM20602_ACCEL_DEFAULT_RATE := 1000;
     M_PI_F := f32_lit 3141593 1000000;
     SENSOR_POLLRATE_MANUAL := 1000000;
     SENSOR_POLLRATE_EXTERNAL := 1000001;
     SENSOR_POLLRATE_MAX := 1000002;
     SENSOR_POLLRATE_DEFAULT := 1000003 |}.

Definition unit_gyro_calibration : gyro_calibration_s :=
  {| gyro_x_offset := F32.of_Z 0; gyro_x_scale := F32.of_Z 1;
     gyro_y_offset := F32.of_Z 0; gyro_y_scale := F32.of_Z 1;
     gyro_z_offset := F32.of_Z 0; gyro_z_scale := F32.of_Z 1 |}.

(** The driver in manual mode after construction. *)
Definition initial_driver : Driver :=
  {| core := initial_state; _gyro_scale := unit_gyro_calibration;
     _call_interval := 0; _call_period := 0 |}.

(** A chip that acknowledges the reset at once: the reset bit reads clear
    and the clock selection reads back. *)
Definition reply_ok : nat -> Z := fun k => 3.

(** A chip whose reset bit stays set. *)
Definition reply_stuck : nat -> Z := fun k => 128.


(** A calibrated gyro: small non-zero offsets, scales near one. *)
Definition calibrated_gyro : gyro_calibration_s :=
  {| gyro_x_offset := f32_lit 1 100; gyro_x_scale := F32.of_Z 1;
     gyro_y_offset := f32_lit 2 100; gyro_y_scale := F32.of_Z 1;
     gyro_z_offset := f32_lit 3 100; gyro_z_scale := f32_lit 11 10 |}.

(** A reset, a measurement, a failing health check, two requests, a
    filter setting and a stop. *)
Definition sample_calls : list call :=
  [CallReset reply_ok; CallMeasure cycle_a; CallCheckRegisters 100 7;
   CallIoctl (ACCELIOCSSAMPLERATE 250); CallIoctl (ACCELIOCSRANGE 3);
   CallSetDlpf 42; CallStop].

(** A driver with a calibrated gyro that has published one sample. *)
Definition calibrated_driver : Driver :=
  {| core := after_a; _gyro_scale := calibrated_gyro;
     _call_interval := 1000; _call_period := 800 |}.

(** A sensor at rest in free fall: the accel triplet is zero, the
    temperature and the gyro fields are not. *)
Definition sample_still : ICMReport :=
  {| status := x01%byte;
     accel_x := (x00, x00)%byte; accel_y := (x00, x00)%byte;
     accel_z := (x00, x00)%byte; temp := (x01, x20)%byte;
     gyro_x := (x00, x03)%byte; gyro_y := (x00, x05)%byte;
     gyro_z := (x00, x07)%byte |}.
Definition cycle_still : cycle_env := cycle_at 20 sample_still.
Definition run_of_still : list cycle_env :=
  [cycle_still; cycle_still; cycle_still].

(** * Properties *)

(** ** Machine integers *)

Lemma wrap8_small z : 0 <= z < 256 -> wrap8 z = z.
Proof. intros Hz. unfold wrap8. now apply Z.mod_small. Qed.

Lemma wrap64_small z : 0 <= z < 18446744073709551616 -> wrap64 z = z.
Proof. intros Hz. unfold wrap64. now apply Z.mod_small. Qed.

Lemma wrap16s_small z : -32768 <= z <= 32767 -> wrap16s z = z.
Proof.
  intros Hz. unfold wrap16s.
  rewrite Z.mod_small by lia. lia.
Qed.

Lemma wrap16s_range z : -32768 <= wrap16s z <= 32767.
Proof.
  unfold wrap16s.
  pose proof (Z.mod_pos_bound (z + 32768) 65536 ltac:(lia)). lia.
Qed.

Lemma int16_t_from_bytes_range b :
  INT16_MIN <= int16_t_from_bytes b <= INT16_MAX.
Proof. apply wrap16s_range. Qed.

(** ** Sample rate *)

Lemma quotient_fits_uint8 hz : 4 <= hz -> 0 <= 1000 / hz <= 250.
Proof.
  intros Hhz. split.
  - apply Z.div_pos; lia.
  - apply Z.div_le_upper_bound; lia.
Qed.

(** The divider that [_set_sample_rate] derives from a request it does not
    replace by the default, for every request except 3 Hz. *)
Lemma divider_of_request hz :
  0 < hz -> hz <> 3 ->
  let div := wrap8 (1000 / hz) in
  let div := if 200 <? div then 200 else div in
  (if div <? 1 then 1 else div) = clamp (1000 / hz) 1 200.
Proof.
  intros Hpos H3.
  assert (Hcases : hz = 1 \/ hz = 2 \/ 4 <= hz) by lia.
  destruct Hcases as [-> | [-> | Hge]]; [reflexivity | reflexivity |].
  pose proof (quotient_fits_uint8 hz Hge) as Hq.
  cbv zeta. rewrite wrap8_small by lia. unfold clamp.
  destruct (Z.ltb_spec 200 (1000 / hz));
    [ | destruct (Z.ltb_spec (1000 / hz) 1)]; simpl; lia.
Qed.

Lemma clamp_range x : 1 <= clamp x 1 200 <= 200.
Proof. unfold clamp. lia. Qed.

(** C4 (amended). For every requested sample rate that is positive, is not
    one of the two "use the default" request values and is not 3 Hz, the
    programmed divider equals clamp(floor(1000/requested_Hz), 1, 200), the
    quotient being truncated and not rounded to nearest, and the resulting
    effective sample rate equals floor(1000/divider).  A request of 0 or of
    a "use the default" value is treated as a request for the default rate. *)
Theorem set_sample_rate_divider (h : icm20602_h) (hz : Z) (d : ICM20602) :
  0 < hz ->
  hz <> 3 ->
  hz <> GYRO_SAMPLERATE_DEFAULT h ->
  hz <> ACCEL_SAMPLERATE_DEFAULT h ->
  let div := clamp (1000 / hz) 1 200 in
  programmed_divider (snd (_set_sample_rate h hz d)) = Some div
  /\ _sample_rate (fst (_set_sample_rate h hz d)) = 1000 / div
  /\ _set_sample_rate h 0 d
     = _set_sample_rate h (ICM20602_GYRO_DEFAULT_RATE h) d
  /\ _set_sample_rate h (GYRO_SAMPLERATE_DEFAULT h) d
     = _set_sample_rate h (ICM20602_GYRO_DEFAULT_RATE h) d
  /\ _set_sample_rate h (ACCEL_SAMPLERATE_DEFAULT h) d
     = _set_sample_rate h (ICM20602_GYRO_DEFAULT_RATE h) d.
Proof.
  intros Hpos H3 Hg Ha div.
  assert (Hsame : forall req,
             (req =? 0) || (req =? GYRO_SAMPLERATE_DEFAULT h)
             || (req =? ACCEL_SAMPLERATE_DEFAULT h) = true ->
             _set_sample_rate h req d
             = _set_sample_rate h (ICM20602_GYRO_DEFAULT_RATE h) d).
  { intros req Hreq. unfold _set_sample_rate. rewrite Hreq.
    destruct ((ICM20602_GYRO_DEFAULT_RATE h =? 0)
              || (ICM20602_GYRO_DEFAULT_RATE h =? GYRO_SAMPLERATE_DEFAULT h)
              || (ICM20602_GYRO_DEFAULT_RATE h =? ACCEL_SAMPLERATE_DEFAULT h));
      reflexivity. }
  assert (Hkeep : (hz =? 0) || (hz =? GYRO_SAMPLERATE_DEFAULT h)
                  || (hz =? ACCEL_SAMPLERATE_DEFAULT h) = false).
  { rewrite !orb_false_iff, !Z.eqb_neq. lia. }
  pose proof (divider_of_request hz Hpos H3) as Hdiv. cbv zeta in Hdiv.
  pose proof (clamp_range (1000 / hz)) as Hrange.
  assert (Hrun : _set_sample_rate h hz d
                 = (set_sample_rate (1000 / div)
                      (fst (write_checked_reg ICMREG_SMPLRT_DIV (div - 1) d)),
                    [BusWrite ICMREG_SMPLRT_DIV (div - 1)])).
  { unfold _set_sample_rate. rewrite Hkeep, Hdiv. fold div.
    unfold write_checked_reg, write_reg. cbv zeta.
    rewrite !wrap8_small by (rewrite ?wrap8_small; lia). reflexivity. }
  split; [| split; [| split; [| split]]].
  - rewrite Hrun. simpl. f_equal. lia.
  - rewrite Hrun. reflexivity.
  - apply Hsame. reflexivity.
  - apply Hsame. rewrite Z.eqb_refl. now rewrite orb_true_r.
  - apply Hsame. rewrite Z.eqb_refl. now rewrite orb_true_r.
Qed.

(** Requesting 500 Hz yields divider 2 and effective rate 500 Hz, and
    requesting 1 Hz yields divider 200 and effective rate 5 Hz. *)
Lemma set_sample_rate_divider_witness :
  (programmed_divider (snd (_set_sample_rate reference_h 500 initial_state))
   = Some 2
   /\ _sample_rate (fst (_set_sample_rate reference_h 500 initial_state)) = 500)
  /\ (programmed_divider (snd (_set_sample_rate reference_h 1 initial_state))
      = Some 200
      /\ _sample_rate (fst (_set_sample_rate reference_h 1 initial_state)) = 5).
Proof.
  split.
  - pose proof (set_sample_rate_divider reference_h 500 initial_state
                  ltac:(lia) ltac:(lia) ltac:(simpl; lia) ltac:(simpl; lia))
      as [Hdiv [Hrate _]].
    split; [exact Hdiv | exact Hrate].
  - pose proof (set_sample_rate_divider reference_h 1 initial_state
                  ltac:(lia) ltac:(lia) ltac:(simpl; lia) ltac:(simpl; lia))
      as [Hdiv [Hrate _]].
    split; [exact Hdiv | exact Hrate].
Defined.

(** C4 as stated fails: at 600 Hz the nearest integer to 1000/600 is 2, but
    the driver programs divider 1 and runs at 1000 Hz. *)
Lemma set_sample_rate_600_truncates :
  spec_divider 600 = 2
  /\ programmed_divider (snd (_set_sample_rate reference_h 600 initial_state))
     = Some 1
  /\ _sample_rate (fst (_set_sample_rate reference_h 600 initial_state)) = 1000
  /\ programmed_divider (snd (_set_sample_rate reference_h 600 initial_state))
     <> Some (spec_divider 600).
Proof. repeat split; try reflexivity. discriminate. Qed.

(** At 3 Hz the quotient 333 does not fit [uint8_t]: it becomes 77 before
    it is compared with 200, and the chip runs at 12 Hz. *)
Lemma set_sample_rate_3Hz :
  programmed_divider (snd (_set_sample_rate reference_h 3 initial_state))
  = Some 77
  /\ _sample_rate (fst (_set_sample_rate reference_h 3 initial_state)) = 12.
Proof. split; reflexivity. Qed.

(** ** Accelerometer range *)

Lemma set_accel_range_unfold h max_g d :
  set_accel_range h max_g d
  = (OK,
     set_accel_range_m_s2
       (F32.mul (F32.of_Z (snd (accel_range_select max_g))) (ICM20602_ONE_G h))
       (set_accel_range_scale
          (F32.div (ICM20602_ONE_G h)
                   (F32.of_Z (snd (fst (accel_range_select max_g)))))
          (fst (write_checked_reg ICMREG_ACCEL_CONFIG
                  (Z.shiftl (fst (fst (accel_range_select max_g))) 3) d))),
     snd (write_checked_reg ICMREG_ACCEL_CONFIG
            (Z.shiftl (fst (fst (accel_range_select max_g))) 3) d)).
Proof.
  unfold set_accel_range.
  destruct (accel_range_select max_g) as [[afs_sel lsb_per_g] max_accel_g].
  reflexivity.
Qed.

(** The ladder of [set_accel_range]: the bucket is chosen by exclusive
    thresholds (>8: 16 g with 2048 LSB-per-g, >4: 8 g with 4096, >2: 4 g
    with 8192, else 2 g with 16384); for every request of at most 16 g this
    is the smallest supported bucket that is not below the request.  The
    resulting scale factor is standard gravity divided by the LSB-per-g of
    the chosen bucket and the resulting maximal range is bucket-g times
    standard gravity. *)
Lemma set_accel_range_ladder (h : icm20602_h) (max_g : Z) (d : ICM20602) :
  let lsb_per_g := snd (fst (accel_range_select max_g)) in
  let bucket := snd (accel_range_select max_g) in
  let d' := m_state (set_accel_range h max_g d) in
  (8 < max_g -> bucket = 16 /\ lsb_per_g = 2048)
  /\ (4 < max_g <= 8 -> bucket = 8 /\ lsb_per_g = 4096)
  /\ (2 < max_g <= 4 -> bucket = 4 /\ lsb_per_g = 8192)
  /\ (max_g <= 2 -> bucket = 2 /\ lsb_per_g = 16384)
  /\ In (bucket, lsb_per_g) supported_ranges
  /\ (max_g <= 16 ->
      max_g <= bucket
      /\ forall b l, In (b, l) supported_ranges -> max_g <= b -> bucket <= b)
  /\ _accel_range_scale d' = F32.div (ICM20602_ONE_G h) (F32.of_Z lsb_per_g)
  /\ _accel_range_m_s2 d' = F32.mul (F32.of_Z bucket) (ICM20602_ONE_G h).
Proof.
  intros lsb_per_g bucket d'.
  assert (Hsupported : forall b l, In (b, l) supported_ranges ->
                                   b = 2 \/ b = 4 \/ b = 8 \/ b = 16).
  { intros b l Hin. simpl in Hin.
    repeat (destruct Hin as [Hin | Hin]; [inversion Hin; lia |]).
    contradiction. }
  subst lsb_per_g bucket d'. rewrite set_accel_range_unfold.
  unfold accel_range_select, m_state, m_ret.
  destruct (Z.ltb_spec 8 max_g) as [H8 | H8];
    [ | destruct (Z.ltb_spec 4 max_g) as [H4 | H4];
        [ | destruct (Z.ltb_spec 2 max_g) as [H2 | H2]]];
    cbn [fst snd];
    (split; [intros; try lia; now split |]);
    (split; [intros; try lia; now split |]);
    (split; [intros; try lia; now split |]);
    (split; [intros; try lia; now split |]);
    (split; [simpl; tauto |]);
    (split; [intros Hle; split; [lia |];
             intros b l Hin Hb; destruct (Hsupported b l Hin); lia |]);
    repeat split.
Qed.

(** Requesting max-g = 10 selects the 16 g bucket, with scale equal to
    standard gravity divided by 2048. *)
Lemma set_accel_range_ladder_witness :
  snd (accel_range_select 10) = 16
  /\ _accel_range_scale (m_state (set_accel_range reference_h 10 initial_state))
     = F32.div (ICM20602_ONE_G reference_h) (F32.of_Z 2048)
  /\ _accel_range_m_s2 (m_state (set_accel_range reference_h 10 initial_state))
     = F32.mul (F32.of_Z 16) (ICM20602_ONE_G reference_h).
Proof.
  pose proof (set_accel_range_ladder reference_h 10 initial_state)
    as (H16 & _ & _ & _ & _ & _ & Hscale & Hrange).
  destruct (H16 ltac:(lia)) as [Hbucket Hlsb].
  split; [exact Hbucket | split; [exact Hscale | exact Hrange]].
Defined.

(** C6. The selected bucket is to be the smallest supported bucket that is
    not below the request, and the declaration of [set_accel_range] promises
    OK "if the value can be supported, -ERANGE otherwise".  At a request of
    17 g, which no supported bucket reaches, the code does neither: it
    takes the 16 g bucket (2048 LSB per g), which is below the request, and
    returns OK, directly and through the range request of [ioctl]. *)
Lemma set_accel_range_17_below_request :
  snd (accel_range_select 17) = 16
  /\ m_ret (set_accel_range reference_h 17 initial_state) = OK
  /\ m_ret (set_accel_range reference_h 17 initial_state) <> - ERANGE
  /\ m_ret (ioctl reference_h (ACCELIOCSRANGE 17) initial_state) = OK
  /\ _accel_range_scale (m_state (set_accel_range reference_h 17 initial_state))
     = F32.div (ICM20602_ONE_G reference_h) (F32.of_Z 2048)
  /\ _accel_range_m_s2 (m_state (set_accel_range reference_h 17 initial_state))
     = F32.mul (F32.of_Z 16) (ICM20602_ONE_G reference_h)
  /\ ~ (17 <= snd (accel_range_select 17))
  /\ ~ (exists b l, In (b, l) supported_ranges /\ 17 <= b).
Proof.
  split; [reflexivity |]. split; [reflexivity |].
  split; [vm_compute; discriminate |].
  split; [reflexivity |]. split; [reflexivity |]. split; [reflexivity |].
  split.
  - simpl. lia.
  - intros (b & l & Hin & Hb). simpl in Hin.
    repeat (destruct Hin as [Hin | Hin]; [inversion Hin; lia |]).
    contradiction.
Qed.

(** ** Accelerometer calibration *)

(** C7 (amended). The accel calibration setter accepts a calibration blob
    if and only if the single-precision sum of its three axis scales is
    strictly greater than 2.0 and strictly less than 4.0; when it accepts,
    the blob replaces the calibration and nothing else changes; when it
    rejects, it returns the invalid-argument error and leaves the driver
    state unchanged.  No bus traffic results either way. *)
Theorem accel_scale_setter_validates
        (h : icm20602_h) (s : accel_calibration_s) (d : ICM20602) :
  let out := ioctl h (ACCELIOCSSCALE s) d in
  (m_ret out = OK
   <-> F32.ltb (F32.of_Z 2) (scale_sum s) = true
       /\ F32.ltb (scale_sum s) (F32.of_Z 4) = true)
  /\ (m_ret out = OK -> m_state out = set_accel_scale s d)
  /\ (m_ret out <> OK -> m_ret out = - EINVAL /\ m_state out = d)
  /\ m_events out = [].
Proof.
  unfold ioctl, F32.gtb, F32.ltb, m_ret, m_state, m_events.
  destruct (SFltb (F32.of_Z 2) (scale_sum s)) eqn:Hlo;
    destruct (SFltb (scale_sum s) (F32.of_Z 4)) eqn:Hhi; simpl;
    unfold OK, EINVAL;
    repeat split; intros; try reflexivity; try discriminate; try lia;
    try (destruct H; discriminate).
Qed.

(** A blob whose scales sum to 5.0 is rejected with the invalid-argument
    error and the prior calibration state stays as it was; unit scales are
    accepted. *)
Lemma accel_scale_setter_validates_witness :
  scale_sum (calibration_with_scales 2 2 1) = F32.of_Z 5
  /\ m_ret (ioctl reference_h (ACCELIOCSSCALE (calibration_with_scales 2 2 1))
              initial_state) = - EINVAL
  /\ m_state (ioctl reference_h (ACCELIOCSSCALE (calibration_with_scales 2 2 1))
                initial_state) = initial_state
  /\ m_ret (ioctl reference_h (ACCELIOCSSCALE (calibration_with_scales 1 1 1))
              initial_state) = OK.
Proof.
  pose proof (accel_scale_setter_validates reference_h
                (calibration_with_scales 2 2 1) initial_state)
    as (_ & _ & Hreject & _).
  pose proof (accel_scale_setter_validates reference_h
                (calibration_with_scales 1 1 1) initial_state)
    as (Haccept & _).
  split; [reflexivity |].
  destruct Hreject as [Hret Hstate]; [vm_compute; discriminate |].
  split; [exact Hret | split; [exact Hstate |]].
  apply Haccept. split; reflexivity.
Defined.

(** C7 as stated fails on the boundary: scales 1.0, 1.0 and 0.0 sum to
    exactly 2.0, which lies within [2.0, 4.0], and the setter rejects them;
    likewise 2.0, 1.0 and 1.0, which sum to exactly 4.0. *)
Lemma accel_scale_setter_rejects_boundary :
  (scale_sum (calibration_with_scales 1 1 0) = F32.of_Z 2
   /\ spec_scale_sum_valid (calibration_with_scales 1 1 0) = true
   /\ m_ret (ioctl reference_h (ACCELIOCSSCALE (calibration_with_scales 1 1 0))
               initial_state) = - EINVAL)
  /\ (scale_sum (calibration_with_scales 2 1 1) = F32.of_Z 4
      /\ spec_scale_sum_valid (calibration_with_scales 2 1 1) = true
      /\ m_ret (ioctl reference_h (ACCELIOCSSCALE (calibration_with_scales 2 1 1))
                  initial_state) = - EINVAL).
Proof. repeat split; reflexivity. Qed.

(** ** Register access *)

(** The checked-write path records the value in the shadow slot of the
    register it writes, and in no other slot. *)
Lemma write_checked_reg_shadow (r : reg) (value : Z) (d : ICM20602) (i : nat) :
  length (_checked_values d) = 8%nat ->
  (i < 8)%nat ->
  _checked_values (fst (write_checked_reg r value d)) !! i
  = if decide (_checked_registers !! i = Some r)
    then Some (wrap8 value) else _checked_values d !! i.
Proof.
  intros Hlen Hi.
  destruct (_checked_values d) as [| v0 [| v1 [| v2 [| v3 [| v4 [| v5 [| v6
             [| v7 [| v8 vs]]]]]]]]] eqn:Hvals; try discriminate Hlen.
  unfold write_checked_reg. cbn [fst set_checked_values _checked_values].
  rewrite Hvals.
  do 8 (destruct i as [| i]; [destruct r; reflexivity |]). lia.
Qed.

(** The raw-write path leaves the driver state, shadow values included,
    untouched: it only produces the bus write. *)
Lemma write_reg_event (r : reg) (value : Z) :
  write_reg r value = [BusWrite r (wrap8 value)].
Proof. reflexivity. Qed.

(** ** Register health check *)

(** C1 (amended). For every invocation of the register health check on a
    shadow mismatch: the bad-register counter is incremented and the sticky
    wait counter is set to 20.  If the cursor is at position 0 or the
    sticky register-wait counter is zero, a full chip reset command is
    issued, the recovery-wait deadline is set to now + 10 ms and the cursor
    is reset to 0 and then advanced, so that it is 1 when the check
    returns.  Otherwise only the mismatched register is rewritten to its
    shadow value, the recovery-wait deadline is set to now + 3 ms and the
    cursor advances to the next position. *)
Theorem check_registers_mismatch
        (h : icm20602_h) (now v : Z) (d : ICM20602) :
  v <> checked_value d (_checked_next d) ->
  0 <= now ->
  now + 10000 < 2 ^ 64 ->
  let r := checked_register (_checked_next d) in
  let d' := fst (check_registers h now v d) in
  let evs := snd (check_registers h now v d) in
  _bad_registers d' = (_bad_registers d + 1)%N
  /\ _register_wait d' = 20
  /\ _checked_values d' = _checked_values d
  /\ (_checked_next d = 0 \/ _register_wait d = 0 ->
      evs = BusRead r ICM20602_HIGH_BUS_SPEED
            :: write_reg ICMREG_PWR_MGMT_1 (BIT_H_RESET h)
      /\ _reset_wait d' = now + 10000
      /\ _checked_next d' = 1)
  /\ (_checked_next d <> 0 /\ _register_wait d <> 0 ->
      evs = BusRead r ICM20602_HIGH_BUS_SPEED
            :: write_reg r (checked_value d (_checked_next d))
      /\ _reset_wait d' = now + 3000
      /\ _checked_next d'
         = wrap8 ((_checked_next d + 1) mod ICM20602_NUM_CHECKED_REGISTERS)).
Proof.
  intros Hne Hnow Hmax r d' evs. subst r d' evs.
  change (2 ^ 64) with 18446744073709551616 in Hmax.
  unfold check_registers.
  apply Z.eqb_neq in Hne. rewrite Hne. cbn [negb].
  cbn [set_bad_registers _register_wait _checked_next].
  destruct (_register_wait d =? 0) eqn:Hwait;
    destruct (_checked_next d =? 0) eqn:Hnext;
    cbn [orb fst snd set_bad_registers set_reset_wait set_checked_next
         set_register_wait _register_wait _checked_next _bad_registers
         _reset_wait _checked_values app checked_value];
    rewrite ?Z.eqb_eq, ?Z.eqb_neq in *;
    (split; [reflexivity |]); (split; [reflexivity |]);
    (split; [reflexivity |]); split; intros Hcase;
    try (exfalso; lia);
    (split; [reflexivity |]); split;
    try reflexivity; apply wrap64_small; lia.
Qed.

(** A mismatch at cursor 0 (full reset, deadline 11000 = 1000 + 10 ms) and a
    mismatch at cursor 1 while the wait counter is 20 (single-register
    rewrite, deadline 23000 = 20000 + 3 ms). *)
Lemma check_registers_mismatch_witness :
  (_register_wait after_mismatch = 20
   /\ _reset_wait after_mismatch = 11000
   /\ _checked_next after_mismatch = 1)
  /\ (snd (check_registers reference_h 20000 9 after_mismatch)
      = [BusRead ICMREG_USER_CTRL ICM20602_HIGH_BUS_SPEED;
         BusWrite ICMREG_USER_CTRL 0]
      /\ _reset_wait (fst (check_registers reference_h 20000 9 after_mismatch))
         = 23000
      /\ _checked_next (fst (check_registers reference_h 20000 9 after_mismatch))
         = 2).
Proof.
  split.
  - pose proof (check_registers_mismatch reference_h 1000 7 initial_state
                  ltac:(vm_compute; discriminate) ltac:(lia) ltac:(lia))
      as (_ & Hwait & _ & Hreset & _).
    destruct (Hreset ltac:(left; reflexivity)) as (_ & Hdeadline & Hcursor).
    split; [exact Hwait | split; [exact Hdeadline | exact Hcursor]].
  - pose proof (check_registers_mismatch reference_h 20000 9 after_mismatch
                  ltac:(vm_compute; discriminate) ltac:(lia) ltac:(lia))
      as (_ & _ & _ & _ & Hfix).
    destruct (Hfix ltac:(split; vm_compute; discriminate))
      as (Hevs & Hdeadline & Hcursor).
    split; [exact Hevs | split; [exact Hdeadline | exact Hcursor]].
Defined.

(** C1 as stated fails: after a mismatch found with the cursor at position
    0 the reset command has been issued and the cursor is 1, not 0, when the
    check returns. *)
Lemma check_registers_cursor_after_reset :
  _checked_next initial_state = 0
  /\ 7 <> checked_value initial_state (_checked_next initial_state)
  /\ In (BusWrite ICMREG_PWR_MGMT_1 128)
        (snd (check_registers reference_h 1000 7 initial_state))
  /\ _checked_next (fst (check_registers reference_h 1000 7 initial_state)) = 1
  /\ _checked_next (fst (check_registers reference_h 1000 7 initial_state)) <> 0.
Proof.
  split; [reflexivity |]. split; [vm_compute; discriminate |].
  split; [vm_compute; tauto |]. split; [reflexivity | vm_compute; discriminate].
Qed.

(** On a match the cursor advances and nothing else happens. *)
Lemma check_registers_match (h : icm20602_h) (now : Z) (d : ICM20602) :
  let v := checked_value d (_checked_next d) in
  check_registers h now v d
  = (set_checked_next
       (wrap8 ((_checked_next d + 1) mod ICM20602_NUM_CHECKED_REGISTERS)) d,
     [BusRead (checked_register (_checked_next d)) ICM20602_HIGH_BUS_SPEED]).
Proof.
  intros v. unfold check_registers. subst v. rewrite Z.eqb_refl. reflexivity.
Qed.

(** ** Measurement: the early exits *)

(** C5 (amended). For every measurement-pipeline invocation occurring while
    the recovery-wait deadline has not yet elapsed, the pipeline returns at
    once: it performs no bus transfer, publishes no report and leaves the
    driver state as it was. *)
Theorem measure_during_reset_wait (e : cycle_env) (d : ICM20602) :
  env_now e < _reset_wait d ->
  measure e d = (OK, d, []).
Proof.
  intros Hwait. unfold measure.
  destruct (_in_factory_test d); [reflexivity |].
  apply Z.ltb_lt in Hwait. rewrite Hwait. reflexivity.
Qed.

Lemma measure_during_reset_wait_witness :
  5000 < _reset_wait after_mismatch
  /\ measure (cycle_at 5000 sample_a) after_mismatch = (OK, after_mismatch, []).
Proof.
  assert (Hwait : env_now (cycle_at 5000 sample_a) < _reset_wait after_mismatch)
    by (vm_compute; reflexivity).
  split; [exact Hwait |].
  exact (measure_during_reset_wait (cycle_at 5000 sample_a) after_mismatch Hwait).
Defined.

(** C5 as stated fails: 5 ms into the 10 ms recovery wait a sample is on
    offer, and the invocation performs no block read. *)
Lemma measure_during_reset_wait_no_transfer :
  env_now (cycle_at 5000 sample_a) < _reset_wait after_mismatch
  /\ env_read (cycle_at 5000 sample_a) = Some sample_a
  /\ ~ In BusReadBlock (m_events (measure (cycle_at 5000 sample_a) after_mismatch)).
Proof.
  split; [vm_compute; reflexivity |]. split; [reflexivity |].
  vm_compute. tauto.
Qed.

(** ** Measurement: the paths after the block read *)

Lemma memcmp_eq_firstn (a b : list byte) (n : nat) :
  memcmp_eq a b n = true -> firstn n a = firstn n b.
Proof.
  revert a b. induction n as [| n IH]; intros a b Hcmp; [reflexivity |].
  destruct a as [| x a], b as [| y b]; simpl in Hcmp; try discriminate.
  apply andb_true_iff in Hcmp as [Hxy Hrest].
  apply byte_dec_bl in Hxy. subst y. simpl. f_equal. now apply IH.
Qed.

Lemma memcmp_eq_copied (a tl : list byte) (n : nat) :
  (n <= length a)%nat -> memcmp_eq a (firstn n a ++ tl) n = true.
Proof.
  revert a. induction n as [| n IH]; intros a Hlen; [reflexivity |].
  destruct a as [| x a]; simpl in Hlen; [lia |].
  simpl. rewrite (byte_dec_lb (eq_refl x)). apply IH. lia.
Qed.

Lemma accel_bytes_length r : length (accel_bytes r) = 6%nat.
Proof. reflexivity. Qed.

(** After the latch was rewritten with a triplet, only that triplet
    compares equal to it. *)
Lemma memcmp_after_memcpy (r r2 : ICMReport) (latch : list byte) :
  memcmp_eq (accel_bytes r2) (memcpy latch (accel_bytes r) 6) 6 = true ->
  accel_bytes r2 = accel_bytes r.
Proof.
  intros Hcmp. apply memcmp_eq_firstn in Hcmp.
  unfold memcpy in Hcmp. exact Hcmp.
Qed.

Lemma memcmp_same_after_memcpy (r : ICMReport) (latch : list byte) :
  memcmp_eq (accel_bytes r) (memcpy latch (accel_bytes r) 6) 6 = true.
Proof. unfold memcpy. apply memcmp_eq_copied. reflexivity. Qed.

Section MeasurePaths.
Variables (e : cycle_env) (d : ICM20602) (icm_report : ICMReport).
Hypothesis Htransfers : transfers e d icm_report.

Lemma measure_after_read :
  measure e d
  = if duplicate_data d icm_report then
      (OK,
       set_got_duplicate true
         (set_duplicates (perf_count (_duplicates d))
            (set_sample_perf (perf_count (_sample_perf d)) d)),
       [BusReadBlock])
    else if all_zero_data (report_from_bytes icm_report) then
      (- EIO,
       set_sample_perf (perf_count (_sample_perf d))
         (set_bad_transfers (perf_count (_bad_transfers d))
            (latched d icm_report)),
       [BusReadBlock])
    else
      let d1 := set_good_transfers (perf_count (_good_transfers d))
                  (latched d icm_report) in
      if negb (_register_wait d =? 0) then
        (OK, set_register_wait (wrap8 (_register_wait d - 1)) d1,
         [BusReadBlock])
      else
        let report := swap_axes (report_from_bytes icm_report) in
        (OK, set_sample_perf (perf_count (_sample_perf d)) d1,
         BusReadBlock
         :: push_and_publish e d1 (fill_arb e d1 report) (fill_grb e d1 report)).
Proof.
  destruct Htransfers as (Htest & Hwait & Hread).
  unfold measure. rewrite Htest, Hread.
  apply Z.ltb_ge in Hwait. rewrite Hwait.
  destruct (duplicate_data d icm_report); [reflexivity |].
  destruct (all_zero_data (report_from_bytes icm_report)); [reflexivity |].
  reflexivity.
Qed.

Lemma measure_duplicate :
  duplicate_data d icm_report = true ->
  measure e d
  = (OK,
     set_got_duplicate true
       (set_duplicates (perf_count (_duplicates d))
          (set_sample_perf (perf_count (_sample_perf d)) d)),
     [BusReadBlock]).
Proof. intros Hdup. rewrite measure_after_read, Hdup. reflexivity. Qed.

Lemma measure_zero_data :
  duplicate_data d icm_report = false ->
  all_zero_data (report_from_bytes icm_report) = true ->
  measure e d
  = (- EIO,
     set_sample_perf (perf_count (_sample_perf d))
       (set_bad_transfers (perf_count (_bad_transfers d))
          (latched d icm_report)),
     [BusReadBlock]).
Proof.
  intros Hdup Hzero. rewrite measure_after_read, Hdup, Hzero. reflexivity.
Qed.

Lemma measure_waiting :
  duplicate_data d icm_report = false ->
  all_zero_data (report_from_bytes icm_report) = false ->
  _register_wait d <> 0 ->
  measure e d
  = (OK,
     set_register_wait (wrap8 (_register_wait d - 1))
       (set_good_transfers (perf_count (_good_transfers d))
          (latched d icm_report)),
     [BusReadBlock]).
Proof.
  intros Hdup Hzero Hwait. rewrite measure_after_read, Hdup, Hzero.
  apply Z.eqb_neq in Hwait. rewrite Hwait. reflexivity.
Qed.

Lemma measure_reports :
  duplicate_data d icm_report = false ->
  all_zero_data (report_from_bytes icm_report) = false ->
  _register_wait d = 0 ->
  let d1 := set_good_transfers (perf_count (_good_transfers d))
              (latched d icm_report) in
  let report := swap_axes (report_from_bytes icm_report) in
  measure e d
  = (OK, set_sample_perf (perf_count (_sample_perf d)) d1,
     BusReadBlock
     :: push_and_publish e d1 (fill_arb e d1 report) (fill_grb e d1 report)).
Proof.
  intros Hdup Hzero Hwait. rewrite measure_after_read, Hdup, Hzero, Hwait.
  reflexivity.
Qed.
End MeasurePaths.

(** What [push_and_publish] emits. *)
Lemma push_and_publish_events e d arb grb :
  exists rest,
    push_and_publish e d arb grb = AccelForce arb :: GyroForce grb :: rest
    /\ (forall ev, In ev rest ->
                   ev = PollNotify \/ ev = ParentPollNotify
                   \/ ev = OrbPublishAccel arb \/ ev = OrbPublishGyro grb)
    /\ (In (OrbPublishAccel arb) rest
        <-> env_accel_notify e = true /\ _pub_blocked d = false)
    /\ (In (OrbPublishGyro grb) rest
        <-> env_gyro_notify e = true /\ _pub_blocked d = false).
Proof.
  unfold push_and_publish. eexists. split; [reflexivity |].
  destruct (env_accel_notify e), (env_gyro_notify e), (_pub_blocked d);
    simpl; (split; [intros ev Hin; intuition auto |]);
    split; split; intros H;
    repeat match goal with
           | H : _ \/ _ |- _ => destruct H
           | H : _ /\ _ |- _ => destruct H
           end;
    try discriminate; try contradiction; auto.
Qed.

(** ** Zero data *)

(** C8. For every measurement cycle in which all seven converted 16-bit
    fields (accel x/y/z, temperature, gyro x/y/z) are exactly zero, the
    cycle increments the bad-transfer counter, publishes nothing, returns
    an I/O failure, and triggers no chip reset: it writes nothing to the
    bus and leaves the recovery deadline, the wait counter and the register
    cursor alone, so the failure stays with this cycle.  (The fields are
    converted only in a cycle that fetched a sample and did not absorb it
    as a duplicate.) *)
Theorem measure_all_zero_is_bad_transfer
        (e : cycle_env) (d : ICM20602) (icm_report : ICMReport) :
  transfers e d icm_report ->
  duplicate_data d icm_report = false ->
  int16_t_from_bytes (accel_x icm_report) = 0 ->
  int16_t_from_bytes (accel_y icm_report) = 0 ->
  int16_t_from_bytes (accel_z icm_report) = 0 ->
  int16_t_from_bytes (temp icm_report) = 0 ->
  int16_t_from_bytes (gyro_x icm_report) = 0 ->
  int16_t_from_bytes (gyro_y icm_report) = 0 ->
  int16_t_from_bytes (gyro_z icm_report) = 0 ->
  let out := measure e d in
  m_ret out = - EIO
  /\ _bad_transfers (m_state out) = (_bad_transfers d + 1)%N
  /\ publishes_nothing (m_events out) = true
  /\ forallb (fun ev => negb (is_bus_write ev)) (m_events out) = true
  /\ _reset_wait (m_state out) = _reset_wait d
  /\ _register_wait (m_state out) = _register_wait d
  /\ _checked_next (m_state out) = _checked_next d
  /\ _bad_registers (m_state out) = _bad_registers d
  /\ _good_transfers (m_state out) = _good_transfers d.
Proof.
  intros Htr Hdup Hax Hay Haz Ht Hgx Hgy Hgz out.
  assert (Hzero : all_zero_data (report_from_bytes icm_report) = true).
  { unfold all_zero_data, report_from_bytes. simpl.
    rewrite Hax, Hay, Haz, Ht, Hgx, Hgy, Hgz. reflexivity. }
  subst out. rewrite (measure_zero_data e d icm_report Htr Hdup Hzero).
  repeat split.
Qed.

(** Two all-zero blocks in a row after start-up: the first one equals the
    cleared latch and is absorbed as a duplicate, the second one reaches
    the conversion and is counted as a bad transfer. *)
Lemma measure_all_zero_is_bad_transfer_witness :
  m_ret (measure (cycle_at 40 sample_zero) after_zero_block) = - EIO
  /\ _bad_transfers (m_state (measure (cycle_at 40 sample_zero) after_zero_block))
     = 1%N
  /\ m_events (measure (cycle_at 40 sample_zero) after_zero_block)
     = [BusReadBlock]
  /\ m_ret (measure (cycle_at 20 sample_zero) initial_state) = OK.
Proof.
  pose proof (measure_all_zero_is_bad_transfer (cycle_at 40 sample_zero)
                after_zero_block sample_zero
                ltac:(repeat split; vm_compute; congruence)
                ltac:(reflexivity) ltac:(reflexivity) ltac:(reflexivity)
                ltac:(reflexivity) ltac:(reflexivity) ltac:(reflexivity)
                ltac:(reflexivity) ltac:(reflexivity))
    as (Hret & Hbad & _).
  split; [exact Hret | split; [exact Hbad | split; reflexivity]].
Defined.

(** ** Axis fix-up *)

Lemma swap_axes_accel (report : Report) :
  INT16_MIN <= r_accel_x report <= INT16_MAX ->
  r_accel_x (swap_axes report) = r_accel_y report
  /\ (r_accel_x report = INT16_MIN -> r_accel_y (swap_axes report) = INT16_MAX)
  /\ (r_accel_x report <> INT16_MIN ->
      r_accel_y (swap_axes report) = - r_accel_x report)
  /\ r_accel_z (swap_axes report) = r_accel_z report.
Proof.
  unfold INT16_MIN, INT16_MAX. intros Hrange. unfold swap_axes. simpl.
  destruct (Z.eqb_spec (r_accel_x report) (-32768)) as [Hmin | Hmin];
    repeat split; intros; try lia.
  apply wrap16s_small. lia.
Qed.

Lemma swap_axes_gyro (report : Report) :
  INT16_MIN <= r_gyro_x report <= INT16_MAX ->
  r_gyro_x (swap_axes report) = r_gyro_y report
  /\ (r_gyro_x report = INT16_MIN -> r_gyro_y (swap_axes report) = INT16_MAX)
  /\ (r_gyro_x report <> INT16_MIN ->
      r_gyro_y (swap_axes report) = - r_gyro_x report)
  /\ r_gyro_z (swap_axes report) = r_gyro_z report.
Proof.
  unfold INT16_MIN, INT16_MAX. intros Hrange. unfold swap_axes. simpl.
  destruct (Z.eqb_spec (r_gyro_x report) (-32768)) as [Hmin | Hmin];
    repeat split; intros; try lia.
  apply wrap16s_small. lia.
Qed.

(** C9. For every raw sample that reaches the axis fix-up step, for both
    accel and gyro: the new x equals the old y, and the new y equals the
    negation of the old x except when the old x equals INT16_MIN (-32768),
    in which case the new y saturates to INT16_MAX (+32767) instead of
    wrapping around.  These are the raw values of the reports that the
    cycle pushes and publishes. *)
Theorem measure_axis_fixup
        (e : cycle_env) (d : ICM20602) (icm_report : ICMReport) :
  transfers e d icm_report ->
  duplicate_data d icm_report = false ->
  all_zero_data (report_from_bytes icm_report) = false ->
  _register_wait d = 0 ->
  let old := report_from_bytes icm_report in
  exists arb grb rest,
    m_events (measure e d)
    = BusReadBlock :: AccelForce arb :: GyroForce grb :: rest
    /\ (forall ev, In ev rest ->
                   ev = PollNotify \/ ev = ParentPollNotify
                   \/ ev = OrbPublishAccel arb \/ ev = OrbPublishGyro grb)
    /\ a_x_raw arb = r_accel_y old
    /\ (r_accel_x old = INT16_MIN -> a_y_raw arb = INT16_MAX)
    /\ (r_accel_x old <> INT16_MIN -> a_y_raw arb = - r_accel_x old)
    /\ a_z_raw arb = r_accel_z old
    /\ g_x_raw grb = r_gyro_y old
    /\ (r_gyro_x old = INT16_MIN -> g_y_raw grb = INT16_MAX)
    /\ (r_gyro_x old <> INT16_MIN -> g_y_raw grb = - r_gyro_x old)
    /\ g_z_raw grb = r_gyro_z old.
Proof.
  intros Htr Hdup Hzero Hwait old.
  rewrite (measure_reports e d icm_report Htr Hdup Hzero Hwait).
  set (d1 := set_good_transfers _ _).
  set (report := swap_axes (report_from_bytes icm_report)).
  destruct (push_and_publish_events e d1 (fill_arb e d1 report)
              (fill_grb e d1 report)) as (rest & Hevs & Hrest & _).
  exists (fill_arb e d1 report), (fill_grb e d1 report), rest.
  unfold m_events. cbn [snd]. rewrite Hevs.
  destruct (swap_axes_accel old (int16_t_from_bytes_range _))
    as (Hax & Hamin & Haneg & Haz).
  destruct (swap_axes_gyro old (int16_t_from_bytes_range _))
    as (Hgx & Hgmin & Hgneg & Hgz).
  split; [reflexivity |]. split; [exact Hrest |].
  cbn [fill_arb fill_grb a_x_raw a_y_raw a_z_raw g_x_raw g_y_raw g_z_raw].
  subst report. fold old. tauto.
Qed.

(** Raw accel x = -32768 maps to transformed y = +32767, and likewise for
    the gyro. *)
Lemma measure_axis_fixup_witness :
  int16_t_from_bytes (accel_x sample_min) = -32768
  /\ exists arb grb rest,
      m_events (measure (cycle_at 20 sample_min) initial_state)
      = BusReadBlock :: AccelForce arb :: GyroForce grb :: rest
      /\ a_x_raw arb = 7 /\ a_y_raw arb = 32767
      /\ g_x_raw grb = -2 /\ g_y_raw grb = 32767.
Proof.
  split; [reflexivity |].
  destruct (measure_axis_fixup (cycle_at 20 sample_min) initial_state sample_min
              ltac:(repeat split; vm_compute; congruence)
              ltac:(reflexivity) ltac:(reflexivity) ltac:(reflexivity))
    as (arb & grb & rest & Hevs & _ & Hax & Hamin & _ & _ & Hgx & Hgmin & _).
  exists arb, grb, rest.
  split; [exact Hevs |].
  split; [exact Hax |]. split; [apply Hamin; reflexivity |].
  split; [exact Hgx | apply Hgmin; reflexivity].
Defined.

(** ** What an invocation never touches *)

Lemma measure_preserves (e : cycle_env) (d : ICM20602) :
  let d' := m_state (measure e d) in
  _in_factory_test d' = _in_factory_test d
  /\ _reset_wait d' = _reset_wait d
  /\ _pub_blocked d' = _pub_blocked d
  /\ _bad_registers d' = _bad_registers d.
Proof.
  unfold measure, m_state.
  destruct (_in_factory_test d) eqn:Htest;
    [repeat split; assumption |].
  destruct (env_now e <? _reset_wait d); [repeat split; assumption |].
  destruct (env_read e) as [r |]; [| repeat split; assumption].
  destruct (duplicate_data d r); [repeat split; assumption |].
  destruct (all_zero_data (report_from_bytes r)); [repeat split; assumption |].
  simpl.
  destruct (negb (_register_wait d =? 0)); repeat split; assumption.
Qed.

(** ** Duplicate suppression *)

Lemma measure_fresh_latch (e : cycle_env) (d : ICM20602) (r : ICMReport) :
  transfers e d r ->
  duplicate_data d r = false ->
  let d' := m_state (measure e d) in
  _last_accel d' = memcpy (_last_accel d) (accel_bytes r) 6
  /\ _got_duplicate d' = false
  /\ _duplicates d' = _duplicates d.
Proof.
  intros Htr Hdup. rewrite (measure_after_read e d r Htr), Hdup.
  destruct (all_zero_data (report_from_bytes r)); [repeat split |].
  cbv zeta. destruct (negb (_register_wait d =? 0)); repeat split.
Qed.

Lemma measure_reports_events (e : cycle_env) (d : ICM20602) (r : ICMReport) :
  transfers e d r ->
  duplicate_data d r = false ->
  all_zero_data (report_from_bytes r) = false ->
  _register_wait d = 0 ->
  exists arb grb rest,
    m_events (measure e d)
    = BusReadBlock :: AccelForce arb :: GyroForce grb :: rest
    /\ (In (OrbPublishAccel arb) rest
        <-> env_accel_notify e = true /\ _pub_blocked d = false)
    /\ (In (OrbPublishGyro grb) rest
        <-> env_gyro_notify e = true /\ _pub_blocked d = false).
Proof.
  intros Htr Hdup Hzero Hwait.
  rewrite (measure_reports e d r Htr Hdup Hzero Hwait).
  set (d1 := set_good_transfers _ _).
  set (report := swap_axes (report_from_bytes r)).
  destruct (push_and_publish_events e d1 (fill_arb e d1 report)
              (fill_grb e d1 report)) as (rest & Hevs & _ & Hacc & Hgyr).
  exists (fill_arb e d1 report), (fill_grb e d1 report), rest.
  unfold m_events. cbn [snd]. rewrite Hevs.
  split; [reflexivity | split; assumption].
Qed.

(** C3. For every measurement-pipeline invocation that fetches a raw
    sample: if the first 6 bytes of the new raw accel triplet equal the
    Duplicate Latch and the previous cycle was not already flagged
    duplicate, the cycle increments the duplicate counter, sets the
    duplicate flag and returns without publishing any report; otherwise the
    latch is updated to the new triplet and the duplicate flag is cleared.
    A subsequent cycle with a different triplet is not suppressed, and once
    its data is non-zero and no register wait is pending it pushes both
    reports and publishes each one whose integration window closed. *)
Theorem measure_duplicate_check
        (e : cycle_env) (d : ICM20602) (icm_report : ICMReport) :
  transfers e d icm_report ->
  let out := measure e d in
  (duplicate_data d icm_report = true ->
   m_ret out = OK
   /\ _duplicates (m_state out) = (_duplicates d + 1)%N
   /\ _got_duplicate (m_state out) = true
   /\ _last_accel (m_state out) = _last_accel d
   /\ m_events out = [BusReadBlock]
   /\ publishes_nothing (m_events out) = true)
  /\ (duplicate_data d icm_report = false ->
      firstn 6 (_last_accel (m_state out)) = accel_bytes icm_report
      /\ _got_duplicate (m_state out) = false
      /\ _duplicates (m_state out) = _duplicates d)
  /\ (forall e2 r2,
         transfers e2 (m_state out) r2 ->
         accel_bytes r2 <> accel_bytes icm_report ->
         duplicate_data (m_state out) r2 = false
         /\ (all_zero_data (report_from_bytes r2) = false ->
             _register_wait (m_state out) = 0 ->
             exists arb grb rest,
               m_events (measure e2 (m_state out))
               = BusReadBlock :: AccelForce arb :: GyroForce grb :: rest
               /\ (In (OrbPublishAccel arb) rest
                   <-> env_accel_notify e2 = true /\ _pub_blocked d = false)
               /\ (In (OrbPublishGyro grb) rest
                   <-> env_gyro_notify e2 = true /\ _pub_blocked d = false))).
Proof.
  intros Htr out.
  assert (Hdupcase : duplicate_data d icm_report = true ->
                     out = (OK,
                            set_got_duplicate true
                              (set_duplicates (perf_count (_duplicates d))
                                 (set_sample_perf (perf_count (_sample_perf d)) d)),
                            [BusReadBlock])).
  { intros Hdup. subst out. now apply measure_duplicate with icm_report. }
  split; [| split].
  - intros Hdup. rewrite (Hdupcase Hdup). repeat split.
  - intros Hdup.
    destruct (measure_fresh_latch e d icm_report Htr Hdup)
      as (Hlatch & Hflag & Hcount).
    fold out in Hlatch, Hflag, Hcount.
    split; [| split; assumption].
    rewrite Hlatch. reflexivity.
  - intros e2 r2 Htr2 Hdiff.
    assert (Hfresh : duplicate_data (m_state out) r2 = false).
    { destruct (duplicate_data d icm_report) eqn:Hdup.
      - rewrite (Hdupcase eq_refl). reflexivity.
      - destruct (measure_fresh_latch e d icm_report Htr Hdup)
          as (Hlatch & Hflag & _).
        fold out in Hlatch, Hflag.
        unfold duplicate_data. rewrite Hflag, Hlatch. cbn [negb andb].
        destruct (memcmp_eq (accel_bytes r2)
                    (memcpy (_last_accel d) (accel_bytes icm_report) 6) 6)
                 eqn:Hcmp; [| reflexivity].
        apply memcmp_after_memcpy in Hcmp. contradiction. }
    split; [exact Hfresh |].
    intros Hzero Hwait.
    destruct (measure_reports_events e2 (m_state out) r2 Htr2 Hfresh Hzero Hwait)
      as (arb & grb & rest & Hevs & Hacc & Hgyr).
    destruct (measure_preserves e d) as (_ & _ & Hblocked & _).
    fold out in Hblocked. rewrite Hblocked in Hacc, Hgyr.
    exists arb, grb, rest. split; [exact Hevs | split; assumption].
Qed.

(** Sample A is published, the same sample again is counted as a duplicate
    and produces no report, and sample B after it is published again. *)
Lemma measure_duplicate_check_witness :
  _duplicates after_a_a = 1%N
  /\ m_events (measure (cycle_at 40 sample_a) after_a) = [BusReadBlock]
  /\ exists arb grb rest,
      m_events (measure (cycle_at 60 sample_b) after_a_a)
      = BusReadBlock :: AccelForce arb :: GyroForce grb :: rest
      /\ In (OrbPublishAccel arb) rest
      /\ In (OrbPublishGyro grb) rest.
Proof.
  destruct (measure_duplicate_check (cycle_at 40 sample_a) after_a sample_a
              ltac:(repeat split; vm_compute; congruence))
    as (Hdup & _ & Hnext).
  destruct (Hdup ltac:(reflexivity)) as (_ & Hcount & _ & _ & Hevs & _).
  split; [exact Hcount | split; [exact Hevs |]].
  destruct (Hnext (cycle_at 60 sample_b) sample_b
              ltac:(repeat split; vm_compute; congruence)
              ltac:(vm_compute; congruence))
    as (_ & Hpublish).
  destruct (Hpublish ltac:(reflexivity) ltac:(reflexivity))
    as (arb & grb & rest & Hevs3 & Hacc & Hgyr).
  exists arb, grb, rest.
  split; [exact Hevs3 |].
  split; [apply Hacc | apply Hgyr]; split; reflexivity.
Defined.

Lemma would_suppress_step (a : list byte) (e : cycle_env) (d : ICM20602)
      (r : ICMReport) :
  transfers e d r ->
  accel_bytes r = a ->
  suppressed e d = would_suppress a d
  /\ would_suppress a (m_state (measure e d)) = negb (would_suppress a d).
Proof.
  intros Htr <-.
  change (would_suppress (accel_bytes r) d) with (duplicate_data d r).
  destruct (duplicate_data d r) eqn:Hdup.
  - unfold suppressed. rewrite (measure_duplicate e d r Htr Hdup).
    split; [apply N.eqb_refl | reflexivity].
  - destruct (measure_fresh_latch e d r Htr Hdup) as (Hlatch & Hflag & Hcount).
    unfold suppressed, would_suppress.
    rewrite Hcount, Hflag, Hlatch, memcmp_same_after_memcpy.
    split; [apply N.eqb_neq; lia | reflexivity].
Qed.

Lemma suppression_parity (a : list byte) (es : list cycle_env) :
  forall (d : ICM20602) (i : nat) (e : cycle_env),
    _in_factory_test d = false ->
    same_triplet_run a d es ->
    es !! i = Some e ->
    suppressed e (run_cycles (take i es) d)
    = xorb (would_suppress a d) (Nat.odd i).
Proof.
  induction es as [| e0 es IH]; intros d i e Htest Hrun Hi;
    [destruct i; discriminate |].
  apply Forall_cons in Hrun as [(Hnow & r0 & Hread & Hacc) Hrun].
  assert (Htr0 : transfers e0 d r0) by (repeat split; assumption).
  destruct (would_suppress_step a e0 d r0 Htr0 Hacc) as [Hsup Hnext].
  destruct (measure_preserves e0 d) as (Htest' & Hwait' & _).
  destruct i as [| i].
  - simpl in Hi. injection Hi as <-. simpl. rewrite Hsup.
    now rewrite xorb_false_r.
  - simpl in Hi. cbn [take run_cycles].
    rewrite (IH (m_state (measure e0 d)) i e); try assumption.
    + rewrite Hnext, Nat.odd_succ, <- Nat.negb_odd.
      destruct (would_suppress a d), (Nat.odd i); reflexivity.
    + now rewrite Htest'.
    + unfold same_triplet_run in *. now rewrite Hwait'.
Qed.

(** C10 (amended). Duplicate suppression never skips two cycles in a row:
    for every measurement cycle whose predecessor was flagged duplicate,
    the new raw accel triplet is processed as fresh data even when it is
    bit-identical to the Duplicate Latch - the duplicate flag is cleared,
    the latch is rewritten, the duplicate counter stays, and the sample
    continues through conversion to the reports.  The cycle after that is
    open to suppression again, so in every run of consecutive
    bit-identical raw accel triplets suppression alternates from cycle to
    cycle.  When the first cycle of the run is processed as fresh data,
    exactly the 2nd, 4th, 6th, ... cycles are suppressed (in a run of
    three, only the second); when the first cycle is itself suppressed -
    the triplet equals the latch while the flag is clear - exactly the
    1st, 3rd, 5th, ... cycles are. *)
Theorem duplicate_suppression_alternates :
  (forall (e : cycle_env) (d : ICM20602) (r : ICMReport),
      transfers e d r ->
      _got_duplicate d = true ->
      let out := measure e d in
      _got_duplicate (m_state out) = false
      /\ firstn 6 (_last_accel (m_state out)) = accel_bytes r
      /\ _duplicates (m_state out) = _duplicates d
      /\ (all_zero_data (report_from_bytes r) = false ->
          _register_wait d = 0 ->
          exists arb grb rest,
            m_events out
            = BusReadBlock :: AccelForce arb :: GyroForce grb :: rest
            /\ (In (OrbPublishAccel arb) rest
                <-> env_accel_notify e = true /\ _pub_blocked d = false)
            /\ (In (OrbPublishGyro grb) rest
                <-> env_gyro_notify e = true /\ _pub_blocked d = false)))
  /\ (forall (a : list byte) (es : list cycle_env) (d : ICM20602),
         _in_factory_test d = false ->
         same_triplet_run a d es ->
         forall (i : nat) (e : cycle_env),
           es !! i = Some e ->
           suppressed e (run_cycles (take i es) d)
           = (if would_suppress a d then Nat.even i else Nat.odd i)).
Proof.
  split.
  - intros e d r Htr Hflag out.
    assert (Hdup : duplicate_data d r = false).
    { unfold duplicate_data. rewrite Hflag. reflexivity. }
    destruct (measure_fresh_latch e d r Htr Hdup) as (Hlatch & Hclear & Hcount).
    fold out in Hlatch, Hclear, Hcount.
    split; [exact Hclear |].
    split; [rewrite Hlatch; reflexivity |].
    split; [exact Hcount |].
    intros Hzero Hwait.
    exact (measure_reports_events e d r Htr Hdup Hzero Hwait).
  - intros a es d Htest Hrun i e Hi.
    rewrite (suppression_parity a es d i e Htest Hrun Hi).
    destruct (would_suppress a d);
      [rewrite <- Nat.negb_odd |]; destruct (Nat.odd i); reflexivity.
Qed.

(** A run of three identical triplets after start-up: the first cycle is
    published, the second is suppressed, the third is published again.  A
    run of three zero accel triplets after start-up, where the latch is
    zero: the first and the third cycle are suppressed, the second is
    not. *)
Lemma duplicate_suppression_alternates_witness :
  suppressed cycle_a (run_cycles (take 0 run_of_three) initial_state) = false
  /\ suppressed cycle_a (run_cycles (take 1 run_of_three) initial_state) = true
  /\ suppressed cycle_a (run_cycles (take 2 run_of_three) initial_state) = false
  /\ publishes_nothing
       (m_events (measure cycle_a (run_cycles (take 2 run_of_three) initial_state)))
     = false
  /\ suppressed cycle_still (run_cycles (take 0 run_of_still) initial_state)
     = true
  /\ suppressed cycle_still (run_cycles (take 1 run_of_still) initial_state)
     = false
  /\ suppressed cycle_still (run_cycles (take 2 run_of_still) initial_state)
     = true.
Proof.
  destruct duplicate_suppression_alternates as [Hfresh Hparity].
  assert (Hrun : same_triplet_run (accel_bytes sample_a) initial_state
                   run_of_three).
  { repeat constructor; try (vm_compute; congruence);
      exists sample_a; split; reflexivity. }
  assert (Hstill : same_triplet_run (accel_bytes sample_still) initial_state
                     run_of_still).
  { repeat constructor; try (vm_compute; congruence);
      exists sample_still; split; reflexivity. }
  pose proof (Hparity (accel_bytes sample_a) run_of_three initial_state
                eq_refl Hrun) as Hodd.
  pose proof (Hparity (accel_bytes sample_still) run_of_still initial_state
                eq_refl Hstill) as Heven.
  split; [exact (Hodd 0%nat cycle_a eq_refl) |].
  split; [exact (Hodd 1%nat cycle_a eq_refl) |].
  split; [exact (Hodd 2%nat cycle_a eq_refl) |].
  split.
  { destruct (Hfresh cycle_a (run_cycles (take 2 run_of_three) initial_state)
                sample_a
                ltac:(repeat split; vm_compute; congruence) ltac:(reflexivity))
      as (_ & _ & _ & Hreports).
    destruct (Hreports ltac:(reflexivity) ltac:(reflexivity))
      as (arb & grb & rest & Hevs & _).
    rewrite Hevs. reflexivity. }
  split; [exact (Heven 0%nat cycle_still eq_refl) |].
  split; [exact (Heven 1%nat cycle_still eq_refl) |].
  exact (Heven 2%nat cycle_still eq_refl).
Defined.

(** C10 as stated fails for a run of four: the fourth cycle is suppressed
    as well, so two cycles of the run are skipped, not one. *)
Lemma duplicate_suppression_skips_fourth :
  suppressed cycle_a (run_cycles [cycle_a] initial_state) = true
  /\ suppressed cycle_a (run_cycles [cycle_a; cycle_a] initial_state) = false
  /\ suppressed cycle_a (run_cycles run_of_three initial_state) = true
  /\ m_events (measure cycle_a (run_cycles run_of_three initial_state))
     = [BusReadBlock]
  /\ _duplicates (run_cycles (run_of_three ++ [cycle_a]) initial_state) = 2%N.
Proof. repeat split; reflexivity. Qed.

(** ** The register-wait countdown *)

Lemma measure_wait_step (e : cycle_env) (d : ICM20602) :
  0 <= _register_wait d <= 255 ->
  let d' := m_state (measure e d) in
  (_good_transfers d' = _good_transfers d
   /\ _register_wait d' = _register_wait d)
  \/ (_good_transfers d' = (_good_transfers d + 1)%N
      /\ _register_wait d' = Z.max 0 (_register_wait d - 1)).
Proof.
  intros Hrange. unfold measure, m_state.
  destruct (_in_factory_test d); [left; split; reflexivity |].
  destruct (env_now e <? _reset_wait d); [left; split; reflexivity |].
  destruct (env_read e) as [r |]; [| left; split; reflexivity].
  destruct (duplicate_data d r); [left; split; reflexivity |].
  destruct (all_zero_data (report_from_bytes r)); [left; split; reflexivity |].
  simpl. right.
  destruct (Z.eqb_spec (_register_wait d) 0) as [Hzero | Hpos]; simpl.
  - split; [reflexivity | lia].
  - split; [reflexivity |]. rewrite wrap8_small; lia.
Qed.

Lemma measure_silent_while_waiting (e : cycle_env) (d : ICM20602) :
  _register_wait d <> 0 ->
  publishes_nothing (m_events (measure e d)) = true.
Proof.
  intros Hwait. apply Z.eqb_neq in Hwait. unfold measure, m_events.
  destruct (_in_factory_test d); [reflexivity |].
  destruct (env_now e <? _reset_wait d); [reflexivity |].
  destruct (env_read e) as [r |]; [| reflexivity].
  destruct (duplicate_data d r); [reflexivity |].
  destruct (all_zero_data (report_from_bytes r)); [reflexivity |].
  simpl. rewrite Hwait. reflexivity.
Qed.

Lemma run_cycles_wait (es : list cycle_env) :
  forall d : ICM20602,
    0 <= _register_wait d <= 20 ->
    let d' := run_cycles es d in
    let good := Z.of_N (_good_transfers d') - Z.of_N (_good_transfers d) in
    0 <= good /\ _register_wait d' = Z.max 0 (_register_wait d - good).
Proof.
  induction es as [| e es IH]; intros d Hrange; simpl.
  - lia.
  - destruct (measure_wait_step e d ltac:(lia)) as [[Hgood Hwait] | [Hgood Hwait]];
      destruct (IH (m_state (measure e d)) ltac:(lia)) as [Hpos Hrest];
      rewrite Hgood, Hwait in *; lia.
Qed.

Lemma check_registers_rearms (h : icm20602_h) (now v : Z) (d : ICM20602) :
  v <> checked_value d (_checked_next d) ->
  _register_wait (fst (check_registers h now v d)) = 20.
Proof.
  intros Hne. apply Z.eqb_neq in Hne.
  unfold check_registers. rewrite Hne. simpl.
  destruct ((_register_wait d =? 0) || (_checked_next d =? 0)); reflexivity.
Qed.

(** C2 (amended). After a detected register mismatch has set the sticky
    wait counter to 20, no report is published until 20 good transfers have
    been counted: each successful measurement cycle decrements the counter
    (it still counts as a good transfer, and publishes nothing), and
    publication resumes with the first successful cycle after the counter
    has reached zero.  Cycles that fail or are skipped in between neither
    decrement nor restart the counter, so the 20 successful cycles need not
    be consecutive; only a new register mismatch sets the counter back to
    20. *)
Theorem register_wait_countdown
        (pre : list cycle_env) (e : cycle_env) (d : ICM20602) :
  _register_wait d = 20 ->
  let d_i := run_cycles pre d in
  let good := Z.of_N (_good_transfers d_i) - Z.of_N (_good_transfers d) in
  0 <= good
  /\ _register_wait d_i = Z.max 0 (20 - good)
  /\ (good < 20 -> publishes_nothing (m_events (measure e d_i)) = true)
  /\ (forall r,
         transfers e d_i r ->
         duplicate_data d_i r = false ->
         all_zero_data (report_from_bytes r) = false ->
         (good < 20 ->
          _good_transfers (m_state (measure e d_i))
          = (_good_transfers d_i + 1)%N
          /\ _register_wait (m_state (measure e d_i)) = 20 - good - 1)
         /\ (20 <= good ->
             exists arb grb rest,
               m_events (measure e d_i)
               = BusReadBlock :: AccelForce arb :: GyroForce grb :: rest
               /\ (In (OrbPublishAccel arb) rest
                   <-> env_accel_notify e = true /\ _pub_blocked d_i = false)
               /\ (In (OrbPublishGyro grb) rest
                   <-> env_gyro_notify e = true /\ _pub_blocked d_i = false)))
  /\ (forall h now v,
         v <> checked_value d_i (_checked_next d_i) ->
         _register_wait (fst (check_registers h now v d_i)) = 20).
Proof.
  intros Hstart d_i good.
  destruct (run_cycles_wait pre d ltac:(lia)) as [Hpos Hwait].
  fold d_i in Hpos, Hwait. fold good in Hpos, Hwait. rewrite Hstart in Hwait.
  split; [exact Hpos |]. split; [exact Hwait |].
  split; [| split; [| intros h now v; apply check_registers_rearms]].
  - intros Hlt. apply measure_silent_while_waiting. lia.
  - intros r Htr Hdup Hzero. split.
    + intros Hlt.
      rewrite (measure_waiting e d_i r Htr Hdup Hzero ltac:(lia)).
      unfold m_state. simpl. split; [reflexivity |].
      rewrite wrap8_small; lia.
    + intros Hge.
      apply (measure_reports_events e d_i r Htr Hdup Hzero). lia.
Qed.

(** After the mismatch and ten good transfers the counter stands at 10 and
    a further good sample is still withheld; after twenty good transfers it
    is zero and the next good sample is published. *)
Lemma register_wait_countdown_witness :
  (_register_wait (run_cycles (ten_good 20000) after_mismatch) = 10
   /\ publishes_nothing
        (m_events (measure (cycle_at 30000 sample_a)
                     (run_cycles (ten_good 20000) after_mismatch)))
      = true)
  /\ (_register_wait
        (run_cycles (ten_good 20000 ++ ten_good 20010) after_mismatch) = 0
      /\ publishes_nothing
           (m_events
              (measure (cycle_at 30000 sample_a)
                 (run_cycles (ten_good 20000 ++ ten_good 20010) after_mismatch)))
         = false).
Proof.
  split.
  - destruct (register_wait_countdown (ten_good 20000)
                (cycle_at 30000 sample_a) after_mismatch eq_refl)
      as (_ & Hwait & Hsilent & _).
    split; [exact Hwait | apply Hsilent; vm_compute; reflexivity].
  - destruct (register_wait_countdown (ten_good 20000 ++ ten_good 20010)
                (cycle_at 30000 sample_a) after_mismatch eq_refl)
      as (_ & Hwait & _ & Hresume & _).
    split; [exact Hwait |].
    destruct (Hresume sample_a
                ltac:(repeat split; vm_compute; congruence)
                ltac:(reflexivity) ltac:(reflexivity))
      as (_ & Hpublish).
    destruct (Hpublish ltac:(vm_compute; congruence))
      as (arb & grb & rest & Hevs & _).
    rewrite Hevs. reflexivity.
Defined.

(** C2 as stated fails: after the mismatch, ten good transfers are followed
    by an all-zero block, which fails with an I/O error and is counted as a
    bad transfer, and by ten more good transfers.  The counter is then zero
    and the next good sample is published, although no twenty successful
    cycles in a row have occurred since the mismatch. *)
Lemma register_wait_survives_bad_transfer :
  _register_wait after_mismatch = 20
  /\ _register_wait (run_cycles (ten_good 20000) after_mismatch) = 10
  /\ m_ret (measure bad_cycle (run_cycles (ten_good 20000) after_mismatch))
     = - EIO
  /\ _bad_transfers (run_cycles (ten_good 20000 ++ [bad_cycle]) after_mismatch)
     = 1%N
  /\ _register_wait (run_cycles (ten_good 20000 ++ [bad_cycle]) after_mismatch)
     = 10
  /\ _register_wait (run_cycles interrupted_run after_mismatch) = 0
  /\ _good_transfers (run_cycles interrupted_run after_mismatch) = 20%N
  /\ publishes_nothing
       (m_events (measure (cycle_at 20050 sample_a)
                    (run_cycles interrupted_run after_mismatch)))
     = false.
Proof. repeat split; reflexivity. Qed.

(** * Further properties of the driver *)

(** ** The shadow set under checked writes *)

Lemma shadow_fold_length (r : reg) (value : Z) (idxs : list nat) :
  forall vals : list Z,
    length (fold_left
              (fun vals i =>
                 if decide (_checked_registers !! i = Some r)
                 then <[i := value]> vals else vals) idxs vals)
    = length vals.
Proof.
  induction idxs as [| j idxs IH]; intros vals; simpl; [reflexivity |].
  rewrite IH. destruct (decide (_checked_registers !! j = Some r));
    [apply length_insert | reflexivity].
Qed.

Lemma shadow_fold_range (r : reg) (value : Z) (idxs : list nat) :
  0 <= value < 256 ->
  forall vals : list Z,
    Forall (fun v => 0 <= v < 256) vals ->
    Forall (fun v => 0 <= v < 256)
           (fold_left
              (fun vals i =>
                 if decide (_checked_registers !! i = Some r)
                 then <[i := value]> vals else vals) idxs vals).
Proof.
  intros Hvalue. induction idxs as [| j idxs IH]; intros vals Hvals; simpl;
    [assumption |].
  apply IH. destruct (decide (_checked_registers !! j = Some r));
    [now apply Forall_insert | assumption].
Qed.

Lemma shadow_fold_other (r : reg) (value : Z) (idxs : list nat) (i : nat) :
  _checked_registers !! i <> Some r ->
  forall vals : list Z,
    fold_left
      (fun vals i =>
         if decide (_checked_registers !! i = Some r)
         then <[i := value]> vals else vals) idxs vals !! i
    = vals !! i.
Proof.
  intros Hother. induction idxs as [| j idxs IH]; intros vals; simpl;
    [reflexivity |].
  rewrite IH. destruct (decide (_checked_registers !! j = Some r)) as [Hj |];
    [| reflexivity].
  apply list_lookup_insert_ne. congruence.
Qed.

Lemma wrap8_range z : 0 <= wrap8 z < 256.
Proof. unfold wrap8. apply Z.mod_pos_bound. lia. Qed.

Lemma write_checked_reg_length r value d :
  length (_checked_values (fst (write_checked_reg r value d)))
  = length (_checked_values d).
Proof. apply shadow_fold_length. Qed.

Lemma write_checked_reg_range r value d :
  Forall (fun v => 0 <= v < 256) (_checked_values d) ->
  Forall (fun v => 0 <= v < 256)
         (_checked_values (fst (write_checked_reg r value d))).
Proof. apply shadow_fold_range, wrap8_range. Qed.

Lemma write_checked_reg_other r value d i :
  _checked_registers !! i <> Some r ->
  _checked_values (fst (write_checked_reg r value d)) !! i
  = _checked_values d !! i.
Proof. intros Hother. now apply shadow_fold_other. Qed.

(** A checked write changes nothing but the shadow values. *)
Lemma write_checked_reg_state r value d :
  fst (write_checked_reg r value d)
  = set_checked_values
      (_checked_values (fst (write_checked_reg r value d))) d.
Proof. reflexivity. Qed.

Lemma checked_register_lookup (i : Z) :
  0 <= i < ICM20602_NUM_CHECKED_REGISTERS ->
  _checked_registers !! Z.to_nat i = Some (checked_register i).
Proof.
  unfold ICM20602_NUM_CHECKED_REGISTERS. intros Hi.
  assert (Hcases : i = 0 \/ i = 1 \/ i = 2 \/ i = 3 \/ i = 4 \/ i = 5
                   \/ i = 6 \/ i = 7) by lia.
  repeat (destruct Hcases as [-> | Hcases]; [reflexivity |]).
  subst i. reflexivity.
Qed.

(** X1. What the driver writes through the checked-write path is what the
    health check expects afterwards: after a checked write of [value] to
    the register under the cursor, the shadow slot under the cursor holds
    the byte written, the other seven slots are unchanged, and a health
    check during which the chip returns that byte is a match - it only
    reads the register, counts no bad register, arms no recovery and moves
    the cursor on by one. *)
Theorem checked_write_then_check_passes
        (h : icm20602_h) (now value : Z) (d : ICM20602) :
  length (_checked_values d) = 8%nat ->
  0 <= _checked_next d < ICM20602_NUM_CHECKED_REGISTERS ->
  let r := checked_register (_checked_next d) in
  let d1 := fst (write_checked_reg r value d) in
  snd (write_checked_reg r value d) = [BusWrite r (wrap8 value)]
  /\ checked_value d1 (_checked_next d) = wrap8 value
  /\ (forall i : Z,
         0 <= i < ICM20602_NUM_CHECKED_REGISTERS ->
         i <> _checked_next d ->
         checked_value d1 i = checked_value d i)
  /\ check_registers h now (wrap8 value) d1
     = (set_checked_next
          (wrap8 ((_checked_next d + 1) mod ICM20602_NUM_CHECKED_REGISTERS)) d1,
        [BusRead r ICM20602_HIGH_BUS_SPEED])
  /\ _bad_registers (fst (check_registers h now (wrap8 value) d1))
     = _bad_registers d
  /\ _register_wait (fst (check_registers h now (wrap8 value) d1))
     = _register_wait d
  /\ _reset_wait (fst (check_registers h now (wrap8 value) d1))
     = _reset_wait d.
Proof.
  intros Hlen Hcur r d1.
  assert (Hshadow : checked_value d1 (_checked_next d) = wrap8 value).
  { unfold checked_value. subst d1.
    rewrite (write_checked_reg_shadow r value d (Z.to_nat (_checked_next d)) Hlen)
      by (unfold ICM20602_NUM_CHECKED_REGISTERS in Hcur; lia).
    subst r. rewrite (checked_register_lookup _ Hcur).
    rewrite decide_True by reflexivity. reflexivity. }
  split; [unfold write_checked_reg, write_reg; cbn [snd];
          now rewrite (wrap8_small (wrap8 value)) by apply wrap8_range |].
  split; [exact Hshadow |].
  split.
  { intros i Hi Hne. unfold checked_value. subst d1.
    rewrite write_checked_reg_other; [reflexivity |].
    rewrite (checked_register_lookup i Hi). subst r.
    unfold ICM20602_NUM_CHECKED_REGISTERS in *.
    assert (Hc : _checked_next d = 0 \/ _checked_next d = 1
                 \/ _checked_next d = 2 \/ _checked_next d = 3
                 \/ _checked_next d = 4 \/ _checked_next d = 5
                 \/ _checked_next d = 6 \/ _checked_next d = 7) by lia.
    assert (Hi' : i = 0 \/ i = 1 \/ i = 2 \/ i = 3 \/ i = 4 \/ i = 5
                  \/ i = 6 \/ i = 7) by lia.
    repeat (destruct Hc as [Hc | Hc]);
      repeat (destruct Hi' as [Hi' | Hi']); rewrite Hc, Hi' in *;
      try lia; discriminate. }
  assert (Hmatch : check_registers h now (wrap8 value) d1
                   = (set_checked_next
                        (wrap8 ((_checked_next d + 1)
                                mod ICM20602_NUM_CHECKED_REGISTERS)) d1,
                      [BusRead r ICM20602_HIGH_BUS_SPEED])).
  { pose proof (check_registers_match h now d1) as Hm. cbv zeta in Hm.
    change (_checked_next d1) with (_checked_next d) in Hm.
    rewrite Hshadow in Hm. exact Hm. }
  split; [exact Hmatch |]. rewrite Hmatch. repeat split.
Qed.

Lemma checked_write_then_check_passes_witness :
  snd (write_checked_reg ICMREG_USER_CTRL 300 after_mismatch)
  = [BusWrite ICMREG_USER_CTRL 44]
  /\ check_registers reference_h 20000 44
       (fst (write_checked_reg ICMREG_USER_CTRL 300 after_mismatch))
     = (set_checked_next 2
          (fst (write_checked_reg ICMREG_USER_CTRL 300 after_mismatch)),
        [BusRead ICMREG_USER_CTRL ICM20602_HIGH_BUS_SPEED]).
Proof.
  pose proof (checked_write_then_check_passes reference_h 20000 300
                after_mismatch eq_refl ltac:(vm_compute; split; congruence))
    as (Hwrite & _ & _ & Hcheck & _).
  split; [exact Hwrite | exact Hcheck].
Defined.

(** ** The health check *)

(** X2. Whatever the chip returns, one health check issues at most one bus
    write, never changes a shadow value, hands no report to anybody, and
    leaves the cursor inside the checked set; the wait counter afterwards
    is either what it was or 20.  Calibration, ranges, sample rate, the
    duplicate latch and the transfer counters are not touched. *)
Theorem check_registers_frame (h : icm20602_h) (now v : Z) (d : ICM20602) :
  let d' := fst (check_registers h now v d) in
  let evs := snd (check_registers h now v d) in
  (length (filter is_bus_write evs) <= 1)%nat
  /\ publishes_nothing evs = true
  /\ _checked_values d' = _checked_values d
  /\ 0 <= _checked_next d' < ICM20602_NUM_CHECKED_REGISTERS
  /\ (_register_wait d' = _register_wait d \/ _register_wait d' = 20)
  /\ _accel_scale d' = _accel_scale d
  /\ _accel_range_scale d' = _accel_range_scale d
  /\ _accel_range_m_s2 d' = _accel_range_m_s2 d
  /\ _sample_rate d' = _sample_rate d
  /\ _last_accel d' = _last_accel d
  /\ _got_duplicate d' = _got_duplicate d
  /\ _good_transfers d' = _good_transfers d
  /\ _bad_transfers d' = _bad_transfers d
  /\ _duplicates d' = _duplicates d.
Proof.
  intros d' evs. subst d' evs. unfold check_registers.
  assert (Hmod : forall z, 0 <= wrap8 (z mod ICM20602_NUM_CHECKED_REGISTERS)
                           < ICM20602_NUM_CHECKED_REGISTERS).
  { intros z. unfold ICM20602_NUM_CHECKED_REGISTERS.
    pose proof (Z.mod_pos_bound z 8 ltac:(lia)).
    rewrite wrap8_small; lia. }
  destruct (negb (v =? checked_value d (_checked_next d))).
  - cbn [set_bad_registers _register_wait _checked_next].
    destruct ((_register_wait d =? 0) || (_checked_next d =? 0));
      cbn; repeat split; auto; try apply Hmod; lia.
  - cbn; repeat split; auto; try apply Hmod; lia.
Qed.

Lemma sweep_spec (h : icm20602_h) (now : Z) (n : nat) :
  forall d : ICM20602,
    0 <= _checked_next d < ICM20602_NUM_CHECKED_REGISTERS ->
    sweep h now n d
    = (set_checked_next
         ((_checked_next d + Z.of_nat n) mod ICM20602_NUM_CHECKED_REGISTERS) d,
       map (fun k : nat =>
              BusRead
                (checked_register
                   ((_checked_next d + Z.of_nat k)
                    mod ICM20602_NUM_CHECKED_REGISTERS))
                ICM20602_HIGH_BUS_SPEED)
           (seq 0 n)).
Proof.
  unfold ICM20602_NUM_CHECKED_REGISTERS.
  induction n as [| n IH]; intros d Hcur.
  - simpl. rewrite Z.add_0_r, Z.mod_small by lia.
    destruct d; reflexivity.
  - cbn [sweep].
    pose proof (check_registers_match h now d) as Hm. cbv zeta in Hm.
    rewrite Hm. unfold ICM20602_NUM_CHECKED_REGISTERS.
    pose proof (Z.mod_pos_bound (_checked_next d + 1) 8 ltac:(lia)) as Hnext.
    rewrite wrap8_small by lia.
    rewrite IH by (cbn; lia).
    cbn [_checked_next set_checked_next].
    f_equal.
    + replace (((_checked_next d + 1) mod 8 + Z.of_nat n) mod 8)
        with ((_checked_next d + Z.of_nat (S n)) mod 8); [reflexivity |].
      rewrite Zplus_mod_idemp_l. f_equal. lia.
    + cbn [seq map app]. f_equal.
      * rewrite Z.add_0_r, Z.mod_small by lia. reflexivity.
      * rewrite <- seq_shift, map_map. apply map_ext. intros k.
        rewrite Zplus_mod_idemp_l. do 3 f_equal. lia.
Qed.

(** X3. The cursor rotates through the whole checked set: while the chip
    returns what the driver expects, [n] health checks move the cursor [n]
    places on (modulo 8) and change nothing else, and eight checks in a
    row read every checked register exactly once and bring the cursor
    back to where it was. *)
Theorem sweep_covers_checked_set (h : icm20602_h) (now : Z) (d : ICM20602) :
  0 <= _checked_next d < ICM20602_NUM_CHECKED_REGISTERS ->
  (forall n : nat,
      fst (sweep h now n d)
      = set_checked_next
          ((_checked_next d + Z.of_nat n) mod ICM20602_NUM_CHECKED_REGISTERS) d)
  /\ _checked_next (fst (sweep h now 8 d)) = _checked_next d
  /\ length (snd (sweep h now 8 d)) = 8%nat
  /\ forall r : reg,
      In r _checked_registers ->
      length (filter (fun ev => bool_decide (read_target ev = Some r))
                     (snd (sweep h now 8 d))) = 1%nat.
Proof.
  intros Hcur. split; [| split; [| split]].
  - intros n. now rewrite sweep_spec.
  - rewrite sweep_spec by assumption. cbn [fst _checked_next set_checked_next].
    unfold ICM20602_NUM_CHECKED_REGISTERS in *.
    change (Z.of_nat 8) with (1 * 8). rewrite Z_mod_plus_full.
    apply Z.mod_small. lia.
  - rewrite sweep_spec by assumption. cbn [snd]. now rewrite length_map, length_seq.
  - intros r Hin. rewrite sweep_spec by assumption. cbn [snd].
    unfold ICM20602_NUM_CHECKED_REGISTERS in *.
    assert (Hc : _checked_next d = 0 \/ _checked_next d = 1
                 \/ _checked_next d = 2 \/ _checked_next d = 3
                 \/ _checked_next d = 4 \/ _checked_next d = 5
                 \/ _checked_next d = 6 \/ _checked_next d = 7) by lia.
    simpl in Hin.
    repeat (destruct Hc as [Hc | Hc]); rewrite Hc;
      repeat (destruct Hin as [<- | Hin]); try contradiction; reflexivity.
Qed.

Lemma sweep_covers_checked_set_witness :
  _checked_next (fst (sweep reference_h 20000 8 after_mismatch)) = 1
  /\ length (snd (sweep reference_h 20000 8 after_mismatch)) = 8%nat
  /\ fst (sweep reference_h 20000 3 after_mismatch)
     = set_checked_next 4 after_mismatch.
Proof.
  pose proof (sweep_covers_checked_set reference_h 20000 after_mismatch
                ltac:(vm_compute; split; congruence))
    as (Hmove & Hback & Hlen & _).
  split; [exact Hback | split; [exact Hlen | exact (Hmove 3%nat)]].
Defined.

(** ** The measurement cycle as a whole *)

(** The invocation fetched a sample: it got past both early exits and the
    block read was complete. *)
Lemma transfers_dec (e : cycle_env) (d : ICM20602) :
  (exists r, transfers e d r)
  \/ (_in_factory_test d = true \/ env_now e < _reset_wait d
      \/ env_read e = None).
Proof.
  unfold transfers.
  destruct (_in_factory_test d); [right; now left |].
  destruct (Z.lt_ge_cases (env_now e) (_reset_wait d));
    [right; right; now left |].
  destruct (env_read e) as [r |]; [| right; right; now right].
  left. exists r. repeat split; lia.
Qed.

Lemma measure_not_fetched (e : cycle_env) (d : ICM20602) :
  _in_factory_test d = true \/ env_now e < _reset_wait d
  \/ env_read e = None ->
  m_state (measure e d) = d
  /\ (m_events (measure e d) = [] \/ m_events (measure e d) = [BusReadBlock])
  /\ (m_ret (measure e d) = OK \/ env_read e = None).
Proof.
  intros Hexit. unfold measure.
  destruct (_in_factory_test d); [repeat split; auto |].
  destruct (Z.ltb_spec (env_now e) (_reset_wait d)); [repeat split; auto |].
  destruct Hexit as [Hexit | [Hexit | Hexit]]; try discriminate; try lia.
  rewrite Hexit. repeat split; auto.
Qed.

(** X4. A measurement cycle never writes to the bus and never reads a
    single register: its only bus action is at most one block read, which
    comes first.  It leaves the shadow set, the health-check cursor, the
    recovery deadline, the bad-register counter, the calibration, the
    range and the sample rate alone, and it never raises the register-wait
    counter. *)
Theorem measure_frame (e : cycle_env) (d : ICM20602) :
  0 <= _register_wait d <= 255 ->
  let d' := m_state (measure e d) in
  let evs := m_events (measure e d) in
  (evs = []
   \/ exists rest, evs = BusReadBlock :: rest
                   /\ Forall (fun ev => is_report_event ev = true) rest)
  /\ _checked_values d' = _checked_values d
  /\ _checked_next d' = _checked_next d
  /\ _reset_wait d' = _reset_wait d
  /\ _bad_registers d' = _bad_registers d
  /\ _accel_scale d' = _accel_scale d
  /\ _accel_range_scale d' = _accel_range_scale d
  /\ _accel_range_m_s2 d' = _accel_range_m_s2 d
  /\ _sample_rate d' = _sample_rate d
  /\ 0 <= _register_wait d' <= _register_wait d.
Proof.
  intros Hwait d' evs. subst d' evs.
  destruct (transfers_dec e d) as [[r Htr] | Hexit].
  - rewrite (measure_after_read e d r Htr).
    destruct (duplicate_data d r);
      [cbn; repeat split; try lia; right; exists []; split; auto |].
    destruct (all_zero_data (report_from_bytes r));
      [cbn; repeat split; try lia; right; exists []; split; auto |].
    cbv zeta. destruct (Z.eqb_spec (_register_wait d) 0) as [Hz | Hnz];
      cbn [negb].
    + unfold m_state, m_events. cbn [fst snd].
      split; [| cbn; repeat split; lia].
      right. eexists. split; [reflexivity |].
      unfold push_and_publish.
      destruct (env_accel_notify e), (env_gyro_notify e),
        (_pub_blocked _); cbn; repeat constructor.
    + unfold m_state, m_events. cbn [fst snd].
      split; [right; exists []; split; auto |].
      cbn. repeat split; try lia; rewrite wrap8_small; lia.
  - destruct (measure_not_fetched e d Hexit) as (Hstate & Hevs & _).
    rewrite Hstate.
    split; [destruct Hevs as [-> | ->];
            [now left | right; exists []; split; auto] |].
    repeat split; lia.
Qed.

Lemma measure_frame_witness :
  m_events (measure (cycle_at 20000 sample_a) after_mismatch) = [BusReadBlock]
  /\ _checked_values (m_state (measure (cycle_at 20000 sample_a) after_mismatch))
     = _checked_values after_mismatch
  /\ _register_wait (m_state (measure (cycle_at 20000 sample_a) after_mismatch))
     = 19.
Proof.
  pose proof (measure_frame (cycle_at 20000 sample_a) after_mismatch
                ltac:(vm_compute; split; congruence))
    as (_ & Hshadow & _).
  split; [reflexivity | split; [exact Hshadow | reflexivity]].
Defined.

Lemma measure_counts (e : cycle_env) (d : ICM20602) :
  let d' := m_state (measure e d) in
  samples_counted d'
  = (samples_counted d + if fetches d e then 1 else 0)%N
  /\ (_duplicates d <= _duplicates d')%N
  /\ (_bad_transfers d <= _bad_transfers d')%N
  /\ (_good_transfers d <= _good_transfers d')%N.
Proof.
  unfold fetches, samples_counted, measure, m_state.
  destruct (_in_factory_test d); [cbn; lia |].
  destruct (env_now e <? _reset_wait d); [cbn; lia |].
  destruct (env_read e) as [r |]; [| cbn; lia].
  destruct (duplicate_data d r); [cbn; unfold perf_count; lia |].
  destruct (all_zero_data (report_from_bytes r));
    [cbn; unfold perf_count; lia |].
  cbn. destruct (negb (_register_wait d =? 0)); cbn; unfold perf_count; lia.
Qed.

Lemma fetches_after_measure (e0 e : cycle_env) (d : ICM20602) :
  fetches (m_state (measure e0 d)) e = fetches d e.
Proof.
  destruct (measure_preserves e0 d) as (Htest & Hwait & _).
  unfold fetches. now rewrite Htest, Hwait.
Qed.

(** X5. Every sample that is fetched is counted exactly once: a cycle that
    completes its block read adds one to exactly one of the duplicate, the
    bad-transfer and the good-transfer counter, and a cycle that does not
    (factory test, recovery wait, short read) changes none of them.  Over
    any sequence of cycles the three counters together grow by the number
    of cycles that fetched a sample, and none of them ever decreases. *)
Theorem every_sample_counted_once (es : list cycle_env) (d : ICM20602) :
  let d' := run_cycles es d in
  samples_counted d'
  = (samples_counted d + N.of_nat (length (List.filter (fetches d) es)))%N
  /\ (_duplicates d <= _duplicates d')%N
  /\ (_bad_transfers d <= _bad_transfers d')%N
  /\ (_good_transfers d <= _good_transfers d')%N.
Proof.
  revert d. induction es as [| e es IH]; intros d; cbn [run_cycles].
  - cbn. lia.
  - destruct (measure_counts e d) as (Hsum & Hdup & Hbad & Hgood).
    destruct (IH (m_state (measure e d))) as (Hsum' & Hdup' & Hbad' & Hgood').
    cbv zeta in *. split; [| lia].
    rewrite Hsum', Hsum.
    rewrite (filter_ext (fetches (m_state (measure e d))) (fetches d))
      by (intros e'; apply fetches_after_measure).
    cbn [List.filter]. destruct (fetches d e); cbn [length]; lia.
Qed.

(** X6. When a cycle hands reports on, and what it returns.  Reports
    appear if and only if a sample was fetched, passed the duplicate test
    and the zero test, and no register wait is pending.  The return value
    is OK or the I/O error; it is the I/O error exactly when the cycle got
    as far as the block read and either the read was short or the fetched,
    non-duplicate sample was all zero; a cycle that returns the error
    never hands a report on. *)
Theorem measure_reports_iff (e : cycle_env) (d : ICM20602) :
  (publishes_nothing (m_events (measure e d)) = false
   <-> exists r, transfers e d r
                 /\ duplicate_data d r = false
                 /\ all_zero_data (report_from_bytes r) = false
                 /\ _register_wait d = 0)
  /\ (m_ret (measure e d) = OK \/ m_ret (measure e d) = - EIO)
  /\ (m_ret (measure e d) = - EIO
      <-> _in_factory_test d = false
          /\ _reset_wait d <= env_now e
          /\ (env_read e = None
              \/ exists r, env_read e = Some r
                           /\ duplicate_data d r = false
                           /\ all_zero_data (report_from_bytes r) = true))
  /\ (m_ret (measure e d) = - EIO ->
      publishes_nothing (m_events (measure e d)) = true).
Proof.
  unfold measure, transfers, m_ret, m_events, OK, EIO.
  destruct (_in_factory_test d) eqn:Htest.
  { cbn. repeat split; auto; try discriminate;
      try (intros (r & (? & _) & _); discriminate);
      try (intros (? & _); discriminate). }
  destruct (Z.ltb_spec (env_now e) (_reset_wait d)) as [Hlt | Hge].
  { cbn. repeat split; auto; try discriminate;
      try (intros (r & (_ & ? & _) & _); lia);
      try (intros (_ & ? & _); lia). }
  destruct (env_read e) as [r |] eqn:Hread.
  2:{ cbn. repeat split; auto; try discriminate.
      intros (r & (_ & _ & ?) & _). discriminate. }
  destruct (duplicate_data d r) eqn:Hdup.
  { cbn. repeat split; auto; try discriminate.
    - intros (r' & (_ & _ & Hr) & Hd & _). injection Hr as <-. congruence.
    - intros (_ & _ & [? | (r' & Hr & Hd & _)]); [discriminate |].
      injection Hr as <-. congruence. }
  destruct (all_zero_data (report_from_bytes r)) eqn:Hzero.
  { cbn. repeat split; auto; try discriminate.
    - intros (r' & (_ & _ & Hr) & _ & Hz & _). injection Hr as <-. congruence.
    - right. exists r. auto. }
  cbn [set_good_transfers _register_wait set_got_duplicate set_last_accel].
  destruct (Z.eqb_spec (_register_wait d) 0) as [Hw | Hw]; cbn [negb fst snd].
  - repeat split; auto; try discriminate.
    + intros _. exists r. auto.
    + intros (_ & _ & [? | (r' & Hr & _ & Hz)]); [discriminate |].
      injection Hr as <-. congruence.
  - cbn. repeat split; auto; try discriminate.
    + intros (r' & _ & _ & _ & ?). contradiction.
    + intros (_ & _ & [? | (r' & Hr & _ & Hz)]); [discriminate |].
      injection Hr as <-. congruence.
Qed.

(** ** The reports *)

Lemma swap_axes_range (report : Report) :
  INT16_MIN <= r_accel_x report <= INT16_MAX ->
  INT16_MIN <= r_accel_y report <= INT16_MAX ->
  INT16_MIN <= r_gyro_x report <= INT16_MAX ->
  INT16_MIN <= r_gyro_y report <= INT16_MAX ->
  INT16_MIN <= r_accel_x (swap_axes report) <= INT16_MAX
  /\ INT16_MIN < r_accel_y (swap_axes report) <= INT16_MAX
  /\ INT16_MIN <= r_gyro_x (swap_axes report) <= INT16_MAX
  /\ INT16_MIN < r_gyro_y (swap_axes report) <= INT16_MAX.
Proof.
  unfold INT16_MIN, INT16_MAX, swap_axes. intros Hax Hay Hgx Hgy. cbn.
  destruct (Z.eqb_spec (r_accel_x report) (-32768));
    destruct (Z.eqb_spec (r_gyro_x report) (-32768));
    rewrite ?wrap16s_small by lia; lia.
Qed.

(** X7. The two reports of a cycle belong together and carry valid raw
    data: they share the time stamp, the error count - the sum of the bad
    transfers and bad register reads counted so far - and the raw
    temperature; they carry the range scale factors the driver holds;
    every raw value is a valid 16-bit value and the raw y values are never
    -32768; and a report that is published is the report that was pushed
    to the buffer. *)
Theorem measure_reports_consistent
        (e : cycle_env) (d : ICM20602) (arb : accel_report) (grb : gyro_report) :
  In (AccelForce arb) (m_events (measure e d)) ->
  In (GyroForce grb) (m_events (measure e d)) ->
  a_timestamp arb = env_timestamp e
  /\ g_timestamp grb = env_timestamp e
  /\ a_error_count arb = (_bad_transfers d + _bad_registers d)%N
  /\ g_error_count grb = a_error_count arb
  /\ g_temperature_raw grb = a_temperature_raw arb
  /\ a_scaling arb = _accel_range_scale d
  /\ a_range_m_s2 arb = _accel_range_m_s2 d
  /\ g_scaling grb = _gyro_range_scale d
  /\ g_range_rad_s grb = _gyro_range_rad_s d
  /\ (INT16_MIN <= a_x_raw arb <= INT16_MAX
      /\ INT16_MIN < a_y_raw arb <= INT16_MAX
      /\ INT16_MIN <= a_z_raw arb <= INT16_MAX)
  /\ (INT16_MIN <= g_x_raw grb <= INT16_MAX
      /\ INT16_MIN < g_y_raw grb <= INT16_MAX
      /\ INT16_MIN <= g_z_raw grb <= INT16_MAX)
  /\ INT16_MIN <= a_temperature_raw arb <= INT16_MAX
  /\ (forall arb', In (OrbPublishAccel arb') (m_events (measure e d)) ->
                   arb' = arb)
  /\ (forall grb', In (OrbPublishGyro grb') (m_events (measure e d)) ->
                   grb' = grb).
Proof.
  intros Harb Hgrb.
  destruct (transfers_dec e d) as [[r Htr] | Hexit].
  2:{ destruct (measure_not_fetched e d Hexit) as (_ & [Hevs | Hevs] & _);
        rewrite Hevs in Harb; cbn in Harb; intuition discriminate. }
  rewrite (measure_after_read e d r Htr) in *.
  destruct (duplicate_data d r);
    [cbn in Harb; intuition discriminate |].
  destruct (all_zero_data (report_from_bytes r));
    [cbn in Harb; intuition discriminate |].
  cbv zeta in *.
  destruct (negb (_register_wait d =? 0));
    [cbn in Harb; intuition discriminate |].
  unfold m_events in *. cbn [snd] in *.
  set (d1 := set_good_transfers _ _) in *.
  set (report := swap_axes (report_from_bytes r)) in *.
  assert (Hforce : forall arb' grb',
             (In (AccelForce arb')
                 (BusReadBlock
                  :: push_and_publish e d1 (fill_arb e d1 report)
                       (fill_grb e d1 report))
              \/ In (OrbPublishAccel arb')
                    (BusReadBlock
                     :: push_and_publish e d1 (fill_arb e d1 report)
                          (fill_grb e d1 report)) ->
              arb' = fill_arb e d1 report)
             /\ (In (GyroForce grb')
                    (BusReadBlock
                     :: push_and_publish e d1 (fill_arb e d1 report)
                          (fill_grb e d1 report))
                 \/ In (OrbPublishGyro grb')
                       (BusReadBlock
                        :: push_and_publish e d1 (fill_arb e d1 report)
                             (fill_grb e d1 report)) ->
                 grb' = fill_grb e d1 report)).
  { intros arb' grb'. unfold push_and_publish.
    destruct (env_accel_notify e), (env_gyro_notify e), (_pub_blocked d1);
      cbn; split; intros Hin;
      repeat match goal with
             | H : _ \/ _ |- _ => destruct H
             end;
      try discriminate; try contradiction; congruence. }
  assert (Ha : arb = fill_arb e d1 report)
    by (apply (Hforce arb grb); now left).
  assert (Hg : grb = fill_grb e d1 report)
    by (apply (Hforce arb grb); now left).
  destruct (swap_axes_range (report_from_bytes r)
              (int16_t_from_bytes_range _) (int16_t_from_bytes_range _)
              (int16_t_from_bytes_range _) (int16_t_from_bytes_range _))
    as (Hsx & Hsy & Hgx & Hgy).
  fold report in Hsx, Hsy, Hgx, Hgy.
  pose proof (int16_t_from_bytes_range (accel_z r)) as Haz.
  pose proof (int16_t_from_bytes_range (gyro_z r)) as Hgz.
  pose proof (int16_t_from_bytes_range (temp r)) as Htemp.
  subst arb grb.
  repeat split; try reflexivity; try (cbn; lia); try assumption;
    try (cbn; apply Hsy); try (cbn; apply Hgy);
    try (cbn; apply Hsx); try (cbn; apply Hgx);
    try (intros x Hin; apply (Hforce x (fill_grb e d1 report)); now right);
    try (intros x Hin; apply (Hforce (fill_arb e d1 report) x); now right).
Qed.

Lemma measure_reports_consistent_witness :
  exists arb grb,
    In (AccelForce arb) (m_events (measure (cycle_at 20 sample_min) initial_state))
    /\ In (GyroForce grb)
          (m_events (measure (cycle_at 20 sample_min) initial_state))
    /\ a_timestamp arb = 70 /\ g_timestamp grb = 70
    /\ a_error_count arb = 0%N
    /\ INT16_MIN < a_y_raw arb <= INT16_MAX.
Proof.
  destruct (measure_reports_events (cycle_at 20 sample_min) initial_state
              sample_min ltac:(repeat split; vm_compute; congruence)
              ltac:(reflexivity) ltac:(reflexivity) ltac:(reflexivity))
    as (arb & grb & rest & Hevs & _).
  assert (Harb : In (AccelForce arb)
                    (m_events (measure (cycle_at 20 sample_min) initial_state)))
    by (rewrite Hevs; cbn; auto).
  assert (Hgrb : In (GyroForce grb)
                    (m_events (measure (cycle_at 20 sample_min) initial_state)))
    by (rewrite Hevs; cbn; auto).
  exists arb, grb.
  pose proof (measure_reports_consistent (cycle_at 20 sample_min) initial_state
                arb grb Harb Hgrb)
    as (Hta & Htg & Herr & _ & _ & _ & _ & _ & _ & (_ & Hy & _) & _).
  split; [exact Harb | split; [exact Hgrb |]].
  split; [exact Hta | split; [exact Htg | split; [exact Herr | exact Hy]]].
Defined.

(** ** The zero test *)

Lemma byte_val_range b : 0 <= byte_val b <= 255.
Proof. unfold byte_val. pose proof (Byte.to_N_bounded b). lia. Qed.

Lemma byte_val_zero b : byte_val b = 0 -> b = x00%byte.
Proof.
  unfold byte_val. intros Hzero.
  pose proof (Byte.of_to_N b) as Hof.
  replace (Byte.to_N b) with 0%N in Hof by lia.
  cbn in Hof. congruence.
Qed.

Lemma int16_t_from_bytes_zero (b : byte * byte) :
  int16_t_from_bytes b = 0 <-> b = (x00, x00)%byte.
Proof.
  split; [| intros ->; reflexivity].
  destruct b as [hi lo]. unfold int16_t_from_bytes, wrap16s. cbn [fst snd].
  pose proof (byte_val_range hi). pose proof (byte_val_range lo).
  intros Hzero.
  assert (Hsum : byte_val hi * 256 + byte_val lo = 0).
  { destruct (Z_lt_ge_dec (byte_val hi * 256 + byte_val lo) 32768).
    - rewrite Z.mod_small in Hzero by lia. lia.
    - replace (byte_val hi * 256 + byte_val lo + 32768)
        with (byte_val hi * 256 + byte_val lo - 32768 + 1 * 65536) in Hzero
        by lia.
      rewrite Z_mod_plus_full, Z.mod_small in Hzero by lia. lia. }
  f_equal; apply byte_val_zero; lia.
Qed.

(** X8. The zero test fires on the raw block and on nothing else: the seven
    converted fields are all zero if and only if all fourteen data bytes of
    the block are zero; the status byte plays no part. *)
Theorem all_zero_data_iff_zero_bytes (icm_report : ICMReport) :
  all_zero_data (report_from_bytes icm_report) = true
  <-> accel_x icm_report = (x00, x00)%byte
      /\ accel_y icm_report = (x00, x00)%byte
      /\ accel_z icm_report = (x00, x00)%byte
      /\ temp icm_report = (x00, x00)%byte
      /\ gyro_x icm_report = (x00, x00)%byte
      /\ gyro_y icm_report = (x00, x00)%byte
      /\ gyro_z icm_report = (x00, x00)%byte.
Proof.
  unfold all_zero_data, report_from_bytes. cbn.
  rewrite !andb_true_iff, !Z.eqb_eq, !int16_t_from_bytes_zero. tauto.
Qed.

(** ** Recovery wait *)

Lemma measure_before_deadline (e : cycle_env) (d : ICM20602) :
  env_now e < _reset_wait d -> measure e d = (OK, d, []).
Proof.
  intros Hwait. unfold measure.
  destruct (_in_factory_test d); [reflexivity |].
  apply Z.ltb_lt in Hwait. now rewrite Hwait.
Qed.

Lemma check_registers_deadline (h : icm20602_h) (now v : Z) (d : ICM20602) :
  v <> checked_value d (_checked_next d) ->
  0 <= now -> now + 10000 < 2 ^ 64 ->
  now + 3000 <= _reset_wait (fst (check_registers h now v d)).
Proof.
  intros Hne Hnow Hmax. change (2 ^ 64) with 18446744073709551616 in Hmax.
  apply Z.eqb_neq in Hne. unfold check_registers. rewrite Hne. cbn [negb].
  cbn [set_bad_registers _register_wait _checked_next].
  destruct ((_register_wait d =? 0) || (_checked_next d =? 0)); cbn;
    rewrite wrap64_small; lia.
Qed.

(** X9. A detected mismatch silences the measurement pipeline for the
    whole recovery wait: whichever recovery tier was taken, every
    measurement cycle that starts less than 3 ms after the mismatch
    returns OK without touching the bus or the driver state, however many
    such cycles there are. *)
Theorem mismatch_silences_pipeline
        (h : icm20602_h) (now v : Z) (d : ICM20602) (es : list cycle_env) :
  v <> checked_value d (_checked_next d) ->
  0 <= now ->
  now + 10000 < 2 ^ 64 ->
  Forall (fun e => env_now e < now + 3000) es ->
  let d' := fst (check_registers h now v d) in
  Forall (fun e => measure e d' = (OK, d', [])) es
  /\ run_cycles es d' = d'.
Proof.
  intros Hne Hnow Hmax Hes d'.
  pose proof (check_registers_deadline h now v d Hne Hnow Hmax) as Hdeadline.
  fold d' in Hdeadline.
  induction Hes as [| e es He Hes IH]; [split; [constructor | reflexivity] |].
  assert (Hsilent : measure e d' = (OK, d', []))
    by (apply measure_before_deadline; lia).
  destruct IH as [IHall IHrun].
  split; [constructor; assumption |].
  cbn [run_cycles]. rewrite Hsilent. exact IHrun.
Qed.

Lemma mismatch_silences_pipeline_witness :
  run_cycles [cycle_at 1500 sample_a; cycle_at 2500 sample_b;
              cycle_at 3999 sample_a]
             after_mismatch
  = after_mismatch.
Proof.
  pose proof (mismatch_silences_pipeline reference_h 1000 7 initial_state
                [cycle_at 1500 sample_a; cycle_at 2500 sample_b;
                 cycle_at 3999 sample_a]
                ltac:(vm_compute; discriminate) ltac:(lia) ltac:(lia)
                ltac:(repeat constructor))
    as [_ Hrun].
  exact Hrun.
Defined.

(** ** Sample rate and on-chip filter *)

(** X10. Whatever rate is requested, the sample-rate divider that is
    programmed lies between 1 and 200: the byte written to SMPLRT_DIV is
    the divider minus one, the same byte is recorded as that register's
    shadow value, and the sample rate the driver reports afterwards is
    1000 divided by the divider, between 5 and 1000 Hz. *)
Theorem set_sample_rate_in_range (h : icm20602_h) (hz : Z) (d : ICM20602) :
  0 <= hz ->
  0 < ICM20602_GYRO_DEFAULT_RATE h ->
  length (_checked_values d) = 8%nat ->
  exists div,
    1 <= div <= 200
    /\ snd (_set_sample_rate h hz d) = [BusWrite ICMREG_SMPLRT_DIV (div - 1)]
    /\ _checked_values (fst (_set_sample_rate h hz d)) !! 2%nat = Some (div - 1)
    /\ _sample_rate (fst (_set_sample_rate h hz d)) = 1000 / div
    /\ 5 <= _sample_rate (fst (_set_sample_rate h hz d)) <= 1000.
Proof.
  intros _ _ Hlen. unfold _set_sample_rate.
  set (req := if (hz =? 0) || (hz =? GYRO_SAMPLERATE_DEFAULT h)
                 || (hz =? ACCEL_SAMPLERATE_DEFAULT h)
              then ICM20602_GYRO_DEFAULT_RATE h else hz).
  set (div0 := wrap8 (1000 / req)).
  set (div1 := if 200 <? div0 then 200 else div0).
  set (div := if div1 <? 1 then 1 else div1).
  assert (Hdiv : 1 <= div <= 200).
  { subst div div1. pose proof (wrap8_range (1000 / req)). fold div0 in H.
    destruct (Z.ltb_spec 200 div0);
      [| destruct (Z.ltb_spec div0 1)]; cbn; lia. }
  exists div. split; [exact Hdiv |].
  assert (Hrate : 5 <= 1000 / div <= 1000).
  { split; [apply Z.div_le_lower_bound | apply Z.div_le_upper_bound]; lia. }
  pose proof (write_checked_reg_shadow ICMREG_SMPLRT_DIV (div - 1) d 2 Hlen
                ltac:(lia)) as Hshadow.
  rewrite decide_True in Hshadow by reflexivity.
  rewrite (wrap8_small (div - 1)) in Hshadow by lia.
  destruct (write_checked_reg ICMREG_SMPLRT_DIV (div - 1) d) as [d1 evs] eqn:Hw.
  assert (Hevs : evs = [BusWrite ICMREG_SMPLRT_DIV (div - 1)]).
  { unfold write_checked_reg, write_reg in Hw. injection Hw as _ <-.
    now rewrite !wrap8_small by (rewrite ?wrap8_small; lia). }
  cbn [fst snd] in *. cbn [_checked_values set_sample_rate _sample_rate].
  repeat split; try assumption; lia.
Qed.

Lemma set_sample_rate_in_range_witness :
  exists div,
    1 <= div <= 200
    /\ snd (_set_sample_rate reference_h 3 initial_state)
       = [BusWrite ICMREG_SMPLRT_DIV (div - 1)]
    /\ 5 <= _sample_rate (fst (_set_sample_rate reference_h 3 initial_state))
       <= 1000.
Proof.
  destruct (set_sample_rate_in_range reference_h 3 initial_state
              ltac:(lia) ltac:(reflexivity) ltac:(reflexivity))
    as (div & Hdiv & Hevs & _ & _ & Hrate).
  exists div. split; [exact Hdiv | split; [exact Hevs | exact Hrate]].
Defined.

(** X11. The on-chip filter is set to the next available cut-off at or
    above the request: for a request between 1 and 188 Hz the setting
    chosen has the smallest cut-off frequency that is not below the
    request, and a request of 0 or above 188 Hz switches the filter off.
    Either way exactly one byte, the code of the chosen setting, is written
    to the CONFIG register and recorded as its shadow value. *)
Theorem set_dlpf_filter_next_highest
        (b : icm20602_bits) (frequency_hz : Z) (d : ICM20602) :
  0 <= frequency_hz < 65536 ->
  length (_checked_values d) = 8%nat ->
  let chosen := dlpf_select frequency_hz in
  (1 <= frequency_hz <= 188 ->
   exists cutoff,
     dlpf_cutoff_hz chosen = Some cutoff
     /\ frequency_hz <= cutoff
     /\ forall c cutoff',
         dlpf_cutoff_hz c = Some cutoff' ->
         frequency_hz <= cutoff' -> cutoff <= cutoff')
  /\ (frequency_hz = 0 \/ 188 < frequency_hz ->
      chosen = BITS_DLPF_CFG_4000HZ_NOLPF)
  /\ snd (_set_dlpf_filter b frequency_hz d)
     = [BusWrite ICMREG_CONFIG (wrap8 (dlpf_bits b chosen))]
  /\ _checked_values (fst (_set_dlpf_filter b frequency_hz d)) !! 3%nat
     = Some (wrap8 (dlpf_bits b chosen)).
Proof.
  intros Hrange Hlen chosen.
  assert (Hcut : forall c cutoff',
             dlpf_cutoff_hz c = Some cutoff' ->
             cutoff' = 5 \/ cutoff' = 10 \/ cutoff' = 20 \/ cutoff' = 42
             \/ cutoff' = 98 \/ cutoff' = 188).
  { intros c cutoff' Hc. destruct c; cbn in Hc; inversion Hc; lia. }
  split; [| split; [| split]].
  - intros Hreq. subst chosen. unfold dlpf_select.
    destruct (Z.eqb_spec frequency_hz 0); [lia |].
    repeat match goal with
           | |- context [?a <=? ?c] => destruct (Z.leb_spec a c)
           end;
      try lia;
      (eexists; split; [reflexivity |]; split; [lia |];
       intros c cutoff' Hc Hle; destruct (Hcut c cutoff' Hc); lia).
  - intros Hoff. subst chosen. unfold dlpf_select.
    destruct (Z.eqb_spec frequency_hz 0); [reflexivity |].
    repeat match goal with
           | |- context [?a <=? ?c] => destruct (Z.leb_spec a c)
           end; try lia; reflexivity.
  - unfold _set_dlpf_filter, wrap16. rewrite Z.mod_small by lia.
    unfold write_checked_reg, write_reg. cbn [snd].
    now rewrite (wrap8_small (wrap8 _)) by apply wrap8_range.
  - unfold _set_dlpf_filter, wrap16. rewrite Z.mod_small by lia.
    rewrite (write_checked_reg_shadow ICMREG_CONFIG _ d 3 Hlen) by lia.
    now rewrite decide_True by reflexivity.
Qed.

(** Requesting 15 Hz selects the 20 Hz setting. *)
Lemma set_dlpf_filter_next_highest_witness :
  dlpf_select 15 = BITS_DLPF_CFG_20HZ
  /\ snd (_set_dlpf_filter reference_bits 15 initial_state)
     = [BusWrite ICMREG_CONFIG 4]
  /\ dlpf_select 189 = BITS_DLPF_CFG_4000HZ_NOLPF.
Proof.
  pose proof (set_dlpf_filter_next_highest reference_bits 15 initial_state
                ltac:(lia) eq_refl) as (_ & _ & Hevs & _).
  pose proof (set_dlpf_filter_next_highest reference_bits 189 initial_state
                ltac:(lia) eq_refl) as (_ & Hoff & _).
  split; [reflexivity | split; [exact Hevs | apply Hoff; lia]].
Defined.

(** ** Poll rate *)

Lemma pollrate_round_trip_arith (arg : Z) :
  1 <= arg <= 1000 ->
  1000 <= 1000000 / arg <= 1000000
  /\ 1000000 / (1000000 / arg) = arg.
Proof.
  intros Harg.
  assert (Hlo : 1000 <= 1000000 / arg) by (apply Z.div_le_lower_bound; lia).
  assert (Hhi : 1000000 / arg <= 1000000)
    by (apply Z.div_le_upper_bound; lia).
  split; [lia |].
  pose proof (Z.div_mod 1000000 arg ltac:(lia)) as Hdm.
  pose proof (Z.mod_pos_bound 1000000 arg ltac:(lia)) as Hmod.
  symmetry. apply (Z.div_unique 1000000 (1000000 / arg) arg (1000000 mod arg));
    [left; lia | lia].
Qed.

(** X12. Setting and reading back the poll rate is a round trip: every
    rate from 1 to 1000 Hz (that is not one of the four special request
    values) is accepted, the poll-rate query then returns exactly that
    rate, the call interval is 1000000/rate microseconds and the timer
    period is 200 microseconds shorter, at least 800; the timer is started
    if and only if the driver was in manual mode.  The request for manual
    polling is accepted, and the query then returns the manual value. *)
Theorem pollrate_round_trip
        (fuel : nat) (b : icm20602_bits) (cutoff_accel cutoff_gyro : F32.float)
        (arg : Z) (dv : Driver) :
  1 <= arg <= 1000 ->
  arg <> SENSOR_POLLRATE_MANUAL b ->
  arg <> SENSOR_POLLRATE_EXTERNAL b ->
  arg <> SENSOR_POLLRATE_MAX b ->
  arg <> SENSOR_POLLRATE_DEFAULT b ->
  (exists dv' evs,
      set_pollrate (S fuel) b cutoff_accel cutoff_gyro arg dv
      = Some (OK, dv', evs)
      /\ get_pollrate b dv' = arg
      /\ _call_interval dv' = 1000000 / arg
      /\ _call_period dv' = _call_interval dv' - ICM20602_TIMER_REDUCTION
      /\ 800 <= _call_period dv'
      /\ _gyro_scale dv' = _gyro_scale dv
      /\ (In (HrtCallEvery 1000 (_call_period dv')) evs
          <-> _call_interval dv = 0))
  /\ (exists dv' evs,
         set_pollrate (S fuel) b cutoff_accel cutoff_gyro
                      (SENSOR_POLLRATE_MANUAL b) dv
         = Some (OK, dv', evs)
         /\ get_pollrate b dv' = SENSOR_POLLRATE_MANUAL b
         /\ In HrtCancel evs).
Proof.
  intros Harg Hman Hext Hmax Hdef.
  destruct (pollrate_round_trip_arith arg Harg) as [Hticks Hback].
  split.
  - cbn [set_pollrate].
    apply Z.eqb_neq in Hman, Hext, Hmax, Hdef.
    rewrite Hman, Hext, Hmax, Hdef.
    replace (arg =? 0) with false by (symmetry; apply Z.eqb_neq; lia).
    cbn [orb].
    replace (1000000 / arg <? 1000) with false
      by (symmetry; apply Z.ltb_ge; lia).
    destruct (_set_dlpf_filter b (float_to_Z cutoff_accel) (core dv))
      as [c1 w1].
    destruct (_set_dlpf_filter b (float_to_Z cutoff_gyro) c1) as [c2 w2].
    assert (Hnot : forall (w : list event) x y, ~ In (HrtCallEvery x y) (map Bus w)).
    { intros w x y Hin. apply in_map_iff in Hin as (ev & Hev & _). discriminate. }
    assert (Hw : wrap32 (1000000 / arg - ICM20602_TIMER_REDUCTION)
                 = 1000000 / arg - ICM20602_TIMER_REDUCTION).
    { unfold wrap32, ICM20602_TIMER_REDUCTION. apply Z.mod_small. lia. }
    assert (Hnz' : (1000000 / arg =? 0) = false) by (apply Z.eqb_neq; lia).
    destruct (Z.eqb_spec (_call_interval dv) 0) as [Hzero | Hnz].
    + unfold start, stop.
      eexists _, _. split; [reflexivity |].
      unfold get_pollrate, set_core.
      simpl _call_interval. simpl _call_period. simpl _gyro_scale.
      rewrite Hnz', Hw. unfold ICM20602_TIMER_REDUCTION.
      split; [exact Hback |]. split; [reflexivity |]. split; [reflexivity |].
      split; [lia |]. split; [reflexivity |].
      split; [intros _; exact Hzero |].
      intros _. repeat (apply in_or_app; right). cbn. auto 10.
    + eexists _, _. split; [reflexivity |].
      unfold get_pollrate.
      simpl _call_interval. simpl _call_period. simpl _gyro_scale.
      rewrite Hnz'. unfold ICM20602_TIMER_REDUCTION.
      split; [exact Hback |]. split; [reflexivity |]. split; [reflexivity |].
      split; [lia |]. split; [reflexivity |].
      split; [| intros Hz; contradiction].
      intros Hin. exfalso. rewrite !in_app_iff in Hin.
      destruct Hin as [Hin | [Hin | [Hin | Hin]]];
        try (now apply Hnot in Hin);
        cbn in Hin; intuition discriminate.
  - cbn [set_pollrate]. rewrite Z.eqb_refl. unfold stop.
    eexists _, _. split; [reflexivity |].
    unfold get_pollrate. cbn. auto.
Qed.

Lemma pollrate_round_trip_witness :
  exists dv' evs,
    set_pollrate 1 reference_bits (F32.of_Z 30) (F32.of_Z 30) 300 initial_driver
    = Some (OK, dv', evs)
    /\ get_pollrate reference_bits dv' = 300
    /\ _call_interval dv' = 3333
    /\ _call_period dv' = 3133.
Proof.
  destruct (pollrate_round_trip 0 reference_bits (F32.of_Z 30) (F32.of_Z 30)
              300 initial_driver ltac:(lia)
              ltac:(vm_compute; discriminate) ltac:(vm_compute; discriminate)
              ltac:(vm_compute; discriminate) ltac:(vm_compute; discriminate))
    as [(dv' & evs & Hset & Hget & Hint & Hper & _) _].
  exists dv', evs.
  split; [exact Hset | split; [exact Hget | split; [exact Hint |]]].
  rewrite Hper, Hint. reflexivity.
Defined.

(** X13. A poll rate above 1000 Hz, a poll rate of zero and the request
    for external signalling are rejected with the invalid-argument error;
    the driver, its timer and the bus are left exactly as they were. *)
Theorem pollrate_rejected
        (fuel : nat) (b : icm20602_bits) (cutoff_accel cutoff_gyro : F32.float)
        (arg : Z) (dv : Driver) :
  arg <> SENSOR_POLLRATE_MANUAL b ->
  arg = 0 \/ arg = SENSOR_POLLRATE_EXTERNAL b
  \/ (1000 < arg /\ arg <> SENSOR_POLLRATE_MAX b
      /\ arg <> SENSOR_POLLRATE_DEFAULT b) ->
  set_pollrate (S fuel) b cutoff_accel cutoff_gyro arg dv
  = Some (- EINVAL, dv, []).
Proof.
  intros Hman Hcase. cbn [set_pollrate].
  apply Z.eqb_neq in Hman. rewrite Hman.
  destruct Hcase as [-> | [-> | (Hbig & Hmax & Hdef)]].
  - now rewrite orb_true_r.
  - now rewrite Z.eqb_refl.
  - destruct ((arg =? SENSOR_POLLRATE_EXTERNAL b) || (arg =? 0));
      [reflexivity |].
    apply Z.eqb_neq in Hmax, Hdef. rewrite Hmax, Hdef.
    replace (1000000 / arg <? 1000) with true; [reflexivity |].
    symmetry. apply Z.ltb_lt. apply Z.div_lt_upper_bound; lia.
Qed.

Lemma pollrate_rejected_witness :
  set_pollrate 1 reference_bits (F32.of_Z 30) (F32.of_Z 30) 1001 initial_driver
  = Some (- EINVAL, initial_driver, [])
  /\ set_pollrate 1 reference_bits (F32.of_Z 30) (F32.of_Z 30) 0 initial_driver
     = Some (- EINVAL, initial_driver, []).
Proof.
  split.
  - apply pollrate_rejected; [vm_compute; discriminate |].
    right. right. repeat split; vm_compute; congruence.
  - apply pollrate_rejected; [vm_compute; discriminate | now left].
Defined.

(** ** Accelerometer range *)

(** X14. With standard gravity 9.80665 m/s^2, setting and reading back the
    accelerometer range is a round trip onto the supported buckets: after
    any range request the range query returns the bucket that was chosen,
    one of 2, 4, 8 and 16 g. *)
Theorem accel_range_round_trip (h : icm20602_h) (max_g : Z) (d : ICM20602) :
  ICM20602_ONE_G h = f32_lit 980665 100000 ->
  get_accel_range h (m_state (set_accel_range h max_g d))
  = snd (accel_range_select max_g)
  /\ In (snd (accel_range_select max_g)) [2; 4; 8; 16].
Proof.
  intros Hg. rewrite set_accel_range_unfold.
  unfold get_accel_range, m_state. cbn [fst snd set_accel_range_m_s2
                                         _accel_range_m_s2].
  rewrite Hg. unfold accel_range_select.
  destruct (8 <? max_g); [split; [vm_compute; reflexivity | cbn; tauto] |].
  destruct (4 <? max_g); [split; [vm_compute; reflexivity | cbn; tauto] |].
  destruct (2 <? max_g); split; try (vm_compute; reflexivity); cbn; tauto.
Qed.

Lemma accel_range_round_trip_witness :
  get_accel_range reference_h (m_state (set_accel_range reference_h 5 initial_state))
  = 8.
Proof.
  destruct (accel_range_round_trip reference_h 5 initial_state eq_refl)
    as [Hget _].
  exact Hget.
Defined.

(** ** Register helpers *)

Lemma swap16_bytes (hi lo : Z) :
  0 <= hi < 256 -> 0 <= lo < 256 ->
  swap16 (256 * hi + lo) = 256 * lo + hi.
Proof.
  intros Hhi Hlo. unfold swap16, wrap16.
  rewrite Z.shiftr_div_pow2, Z.shiftl_mul_pow2 by lia.
  change (2 ^ 8) with 256.
  replace ((256 * hi + lo) / 256) with hi
    by (apply (Z.div_unique _ 256 hi lo); [left |]; lia).
  assert (Hland : Z.land hi ((256 * hi + lo) * 256) = 0).
  { apply Z.bits_inj'. intros n Hn. rewrite Z.land_spec, Z.bits_0.
    destruct (Z_lt_ge_dec n 8).
    - replace ((256 * hi + lo) * 256) with ((256 * hi + lo) * 2 ^ 8) by lia.
      rewrite Z.mul_pow2_bits_low by lia. apply andb_false_r.
    - rewrite (Z.bits_above_log2 hi n); [reflexivity | lia |].
      destruct (Z.eq_dec hi 0) as [-> | Hnz]; [cbn; lia |].
      apply Z.lt_le_trans with 8; [| lia].
      apply Z.log2_lt_pow2; [lia |]. change (2 ^ 8) with 256. lia. }
  rewrite <- (Z.lxor_lor _ _ Hland), <- (Z.add_nocarry_lxor _ _ Hland).
  replace (hi + (256 * hi + lo) * 256) with (256 * lo + hi + hi * 65536)
    by lia.
  rewrite Z_mod_plus_full. apply Z.mod_small. lia.
Qed.

(** X15. [swap16] exchanges the two bytes of a 16-bit value, and applying
    it twice gives the value back. *)
Theorem swap16_involution (val : Z) :
  0 <= val < 65536 ->
  swap16 val = 256 * (val mod 256) + val / 256
  /\ 0 <= swap16 val < 65536
  /\ swap16 (swap16 val) = val.
Proof.
  intros Hval.
  pose proof (Z.div_mod val 256 ltac:(lia)) as Hdm.
  pose proof (Z.mod_pos_bound val 256 ltac:(lia)) as Hlo.
  assert (Hhi : 0 <= val / 256 < 256).
  { split; [apply Z.div_pos; lia | apply Z.div_lt_upper_bound; lia]. }
  assert (Hswap : swap16 val = 256 * (val mod 256) + val / 256).
  { rewrite Hdm at 1. now apply swap16_bytes. }
  split; [exact Hswap |]. split; [lia |].
  rewrite Hswap, swap16_bytes by lia. lia.
Qed.

Lemma swap16_involution_witness :
  swap16 4660 = 13330 /\ swap16 (swap16 4660) = 4660.
Proof.
  destruct (swap16_involution 4660 ltac:(lia)) as (Hswap & _ & Hback).
  split; [exact Hswap | exact Hback].
Defined.

(** X16. [modify_reg] clears bits before it sets bits: it reads the
    register once and writes it once, and in the byte written every bit
    that is to be set is set, every other bit that is to be cleared is
    clear, and every remaining bit is as it was read. *)
Theorem modify_reg_bits (r : reg) (clearbits setbits v : Z) :
  0 <= v < 256 ->
  0 <= setbits < 256 ->
  exists written,
    modify_reg r clearbits setbits v
    = [BusRead r ICM20602_LOW_BUS_SPEED; BusWrite r written]
    /\ 0 <= written < 256
    /\ forall n, 0 <= n < 8 ->
                 Z.testbit written n
                 = Z.testbit setbits n
                   || (Z.testbit v n && negb (Z.testbit clearbits n)).
Proof.
  intros Hv Hset. unfold modify_reg, write_reg. cbv zeta.
  eexists. split; [reflexivity |].
  split; [apply wrap8_range |].
  intros n Hn. unfold wrap8. change 256 with (2 ^ 8).
  rewrite !Z.mod_pow2_bits_low by lia.
  rewrite Z.lor_spec, Z.mod_pow2_bits_low by lia.
  rewrite Z.land_spec, Z.lnot_spec by lia.
  destruct (Z.testbit setbits n), (Z.testbit v n), (Z.testbit clearbits n);
    reflexivity.
Qed.

Lemma modify_reg_bits_witness :
  exists written,
    modify_reg ICMREG_USER_CTRL 15 129 60
    = [BusRead ICMREG_USER_CTRL ICM20602_LOW_BUS_SPEED;
       BusWrite ICMREG_USER_CTRL written]
    /\ Z.testbit written 0 = true
    /\ Z.testbit written 2 = false
    /\ Z.testbit written 5 = true.
Proof.
  destruct (modify_reg_bits ICMREG_USER_CTRL 15 129 60 ltac:(lia) ltac:(lia))
    as (written & Hev & _ & Hbits).
  exists written. split; [exact Hev |].
  split; [exact (Hbits 0 ltac:(lia)) |].
  split; [exact (Hbits 2 ltac:(lia)) | exact (Hbits 5 ltac:(lia))].
Defined.

(** ** What every call keeps *)

Lemma measure_keeps (e : cycle_env) (d : ICM20602) :
  0 <= _register_wait d <= 255 ->
  let d' := m_state (measure e d) in
  _checked_values d' = _checked_values d
  /\ _checked_next d' = _checked_next d
  /\ _sample_rate d' = _sample_rate d
  /\ 0 <= _register_wait d' <= _register_wait d.
Proof.
  intros Hwait. unfold measure, m_state.
  destruct (_in_factory_test d); [cbn; repeat split; lia |].
  destruct (env_now e <? _reset_wait d); [cbn; repeat split; lia |].
  destruct (env_read e) as [r |]; [| cbn; repeat split; lia].
  destruct (duplicate_data d r); [cbn; repeat split; lia |].
  destruct (all_zero_data (report_from_bytes r)); [cbn; repeat split; lia |].
  cbn. destruct (Z.eqb_spec (_register_wait d) 0); cbn;
    repeat split; try lia; rewrite wrap8_small; lia.
Qed.

Lemma measure_no_writes (e : cycle_env) (d : ICM20602) (r : reg) :
  last_write r (m_events (measure e d)) = None.
Proof.
  unfold measure, m_events.
  destruct (_in_factory_test d); [reflexivity |].
  destruct (env_now e <? _reset_wait d); [reflexivity |].
  destruct (env_read e) as [rep |]; [| reflexivity].
  destruct (duplicate_data d rep); [reflexivity |].
  destruct (all_zero_data (report_from_bytes rep)); [reflexivity |].
  cbn. destruct (negb (_register_wait d =? 0)); [reflexivity |].
  cbn. unfold push_and_publish.
  destruct (env_accel_notify e), (env_gyro_notify e), (_pub_blocked d);
    reflexivity.
Qed.

Lemma check_registers_keeps (h : icm20602_h) (now v : Z) (d : ICM20602) :
  let d' := fst (check_registers h now v d) in
  _checked_values d' = _checked_values d
  /\ 0 <= _checked_next d' < ICM20602_NUM_CHECKED_REGISTERS
  /\ (_register_wait d' = _register_wait d \/ _register_wait d' = 20)
  /\ _sample_rate d' = _sample_rate d.
Proof.
  unfold check_registers.
  assert (Hmod : forall z, 0 <= wrap8 (z mod ICM20602_NUM_CHECKED_REGISTERS)
                           < ICM20602_NUM_CHECKED_REGISTERS).
  { intros z. unfold ICM20602_NUM_CHECKED_REGISTERS.
    pose proof (Z.mod_pos_bound z 8 ltac:(lia)).
    rewrite wrap8_small; lia. }
  destruct (negb (v =? checked_value d (_checked_next d))).
  - cbn [set_bad_registers _register_wait _checked_next].
    destruct ((_register_wait d =? 0) || (_checked_next d =? 0));
      cbn; repeat split; auto; apply Hmod.
  - cbn; repeat split; auto; apply Hmod.
Qed.

Lemma set_sample_rate_keeps (h : icm20602_h) (hz : Z) (d : ICM20602) :
  let d' := fst (_set_sample_rate h hz d) in
  (exists value,
      _checked_values d'
      = _checked_values (fst (write_checked_reg ICMREG_SMPLRT_DIV value d))
      /\ snd (_set_sample_rate h hz d)
         = snd (write_checked_reg ICMREG_SMPLRT_DIV value d))
  /\ _checked_next d' = _checked_next d
  /\ _register_wait d' = _register_wait d
  /\ 5 <= _sample_rate d' <= 1000
  /\ _accel_range_scale d' = _accel_range_scale d
  /\ _accel_range_m_s2 d' = _accel_range_m_s2 d.
Proof.
  unfold _set_sample_rate.
  set (req := if (hz =? 0) || (hz =? GYRO_SAMPLERATE_DEFAULT h)
                 || (hz =? ACCEL_SAMPLERATE_DEFAULT h)
              then ICM20602_GYRO_DEFAULT_RATE h else hz).
  set (div0 := wrap8 (1000 / req)).
  set (div1 := if 200 <? div0 then 200 else div0).
  set (div := if div1 <? 1 then 1 else div1).
  assert (Hdiv : 1 <= div <= 200).
  { subst div div1. pose proof (wrap8_range (1000 / req)) as H. fold div0 in H.
    destruct (Z.ltb_spec 200 div0);
      [| destruct (Z.ltb_spec div0 1)]; cbn; lia. }
  assert (Hrate : 5 <= 1000 / div <= 1000).
  { split; [apply Z.div_le_lower_bound | apply Z.div_le_upper_bound]; lia. }
  unfold write_checked_reg at 1 2. cbn [fst snd].
  split; [exists (div - 1); split; reflexivity |].
  cbn. repeat split; lia.
Qed.

Lemma set_accel_range_keeps (h : icm20602_h) (max_g : Z) (d : ICM20602) :
  let d' := m_state (set_accel_range h max_g d) in
  (exists value,
      _checked_values d'
      = _checked_values (fst (write_checked_reg ICMREG_ACCEL_CONFIG value d))
      /\ m_events (set_accel_range h max_g d)
         = snd (write_checked_reg ICMREG_ACCEL_CONFIG value d))
  /\ _checked_next d' = _checked_next d
  /\ _register_wait d' = _register_wait d
  /\ _sample_rate d' = _sample_rate d.
Proof.
  rewrite set_accel_range_unfold. unfold m_state, m_events. cbn [fst snd].
  split; [eexists; split; reflexivity |].
  cbn. repeat split.
Qed.

Lemma last_write_app (r : reg) (evs1 evs2 : list event) :
  last_write r (evs1 ++ evs2)
  = match last_write r evs2 with
    | Some v => Some v
    | None => last_write r evs1
    end.
Proof.
  induction evs1 as [| ev evs1 IH]; cbn [app last_write].
  - destruct (last_write r evs2); reflexivity.
  - rewrite IH. destruct (last_write r evs2); [reflexivity |].
    reflexivity.
Qed.

Lemma checked_register_inj (i j : nat) :
  (i < 8)%nat -> (j < 8)%nat ->
  checked_register (Z.of_nat i) = checked_register (Z.of_nat j) -> i = j.
Proof.
  intros Hi Hj.
  do 8 (destruct i as [| i];
        [do 8 (destruct j as [| j];
               [vm_compute; intros Heq; congruence |]); lia |]).
  lia.
Qed.

Lemma in_step_refl (d d' : ICM20602) :
  _checked_values d' = _checked_values d -> in_step d d' [].
Proof. intros Heq i Hi. cbn. now rewrite Heq. Qed.

Lemma in_step_quiet (d d' : ICM20602) (evs : list event) :
  _checked_values d' = _checked_values d ->
  (forall r, last_write r evs = None \/ r = ICMREG_PWR_MGMT_1) ->
  in_step d d' evs.
Proof.
  intros Heq Hquiet i Hi.
  destruct (Hquiet (checked_register (Z.of_nat i))) as [-> | Hpwr];
    [now rewrite Heq |].
  exfalso. change ICMREG_PWR_MGMT_1 with (checked_register (Z.of_nat 0)) in Hpwr.
  apply checked_register_inj in Hpwr; lia.
Qed.

Lemma in_step_trans (d d1 d2 : ICM20602) (evs1 evs2 : list event) :
  in_step d d1 evs1 -> in_step d1 d2 evs2 -> in_step d d2 (evs1 ++ evs2).
Proof.
  intros H1 H2 i Hi. rewrite last_write_app, (H2 i Hi).
  destruct (last_write _ evs2); [reflexivity | apply (H1 i Hi)].
Qed.

Lemma in_step_shadows (d d1 d2 : ICM20602) (evs : list event) :
  in_step d d1 evs -> _checked_values d2 = _checked_values d1 ->
  in_step d d2 evs.
Proof. intros H Heq i Hi. rewrite Heq. apply (H i Hi). Qed.

Lemma in_step_write_checked (r : reg) (value : Z) (d : ICM20602) :
  length (_checked_values d) = 8%nat ->
  in_step d (fst (write_checked_reg r value d))
          (snd (write_checked_reg r value d)).
Proof.
  intros Hlen i Hi.
  rewrite (write_checked_reg_shadow r value d i Hlen) by lia.
  unfold write_checked_reg, write_reg. cbn [snd last_write].
  rewrite (wrap8_small (wrap8 value)) by apply wrap8_range.
  do 8 (destruct i as [| i]; [destruct r; try reflexivity; lia |]). lia.
Qed.

Lemma in_step_raw_reset (h : icm20602_h) (d : ICM20602) :
  in_step d d (write_reg ICMREG_PWR_MGMT_1 (BIT_H_RESET h)).
Proof.
  apply in_step_quiet; [reflexivity |]. intros r.
  unfold write_reg. cbn.
  destruct (decide (ICMREG_PWR_MGMT_1 = r)); [now right | now left].
Qed.

Lemma in_step_check_registers (h : icm20602_h) (now v : Z) (d : ICM20602) :
  length (_checked_values d) = 8%nat ->
  Forall (fun x => 0 <= x < 256) (_checked_values d) ->
  0 <= _checked_next d < ICM20602_NUM_CHECKED_REGISTERS ->
  in_step d (fst (check_registers h now v d)) (snd (check_registers h now v d)).
Proof.
  intros Hlen Hrange Hcur.
  destruct (check_registers_keeps h now v d) as (Hshadow & _).
  unfold check_registers in *.
  destruct (negb (v =? checked_value d (_checked_next d))).
  2:{ apply in_step_quiet; [exact Hshadow | intros r; now left]. }
  cbn [set_bad_registers _register_wait _checked_next] in *.
  destruct ((_register_wait d =? 0) || (_checked_next d =? 0)).
  - apply in_step_quiet; [exact Hshadow |]. intros r. cbn.
    destruct (decide (ICMREG_PWR_MGMT_1 = r)); [now right | now left].
  - cbn [fst snd] in *. intros i Hi. rewrite Hshadow.
    unfold write_reg. cbn [app last_write checked_value set_bad_registers
                             _checked_values].
    destruct (decide (checked_register (_checked_next d)
                      = checked_register (Z.of_nat i))) as [Heq | Hne];
      [| reflexivity].
    unfold ICM20602_NUM_CHECKED_REGISTERS in Hcur.
    replace (_checked_next d) with (Z.of_nat (Z.to_nat (_checked_next d)))
      in Heq by lia.
    apply checked_register_inj in Heq; [| lia | lia].
    unfold checked_value. cbn [set_bad_registers _checked_values].
    rewrite Heq.
    destruct (_checked_values d !! i) as [x |] eqn:Hx;
      [| apply lookup_ge_None in Hx; lia].
    cbn. f_equal. symmetry. apply wrap8_small.
    rewrite Forall_forall in Hrange. apply Hrange.
    eapply list_elem_of_lookup_2. exact Hx.
Qed.

(** ** Configuration steps *)

Lemma config_step_refl (d d' : ICM20602) :
  length (_checked_values d) = 8%nat ->
  _checked_values d' = _checked_values d ->
  _checked_next d' = _checked_next d ->
  _register_wait d' = _register_wait d ->
  config_step d d' [].
Proof.
  intros Hlen Heq Hcur Hwait. unfold config_step. rewrite Heq.
  repeat split; auto. now apply in_step_refl.
Qed.

Lemma config_step_trans (d d1 d2 : ICM20602) (evs1 evs2 : list event) :
  config_step d d1 evs1 -> config_step d1 d2 evs2 ->
  config_step d d2 (evs1 ++ evs2).
Proof.
  intros (Hl1 & Hr1 & Hs1 & Hc1 & Hw1) (Hl2 & Hr2 & Hs2 & Hc2 & Hw2).
  unfold config_step. repeat split; auto; try congruence.
  eapply in_step_trans; eassumption.
Qed.

Lemma config_step_write (d d' : ICM20602) (evs : list event)
      (r : reg) (value : Z) :
  length (_checked_values d) = 8%nat ->
  _checked_values d' = _checked_values (fst (write_checked_reg r value d)) ->
  evs = snd (write_checked_reg r value d) ->
  _checked_next d' = _checked_next d ->
  _register_wait d' = _register_wait d ->
  config_step d d' evs.
Proof.
  intros Hlen Heq -> Hcur Hwait. unfold config_step. rewrite Heq.
  split; [now rewrite write_checked_reg_length |].
  split; [apply write_checked_reg_range |].
  split; [| split; assumption].
  eapply in_step_shadows; [now apply in_step_write_checked | exact Heq].
Qed.

Lemma config_step_checked (r : reg) (value : Z) (d : ICM20602) :
  length (_checked_values d) = 8%nat ->
  config_step d (fst (write_checked_reg r value d))
              (snd (write_checked_reg r value d)).
Proof. intros Hlen. now apply config_step_write with r value. Qed.

Lemma config_step_sample_rate (h : icm20602_h) (hz : Z) (d : ICM20602) :
  length (_checked_values d) = 8%nat ->
  config_step d (fst (_set_sample_rate h hz d)) (snd (_set_sample_rate h hz d)).
Proof.
  intros Hlen.
  destruct (set_sample_rate_keeps h hz d)
    as ((value & Hshadow & Hevs) & Hcur & Hwait & _).
  now apply config_step_write with ICMREG_SMPLRT_DIV value.
Qed.

Lemma config_step_accel_range (h : icm20602_h) (max_g : Z) (d : ICM20602) :
  length (_checked_values d) = 8%nat ->
  config_step d (m_state (set_accel_range h max_g d))
              (m_events (set_accel_range h max_g d)).
Proof.
  intros Hlen.
  destruct (set_accel_range_keeps h max_g d)
    as ((value & Hshadow & Hevs) & Hcur & Hwait & _).
  now apply config_step_write with ICMREG_ACCEL_CONFIG value.
Qed.

(** ** Reset *)

Lemma bus_events_app (evs1 evs2 : list sys_event) :
  bus_events (evs1 ++ evs2) = bus_events evs1 ++ bus_events evs2.
Proof. unfold bus_events. apply flat_map_app. Qed.

Lemma bus_events_map (w : list event) : bus_events (map Bus w) = w.
Proof. induction w as [| ev w IH]; cbn; [reflexivity | now f_equal]. Qed.

Lemma sections_entered_app (evs1 evs2 : list sys_event) :
  sections_entered (evs1 ++ evs2)
  = (sections_entered evs1 + sections_entered evs2)%nat.
Proof. unfold sections_entered. now rewrite List.filter_app, length_app. Qed.

Lemma sections_left_app (evs1 evs2 : list sys_event) :
  sections_left (evs1 ++ evs2)
  = (sections_left evs1 + sections_left evs2)%nat.
Proof. unfold sections_left. now rewrite List.filter_app, length_app. Qed.

Lemma sections_of_bus (w : list event) :
  sections_entered (map Bus w) = 0%nat /\ sections_left (map Bus w) = 0%nat.
Proof.
  unfold sections_entered, sections_left.
  induction w as [| ev w [IHe IHl]]; cbn; auto.
Qed.

Lemma set_checked_values_id (d : ICM20602) :
  set_checked_values (_checked_values d) d = d.
Proof. destruct d; reflexivity. Qed.

Lemma last_write_none (r : reg) (evs : list event) :
  (forall v, ~ In (BusWrite r v) evs) -> last_write r evs = None.
Proof.
  induction evs as [| ev evs IH]; intros Hno; [reflexivity |].
  cbn [last_write]. rewrite IH by (intros v Hin; apply (Hno v); now right).
  destruct ev as [r' v | | | | | | | |]; try reflexivity.
  destruct (decide (r' = r)) as [-> |]; [| reflexivity].
  exfalso. apply (Hno v). now left.
Qed.

Lemma in_step_pwr_only (d d' : ICM20602) (evs : list event) :
  (forall i : nat, (1 <= i < 8)%nat ->
                   _checked_values d' !! i = _checked_values d !! i) ->
  (forall r v, In (BusWrite r v) evs -> r = ICMREG_PWR_MGMT_1) ->
  in_step d d' evs.
Proof.
  intros Hsame Hpwr i Hi. rewrite last_write_none; [now apply Hsame |].
  intros v Hin. apply Hpwr in Hin.
  change ICMREG_PWR_MGMT_1 with (checked_register (Z.of_nat 0)) in Hin.
  apply checked_register_inj in Hin; lia.
Qed.

(** The reset loop, as far as the driver state, the bus and the critical
    section are concerned. *)
Lemma reset_attempts_keeps (h : icm20602_h) (b : icm20602_bits) (tries : nat) :
  forall (k : nat) (reply : nat -> Z) (d : ICM20602),
    let d' := snd (fst (reset_attempts h b tries k reply d)) in
    let evs := snd (reset_attempts h b tries k reply d) in
    d' = set_checked_values (_checked_values d') d
    /\ length (_checked_values d') = length (_checked_values d)
    /\ (Forall (fun v => 0 <= v < 256) (_checked_values d) ->
        Forall (fun v => 0 <= v < 256) (_checked_values d'))
    /\ (forall i : nat, (1 <= i < 8)%nat ->
                        _checked_values d' !! i = _checked_values d !! i)
    /\ (forall r v, In (BusWrite r v) (bus_events evs) ->
                    r = ICMREG_PWR_MGMT_1)
    /\ (sections_entered evs <= tries)%nat
    /\ (sections_left evs <= sections_entered evs <= S (sections_left evs))%nat
    /\ (1 <= tries -> 1 <= sections_entered evs)%nat.
Proof.
  induction tries as [| tries IH]; intros k reply d.
  - cbn. rewrite set_checked_values_id. repeat split; auto; try lia.
  - cbn [reset_attempts].
    destruct (negb (Z.land (wrap8 (reply k)) (BIT_H_RESET h) =? 0)).
    + cbn [fst snd]. rewrite set_checked_values_id.
      cbn. repeat split; auto; try lia.
      intros r v Hin. repeat (destruct Hin as [Hin | Hin]);
        try congruence; contradiction.
    + pose proof (write_checked_reg_state ICMREG_PWR_MGMT_1
                    (BITS_BESTCLOCK_PLL3 b) d) as Hstate1.
      pose proof (write_checked_reg_length ICMREG_PWR_MGMT_1
                    (BITS_BESTCLOCK_PLL3 b) d) as Hlen1.
      pose proof (write_checked_reg_range ICMREG_PWR_MGMT_1
                    (BITS_BESTCLOCK_PLL3 b) d) as Hrange1.
      assert (Hother1 : forall i : nat,
                 (1 <= i < 8)%nat ->
                 _checked_values
                   (fst (write_checked_reg ICMREG_PWR_MGMT_1
                           (BITS_BESTCLOCK_PLL3 b) d)) !! i
                 = _checked_values d !! i).
      { intros i Hi. apply write_checked_reg_other.
        do 8 (destruct i as [| i]; [cbn; first [lia | congruence] |]). lia. }
      destruct (write_checked_reg ICMREG_PWR_MGMT_1 (BITS_BESTCLOCK_PLL3 b) d)
        as [d1 w] eqn:Hw.
      cbn [fst snd] in Hstate1, Hlen1, Hrange1, Hother1.
      assert (Hwev : w = [BusWrite ICMREG_PWR_MGMT_1
                                   (wrap8 (wrap8 (BITS_BESTCLOCK_PLL3 b)))]).
      { unfold write_checked_reg in Hw. injection Hw as _ <-. reflexivity. }
      destruct (wrap8 (reply (S k)) =? BITS_BESTCLOCK_PLL3 b).
      * cbn [fst snd]. split; [exact Hstate1 |].
        rewrite !bus_events_app, bus_events_map. subst w. cbn.
        repeat split; auto; try lia.
        intros r v Hin. repeat (destruct Hin as [Hin | Hin]);
          try congruence; contradiction.
      * specialize (IH (S (S k)) reply d1).
        destruct (reset_attempts h b tries (S (S k)) reply d1)
          as [[k' d'] evs3].
        cbn [fst snd] in IH |- *.
        destruct IH as (Hstate & Hlen & Hrange & Hother & Hpwr & Hent
                        & Hbal & Hone).
        split.
        { rewrite Hstate at 1. rewrite Hstate1. reflexivity. }
        split; [congruence |]. split; [auto |].
        split; [intros i Hi; rewrite Hother, Hother1 by lia; reflexivity |].
        rewrite !bus_events_app, bus_events_map, !sections_entered_app,
          !sections_left_app.
        subst w. cbn.
        repeat split; try lia.
        intros r v [Heq | [Heq | [Heq | [Heq | Hin]]]]; try congruence.
        now apply (Hpwr r v).
Qed.

(** The shape of [reset] after the loop. *)
Lemma reset_unfold (h : icm20602_h) (b : icm20602_bits) (reply : nat -> Z)
      (d : ICM20602) :
  let lp := reset_attempts h b 4 0 reply d in
  let d0 := snd (fst lp) in
  let evs0 :=
    snd lp ++ [Bus (BusRead ICMREG_PWR_MGMT_1 ICM20602_LOW_BUS_SPEED)] in
  let s1 := _set_sample_rate h (_sample_rate d0) d0 in
  let s2 :=
    _set_dlpf_filter b (ICM20602_DEFAULT_ONCHIP_FILTER_FREQ b) (fst s1) in
  let s3 := write_checked_reg ICMREG_GYRO_CONFIG (BITS_FS_2000DPS b) (fst s2) in
  let d3 :=
    set_gyro_range
      (double_to_float (f64_div (f64_lit 174532 10000000) (f64_lit 164 10)))
      (F32.mul (F32.div (F32.of_Z 2000) (F32.of_Z 180)) (M_PI_F b)) (fst s3) in
  let s4 := set_accel_range h 8 d3 in
  let s5 :=
    write_checked_reg ICMREG_INT_ENABLE (BIT_DATA_RDY_INT_EN b) (m_state s4) in
  let s6 :=
    write_checked_reg ICMREG_INT_PIN_CFG (BIT_INT_ANYRD_2CLEAR b) (fst s5) in
  reset h b reply d
  = if negb (wrap8 (reply (fst (fst lp))) =? BITS_BESTCLOCK_PLL3 b)
    then (- EIO, d0, evs0)
    else (OK, fst s6,
          evs0 ++ [Usleep 1000] ++ map Bus (snd s1) ++ [Usleep 1000]
          ++ map Bus (snd s2) ++ [Usleep 1000] ++ map Bus (snd s3)
          ++ [Usleep 1000] ++ map Bus (m_events s4) ++ [Usleep 1000]
          ++ map Bus (snd s5) ++ [Usleep 1000] ++ map Bus (snd s6)
          ++ [Usleep 2000]).
Proof.
  cbv zeta. unfold reset.
  destruct (reset_attempts h b 4 0 reply d) as [[k d0] evs0]. cbn [fst snd].
  destruct (negb (wrap8 (reply k) =? BITS_BESTCLOCK_PLL3 b)); [reflexivity |].
  destruct (_set_sample_rate h (_sample_rate d0) d0) as [d1 w1]. cbn [fst snd].
  destruct (_set_dlpf_filter b (ICM20602_DEFAULT_ONCHIP_FILTER_FREQ b) d1)
    as [d2 w2]. cbn [fst snd].
  destruct (write_checked_reg ICMREG_GYRO_CONFIG (BITS_FS_2000DPS b) d2)
    as [d3 w3]. cbn [fst snd].
  destruct (set_accel_range h 8 _) as [[r4 d4] w4].
  unfold m_state, m_events. cbn [fst snd].
  destruct (write_checked_reg ICMREG_INT_ENABLE (BIT_DATA_RDY_INT_EN b) d4)
    as [d5 w5]. cbn [fst snd].
  destruct (write_checked_reg ICMREG_INT_PIN_CFG (BIT_INT_ANYRD_2CLEAR b) d5)
    as [d6 w6]. reflexivity.
Qed.

Lemma config_step_gyro_range (scale rad_s : F32.float) (d : ICM20602) :
  length (_checked_values d) = 8%nat ->
  config_step d (set_gyro_range scale rad_s d) [].
Proof. intros Hlen. now apply config_step_refl. Qed.

(** What [reset] keeps and what it leaves behind. *)
Lemma reset_keeps (h : icm20602_h) (b : icm20602_bits) (reply : nat -> Z)
      (d : ICM20602) :
  length (_checked_values d) = 8%nat ->
  let ret := fst (fst (reset h b reply d)) in
  let d' := snd (fst (reset h b reply d)) in
  let evs := snd (reset h b reply d) in
  config_step d d' (bus_events evs)
  /\ (ret = OK \/ ret = - EIO)
  /\ (ret = - EIO ->
      d' = set_checked_values (_checked_values d') d
      /\ forall r v, In (BusWrite r v) (bus_events evs) ->
                     r = ICMREG_PWR_MGMT_1)
  /\ (ret = OK ->
      5 <= _sample_rate d' <= 1000
      /\ _accel_range_scale d'
         = F32.div (ICM20602_ONE_G h) (F32.of_Z 4096)
      /\ _accel_range_m_s2 d' = F32.mul (F32.of_Z 8) (ICM20602_ONE_G h)
      /\ (forall i : nat, (2 <= i < 8)%nat ->
                          last_write (checked_register (Z.of_nat i))
                                     (bus_events evs) <> None)
      /\ last_write ICMREG_USER_CTRL (bus_events evs) = None)
  /\ (ret = - EIO -> _sample_rate d' = _sample_rate d)
  /\ _accel_scale d' = _accel_scale d
  /\ _last_accel d' = _last_accel d.
Proof.
  intros Hlen ret d' evs. subst ret d' evs.
  pose proof (reset_unfold h b reply d) as Hun. cbv zeta in Hun.
  destruct (reset_attempts_keeps h b 4 0 reply d)
    as (Hstate0 & Hlen0 & Hrange0 & Hother0 & Hpwr0 & _).
  set (lp := reset_attempts h b 4 0 reply d) in *.
  set (d0 := snd (fst lp)) in *.
  rewrite Hlen in Hlen0.
  assert (Hstep0 : config_step d d0
                     (bus_events
                        (snd lp
                         ++ [Bus (BusRead ICMREG_PWR_MGMT_1
                                          ICM20602_LOW_BUS_SPEED)]))).
  { unfold config_step. split; [exact Hlen0 |]. split; [exact Hrange0 |].
    split.
    - apply in_step_pwr_only; [exact Hother0 |].
      intros r v Hin. rewrite bus_events_app, in_app_iff in Hin.
      destruct Hin as [Hin | [Hin | []]]; [now apply (Hpwr0 r v) | discriminate].
    - rewrite Hstate0. split; reflexivity. }
  destruct (negb (wrap8 (reply (fst (fst lp))) =? BITS_BESTCLOCK_PLL3 b)).
  - rewrite Hun. cbn [fst snd].
    split; [exact Hstep0 |]. split; [now right |].
    split.
    { intros _. split; [exact Hstate0 |].
      intros r v Hin. rewrite bus_events_app, in_app_iff in Hin.
      destruct Hin as [Hin | [Hin | []]]; [now apply (Hpwr0 r v) | discriminate]. }
    split; [unfold OK, EIO; intros Hret; discriminate |].
    rewrite Hstate0. repeat split.
  - rewrite Hun. cbn [fst snd]. clear Hun.
    set (s1 := _set_sample_rate h (_sample_rate d0) d0).
    set (s2 := _set_dlpf_filter b (ICM20602_DEFAULT_ONCHIP_FILTER_FREQ b) (fst s1)).
    set (s3 := write_checked_reg ICMREG_GYRO_CONFIG (BITS_FS_2000DPS b) (fst s2)).
    set (d3 := set_gyro_range _ _ (fst s3)).
    set (s4 := set_accel_range h 8 d3).
    set (s5 := write_checked_reg ICMREG_INT_ENABLE (BIT_DATA_RDY_INT_EN b)
                                 (m_state s4)).
    set (s6 := write_checked_reg ICMREG_INT_PIN_CFG (BIT_INT_ANYRD_2CLEAR b)
                                 (fst s5)).
    pose proof (config_step_sample_rate h (_sample_rate d0) d0 Hlen0) as H1.
    fold s1 in H1.
    assert (H2 : config_step (fst s1) (fst s2) (snd s2))
      by (apply config_step_checked, H1).
    assert (H3 : config_step (fst s2) (fst s3) (snd s3))
      by (apply config_step_checked, H2).
    assert (H3' : config_step (fst s3) d3 [])
      by (apply config_step_gyro_range, H3).
    assert (H4 : config_step d3 (m_state s4) (m_events s4))
      by (apply config_step_accel_range, H3').
    assert (H5 : config_step (m_state s4) (fst s5) (snd s5))
      by (apply config_step_checked, H4).
    assert (H6 : config_step (fst s5) (fst s6) (snd s6))
      by (apply config_step_checked, H5).
    assert (Hbus : bus_events
                     ((snd lp
                       ++ [Bus (BusRead ICMREG_PWR_MGMT_1 ICM20602_LOW_BUS_SPEED)])
                      ++ [Usleep 1000] ++ map Bus (snd s1) ++ [Usleep 1000]
                      ++ map Bus (snd s2) ++ [Usleep 1000] ++ map Bus (snd s3)
                      ++ [Usleep 1000] ++ map Bus (m_events s4) ++ [Usleep 1000]
                      ++ map Bus (snd s5) ++ [Usleep 1000] ++ map Bus (snd s6)
                      ++ [Usleep 2000])
                   = bus_events
                       (snd lp
                        ++ [Bus (BusRead ICMREG_PWR_MGMT_1
                                         ICM20602_LOW_BUS_SPEED)])
                     ++ snd s1 ++ snd s2 ++ (snd s3 ++ [])
                     ++ m_events s4 ++ snd s5 ++ snd s6).
    { rewrite !bus_events_app, !bus_events_map. cbn [bus_events flat_map app].
      rewrite !app_nil_r. reflexivity. }
    rewrite Hbus.
    assert (Hall : config_step d (fst s6)
                     (bus_events
                        (snd lp
                         ++ [Bus (BusRead ICMREG_PWR_MGMT_1
                                          ICM20602_LOW_BUS_SPEED)])
                      ++ snd s1 ++ snd s2 ++ (snd s3 ++ [])
                      ++ m_events s4 ++ snd s5 ++ snd s6)).
    { apply config_step_trans with d0; [exact Hstep0 |].
      apply config_step_trans with (fst s1); [exact H1 |].
      apply config_step_trans with (fst s2); [exact H2 |].
      apply config_step_trans with d3;
        [apply config_step_trans with (fst s3); [exact H3 | exact H3'] |].
      apply config_step_trans with (m_state s4); [exact H4 |].
      apply config_step_trans with (fst s5); [exact H5 | exact H6]. }
    split; [exact Hall |]. split; [now left |].
    split; [unfold OK, EIO; intros Hret; discriminate |].
    split.
    2:{ split; [unfold OK, EIO; intros Hret; discriminate |].
        subst s6 s5 s4 d3 s3 s2 s1. rewrite set_accel_range_unfold.
        unfold m_state, _set_dlpf_filter, _set_sample_rate, write_checked_reg.
        cbn [fst snd]. cbn [_accel_scale _last_accel set_checked_values
                              set_sample_rate set_gyro_range
                              set_accel_range_scale set_accel_range_m_s2].
        rewrite Hstate0. split; reflexivity. }
    intros _.
    destruct (set_sample_rate_keeps h (_sample_rate d0) d0)
      as ((value & _ & Hevs1) & _ & _ & Hrate & _).
    fold s1 in Hrate, Hevs1.
    assert (Hwrites :
              snd s1 ++ snd s2 ++ (snd s3 ++ []) ++ m_events s4 ++ snd s5 ++ snd s6
              = [BusWrite ICMREG_SMPLRT_DIV (wrap8 (wrap8 value));
                 BusWrite ICMREG_CONFIG
                          (wrap8 (wrap8 (dlpf_bits b
                             (dlpf_select
                                (wrap16 (ICM20602_DEFAULT_ONCHIP_FILTER_FREQ b))))));
                 BusWrite ICMREG_GYRO_CONFIG (wrap8 (wrap8 (BITS_FS_2000DPS b)));
                 BusWrite ICMREG_ACCEL_CONFIG (wrap8 (wrap8 (Z.shiftl 2 3)));
                 BusWrite ICMREG_INT_ENABLE
                          (wrap8 (wrap8 (BIT_DATA_RDY_INT_EN b)));
                 BusWrite ICMREG_INT_PIN_CFG
                          (wrap8 (wrap8 (BIT_INT_ANYRD_2CLEAR b)))]).
    { rewrite Hevs1. subst s6 s5 s4 s3 s2. rewrite set_accel_range_unfold.
      unfold m_events, _set_dlpf_filter, write_checked_reg, write_reg.
      cbn [fst snd app]. reflexivity. }
    split.
    { subst s6 s5 s4 d3 s3 s2. rewrite set_accel_range_unfold.
      unfold m_state, _set_dlpf_filter, write_checked_reg.
      cbn [fst snd _sample_rate set_checked_values set_gyro_range
           set_accel_range_scale set_accel_range_m_s2].
      exact Hrate. }
    split; [| split].
    { subst s6 s5 s4. rewrite set_accel_range_unfold.
      unfold m_state, write_checked_reg. cbn. reflexivity. }
    { subst s6 s5 s4. rewrite set_accel_range_unfold.
      unfold m_state, write_checked_reg. cbn. reflexivity. }
    rewrite Hwrites. split.
    + intros i Hi. rewrite last_write_app.
      do 8 (destruct i as [| i]; [first [lia | cbn; discriminate] |]). lia.
    + rewrite last_write_app. cbn.
      apply last_write_none. intros v Hin.
      rewrite bus_events_app, in_app_iff in Hin.
      destruct Hin as [Hin | [Hin | []]]; [| discriminate].
      apply Hpwr0 in Hin. discriminate.
Qed.

(** The critical sections of the reset loop: with a chip whose reset bit
    always reads clear every section entered is left, and a section that
    stays entered is the one of an attempt that read the bit set. *)
Lemma reset_attempts_sections (h : icm20602_h) (b : icm20602_bits)
      (tries : nat) :
  forall (k : nat) (reply : nat -> Z) (d : ICM20602),
    let evs := snd (reset_attempts h b tries k reply d) in
    ((forall j, Z.land (wrap8 (reply j)) (BIT_H_RESET h) = 0) ->
     sections_entered evs = sections_left evs)
    /\ (sections_entered evs = S (sections_left evs) ->
        Z.land (wrap8 (reply (k + 2 * sections_left evs)%nat)) (BIT_H_RESET h)
        <> 0)
    /\ (Z.land (wrap8 (reply k)) (BIT_H_RESET h) <> 0 -> (1 <= tries)%nat ->
        sections_entered evs = 1%nat /\ sections_left evs = 0%nat).
Proof.
  induction tries as [| tries IH]; intros k reply d.
  - cbn. repeat split; lia.
  - cbn [reset_attempts].
    destruct (Z.land (wrap8 (reply k)) (BIT_H_RESET h) =? 0) eqn:Hbit;
      cbn [negb].
    + apply Z.eqb_eq in Hbit.
      destruct (write_checked_reg ICMREG_PWR_MGMT_1 (BITS_BESTCLOCK_PLL3 b) d)
        as [d1 w] eqn:Hw.
      destruct (sections_of_bus w) as [Hwe Hwl].
      assert (Hent : sections_entered
                       ([EnterCriticalSection]
                        ++ map Bus (write_reg ICMREG_PWR_MGMT_1 (BIT_H_RESET h))
                        ++ [UpUdelay 10000;
                            Bus (BusRead ICMREG_PWR_MGMT_1
                                         ICM20602_HIGH_BUS_SPEED)])
                     = 1%nat) by reflexivity.
      assert (Hleft : sections_left
                        ([EnterCriticalSection]
                         ++ map Bus (write_reg ICMREG_PWR_MGMT_1 (BIT_H_RESET h))
                         ++ [UpUdelay 10000;
                             Bus (BusRead ICMREG_PWR_MGMT_1
                                          ICM20602_HIGH_BUS_SPEED)])
                      = 0%nat) by reflexivity.
      assert (Hent2 : sections_entered
                        [UpUdelay 1000; LeaveCriticalSection;
                         Bus (BusRead ICMREG_PWR_MGMT_1 ICM20602_LOW_BUS_SPEED)]
                      = 0%nat) by reflexivity.
      assert (Hleft2 : sections_left
                         [UpUdelay 1000; LeaveCriticalSection;
                          Bus (BusRead ICMREG_PWR_MGMT_1 ICM20602_LOW_BUS_SPEED)]
                       = 1%nat) by reflexivity.
      rewrite !sections_entered_app in Hent.
      rewrite !sections_left_app in Hleft.
      destruct (wrap8 (reply (S k)) =? BITS_BESTCLOCK_PLL3 b).
      * cbn [snd]. rewrite !sections_entered_app, !sections_left_app.
        rewrite Hent, Hleft, Hent2, Hleft2, Hwe, Hwl.
        repeat split; lia.
      * specialize (IH (S (S k)) reply d1).
        destruct (reset_attempts h b tries (S (S k)) reply d1)
          as [[k' d'] evs3].
        cbn [snd] in *. destruct IH as (IHclean & IHstuck & _).
        rewrite !sections_entered_app, !sections_left_app.
        rewrite Hent, Hleft, Hent2, Hleft2, Hwe, Hwl.
        change (sections_entered [CountResetRetry; Usleep 2000]) with 0%nat.
        change (sections_left [CountResetRetry; Usleep 2000]) with 0%nat.
        repeat split.
        -- intros Hclean. specialize (IHclean Hclean). lia.
        -- intros Heq.
           replace (k + 2 * (0 + (0 + 1) + (0 + sections_left evs3)))%nat
             with (S (S k) + 2 * sections_left evs3)%nat by lia.
           apply IHstuck. lia.
        -- contradiction.
        -- contradiction.
    + apply Z.eqb_neq in Hbit. cbn.
      repeat split; try lia.
      * intros Hclean. now specialize (Hclean k).
      * intros _. now rewrite Nat.add_0_r.
Qed.





(** ** Sequences of calls *)

Lemma set_dlpf_filter_config (b : icm20602_bits) (f : Z) (d : ICM20602) :
  length (_checked_values d) = 8%nat ->
  config_step d (fst (_set_dlpf_filter b f d)) (snd (_set_dlpf_filter b f d)).
Proof. intros Hlen. unfold _set_dlpf_filter. now apply config_step_checked. Qed.

(** The configuration step that a request to [ioctl] makes. *)
Lemma ioctl_config (h : icm20602_h) (cmd : ioctl_cmd) (d : ICM20602) :
  length (_checked_values d) = 8%nat ->
  config_step d (m_state (ioctl h cmd d)) (m_events (ioctl h cmd d))
  /\ (5 <= _sample_rate d <= 1000 ->
      5 <= _sample_rate (m_state (ioctl h cmd d)) <= 1000).
Proof.
  intros Hlen. destruct cmd as [| arg | s | arg]; cbn [ioctl].
  - unfold m_state, m_events. cbn [fst snd].
    split; [now apply config_step_refl | tauto].
  - pose proof (config_step_sample_rate h (wrap32 arg) d Hlen) as Hstep.
    destruct (set_sample_rate_keeps h (wrap32 arg) d)
      as (_ & _ & _ & Hrate & _).
    destruct (_set_sample_rate h (wrap32 arg) d) as [d1 evs].
    unfold m_state, m_events. cbn [fst snd] in *. split; [exact Hstep | tauto].
  - destruct (F32.gtb (scale_sum s) (F32.of_Z 2)
              && F32.ltb (scale_sum s) (F32.of_Z 4));
      unfold m_state, m_events; cbn [fst snd];
      (split; [now apply config_step_refl | tauto]).
  - split; [now apply config_step_accel_range |].
    destruct (set_accel_range_keeps h (wrap32 arg) d) as (_ & _ & _ & Hrate).
    now rewrite Hrate.
Qed.

(** One call keeps the driver invariant and leaves the shadow set in step
    with the bus. *)
Lemma call_step_keeps (h : icm20602_h) (b : icm20602_bits) (c : call)
      (d : ICM20602) :
  driver_inv d ->
  driver_inv (call_step h b c d)
  /\ in_step d (call_step h b c d) (call_events h b c d).
Proof.
  intros (Hwait & Hcur & Hlen & Hbytes & Hrate).
  assert (Hcfg : forall d' evs,
             config_step d d' evs -> 5 <= _sample_rate d' <= 1000 ->
             driver_inv d' /\ in_step d d' evs).
  { intros d' evs (Hlen' & Hbytes' & Hstep & Hcur' & Hwait') Hrate'.
    split; [| exact Hstep].
    unfold driver_inv. rewrite Hcur', Hwait'.
    split; [exact Hwait |]. split; [exact Hcur |]. split; [exact Hlen' |].
    split; [now apply Hbytes' | exact Hrate']. }
  destruct c as [e | now v | cmd | f | reply |]; cbn [call_step call_events].
  - destruct (measure_keeps e d) as (Hshadow & Hcur' & Hrate' & Hwait');
      [lia |].
    split.
    + unfold driver_inv. rewrite Hshadow, Hcur', Hrate'.
      repeat split; try assumption; lia.
    + apply in_step_quiet; [exact Hshadow |].
      intros r. left. apply measure_no_writes.
  - destruct (check_registers_keeps h now v d)
      as (Hshadow & Hcur' & Hwait' & Hrate').
    split.
    + unfold driver_inv. rewrite Hshadow, Hrate'.
      repeat split; try assumption; lia.
    + now apply in_step_check_registers.
  - destruct (ioctl_config h cmd d Hlen) as [Hstep Hrate'].
    apply Hcfg; [exact Hstep | now apply Hrate'].
  - apply Hcfg; [now apply set_dlpf_filter_config |].
    unfold _set_dlpf_filter, write_checked_reg. cbn. exact Hrate.
  - destruct (reset_keeps h b reply d Hlen)
      as (Hstep & Hret & _ & Hok & Hfail & _).
    apply Hcfg; [exact Hstep |].
    destruct Hret as [Hret | Hret].
    + now apply Hok.
    + rewrite (Hfail Hret). exact Hrate.
  - unfold stop. cbn [fst]. split.
    + unfold driver_inv. cbn. auto.
    + now apply in_step_refl.
Qed.

(** ** Reset *)



(** X18. A successful reset leaves the driver configured: the sample rate
    is between 5 and 1000 Hz, the accel range is 8 g with 4096 LSB per g,
    each of the six configuration registers (SMPLRT_DIV, CONFIG,
    GYRO_CONFIG, ACCEL_CONFIG, INT_ENABLE, INT_PIN_CFG) was written and
    its shadow value is the byte last written to it, and the calibration
    is untouched.  USER_CTRL, although in the checked set, is not written:
    its shadow value stays what it was. *)
Theorem reset_success_configures
        (h : icm20602_h) (b : icm20602_bits) (reply : nat -> Z) (d : ICM20602) :
  length (_checked_values d) = 8%nat ->
  let ret := fst (fst (reset h b reply d)) in
  let d' := snd (fst (reset h b reply d)) in
  let evs := snd (reset h b reply d) in
  ret = OK ->
  5 <= _sample_rate d' <= 1000
  /\ _accel_range_scale d' = F32.div (ICM20602_ONE_G h) (F32.of_Z 4096)
  /\ _accel_range_m_s2 d' = F32.mul (F32.of_Z 8) (ICM20602_ONE_G h)
  /\ (forall i : nat,
         (2 <= i < 8)%nat ->
         exists v,
           last_write (checked_register (Z.of_nat i)) (bus_events evs) = Some v
           /\ _checked_values d' !! i = Some v)
  /\ last_write ICMREG_USER_CTRL (bus_events evs) = None
  /\ _checked_values d' !! 1%nat = _checked_values d !! 1%nat
  /\ _accel_scale d' = _accel_scale d.
Proof.
  intros Hlen ret d' evs Hok.
  destruct (reset_keeps h b reply d Hlen)
    as (Hstep & _ & _ & Hcfg & _ & Hscale & _).
  fold ret d' evs in Hstep, Hcfg, Hscale.
  destruct (Hcfg Hok) as (Hrate & Hrs & Hrm & Hwritten & Huser).
  destruct Hstep as (_ & _ & Hin & _).
  split; [exact Hrate |]. split; [exact Hrs |]. split; [exact Hrm |].
  split.
  { intros i Hi. specialize (Hwritten i Hi).
    assert (Hi' : (1 <= i < 8)%nat) by lia.
    specialize (Hin i Hi').
    destruct (last_write (checked_register (Z.of_nat i)) (bus_events evs))
      as [v |]; [| contradiction].
    exists v. split; [reflexivity | exact Hin]. }
  split; [exact Huser |]. split; [| exact Hscale].
  assert (H1 : (1 <= 1 < 8)%nat) by lia.
  specialize (Hin 1%nat H1).
  change (checked_register (Z.of_nat 1)) with ICMREG_USER_CTRL in Hin.
  now rewrite Huser in Hin.
Qed.

(** A chip that acknowledges at once: the reset succeeds and the shadow of
    ACCEL_CONFIG holds the 8 g selection. *)
Lemma reset_success_configures_witness :
  fst (fst (reset reference_h reference_bits reply_ok initial_state)) = OK
  /\ _checked_values
       (snd (fst (reset reference_h reference_bits reply_ok initial_state)))
     = [3; 0; 0; 4; 24; 16; 1; 16]
  /\ 5 <= _sample_rate
            (snd (fst (reset reference_h reference_bits reply_ok
                             initial_state))) <= 1000.
Proof.
  split; [reflexivity |]. split; [reflexivity |].
  apply (reset_success_configures
           reference_h reference_bits reply_ok initial_state);
    reflexivity.
Defined.

(** X19. The critical sections of [reset].  Between one and four sections
    are entered, and at most one of them is not left again.  With a chip
    whose reset bit always reads clear every section entered is left.  A
    section that is still entered when [reset] returns belongs to an
    attempt whose first read showed the reset bit set; when the very first
    read does, [reset] returns having entered one section and left none. *)
Theorem reset_critical_sections
        (h : icm20602_h) (b : icm20602_bits) (reply : nat -> Z) (d : ICM20602) :
  let evs := snd (reset h b reply d) in
  (1 <= sections_entered evs <= 4)%nat
  /\ (sections_left evs <= sections_entered evs <= S (sections_left evs))%nat
  /\ ((forall j, Z.land (wrap8 (reply j)) (BIT_H_RESET h) = 0) ->
      sections_entered evs = sections_left evs)
  /\ (sections_entered evs = S (sections_left evs) ->
      Z.land (wrap8 (reply (2 * sections_left evs)%nat)) (BIT_H_RESET h) <> 0)
  /\ (Z.land (wrap8 (reply 0%nat)) (BIT_H_RESET h) <> 0 ->
      sections_entered evs = 1%nat /\ sections_left evs = 0%nat).
Proof.
  intros evs.
  destruct (reset_attempts_keeps h b 4 0 reply d)
    as (_ & _ & _ & _ & _ & Hmax & Hbal & Hmin).
  destruct (reset_attempts_sections h b 4 0 reply d)
    as (Hclean & Hstuck & Hfirst).
  assert (Hent : sections_entered evs
                 = sections_entered (snd (reset_attempts h b 4 0 reply d))
                 /\ sections_left evs
                    = sections_left (snd (reset_attempts h b 4 0 reply d))).
  { subst evs. rewrite reset_unfold. cbv zeta.
    set (lp := reset_attempts h b 4 0 reply d).
    destruct (negb (wrap8 (reply (fst (fst lp))) =? BITS_BESTCLOCK_PLL3 b));
      cbn [snd].
    - rewrite sections_entered_app, sections_left_app. cbn. lia.
    - rewrite !sections_entered_app, !sections_left_app.
      repeat match goal with
             | |- context [sections_entered (map Bus ?w)] =>
                 rewrite (proj1 (sections_of_bus w))
             | |- context [sections_left (map Bus ?w)] =>
                 rewrite (proj2 (sections_of_bus w))
             end.
      cbn. lia. }
  destruct Hent as [-> ->].
  split; [lia |]. split; [exact Hbal |]. split; [exact Hclean |].
  split; [exact Hstuck |]. intros Hbit. apply Hfirst; [exact Hbit | lia].
Qed.

(** A chip whose reset bit stays set: [reset] gives up in the first
    attempt, inside the critical section. *)
Lemma reset_critical_sections_witness :
  sections_entered (snd (reset reference_h reference_bits reply_stuck
                                initial_state)) = 1%nat
  /\ sections_left (snd (reset reference_h reference_bits reply_stuck
                               initial_state)) = 0%nat.
Proof.
  apply (reset_critical_sections reference_h reference_bits reply_stuck
                                 initial_state).
  vm_compute. discriminate.
Defined.

(** ** Sequences of calls *)

(** X20. Whatever sequence of measurements, health checks, requests,
    filter settings, resets and stops is made, the driver stays within
    its bounds: the register-wait counter is between 0 and 20, the cursor
    of the health check is a valid index into the eight checked
    registers, the shadow set keeps eight byte-sized values, and the
    sample rate is between 5 and 1000 Hz. *)
Theorem driver_invariant_preserved
        (h : icm20602_h) (b : icm20602_bits) (cs : list call) (d : ICM20602) :
  driver_inv d -> driver_inv (run_calls h b cs d).
Proof.
  revert d. induction cs as [| c cs IH]; intros d Hinv; cbn [run_calls].
  - exact Hinv.
  - apply IH. now apply call_step_keeps.
Qed.

(** X21. Whatever sequence of calls is made, the shadow value of every
    checked register other than PWR_MGMT_1 is the byte last written to
    that register on the bus, or its initial value when the register was
    never written: the comparison of the health check is against what the
    chip was told. *)
Theorem shadows_follow_the_bus
        (h : icm20602_h) (b : icm20602_bits) (cs : list call) (d : ICM20602) :
  driver_inv d ->
  in_step d (run_calls h b cs d) (run_calls_events h b cs d).
Proof.
  revert d.
  induction cs as [| c cs IH]; intros d Hinv;
    cbn [run_calls run_calls_events].
  - now apply in_step_refl.
  - destruct (call_step_keeps h b c d Hinv) as [Hinv1 Hstep1].
    apply in_step_trans with (call_step h b c d);
      [exact Hstep1 | now apply IH].
Qed.

(** A reset, a measurement, a health check that finds a mismatch, two
    requests, a filter setting and a stop, from the constructor's state. *)
Lemma driver_invariant_preserved_witness :
  driver_inv initial_state
  /\ driver_inv (run_calls reference_h reference_bits sample_calls
                           initial_state).
Proof.
  assert (Hinit : driver_inv initial_state).
  { unfold driver_inv. cbn. repeat split; try lia. repeat constructor; lia. }
  split; [exact Hinit |].
  apply (driver_invariant_preserved reference_h reference_bits sample_calls
                                    initial_state Hinit).
Defined.

Lemma shadows_follow_the_bus_witness :
  _checked_values (run_calls reference_h reference_bits sample_calls
                             initial_state)
  = [3; 0; 3; 3; 24; 8; 1; 16]
  /\ in_step initial_state
             (run_calls reference_h reference_bits sample_calls initial_state)
             (run_calls_events reference_h reference_bits sample_calls
                               initial_state).
Proof.
  split; [reflexivity |].
  apply (shadows_follow_the_bus reference_h reference_bits sample_calls
                                initial_state).
  unfold driver_inv. cbn. repeat split; try lia. repeat constructor; lia.
Defined.

(** ** Self tests *)

Lemma measure_accel_scale (e : cycle_env) (d : ICM20602) :
  _accel_scale (m_state (measure e d)) = _accel_scale d.
Proof.
  unfold measure, m_state.
  destruct (_in_factory_test d); [reflexivity |].
  destruct (env_now e <? _reset_wait d); [reflexivity |].
  destruct (env_read e) as [r |]; [| reflexivity].
  destruct (duplicate_data d r); [reflexivity |].
  destruct (all_zero_data (report_from_bytes r)); [reflexivity |].
  simpl. destruct (_register_wait d =? 0); reflexivity.
Qed.

Lemma self_test_accel_scale (e : cycle_env) (d : ICM20602) :
  _accel_scale (snd (fst (self_test e d))) = _accel_scale d.
Proof.
  unfold self_test. destruct (_sample_perf d =? 0)%N; cbn [fst snd];
    [apply measure_accel_scale | reflexivity].
Qed.

Lemma accel_axis_bad_zero_offset (scale : F32.float) :
  accel_axis_bad (F32.of_Z 0) scale = true.
Proof. reflexivity. Qed.

Lemma accel_axis_bad_unit_scale (offset : F32.float) :
  accel_axis_bad offset (F32.of_Z 1) = true.
Proof.
  unfold accel_axis_bad.
  replace (F32.ltb (fabsf (f32_sub (F32.of_Z 1) (F32.of_Z 1)))
                   (f32_lit 1 1000000)) with true by reflexivity.
  now rewrite !orb_true_r.
Qed.

(** X22. The accel self test rejects an exact calibration: when the offset
    of some axis is exactly zero or the scale of some axis is exactly one,
    [accel_self_test] reports failure, whatever the measurement it forces
    returns.  The calibration the constructor installs (offsets 0,
    scales 1) is of that kind. *)
Theorem accel_self_test_rejects_exact_calibration
        (e : cycle_env) (d : ICM20602) :
  let s := _accel_scale d in
  x_offset s = F32.of_Z 0 \/ y_offset s = F32.of_Z 0
  \/ z_offset s = F32.of_Z 0 \/ x_scale s = F32.of_Z 1
  \/ y_scale s = F32.of_Z 1 \/ z_scale s = F32.of_Z 1 ->
  fst (fst (accel_self_test e d)) = 1.
Proof.
  intros s Hexact. subst s. unfold accel_self_test.
  pose proof (self_test_accel_scale e d) as Hscale.
  destruct (self_test e d) as [[failed d1] evs]. cbn [fst snd] in Hscale.
  rewrite Hscale.
  destruct (negb (failed =? 0)); [reflexivity |].
  destruct (accel_axis_bad (x_offset (_accel_scale d))
                           (x_scale (_accel_scale d))) eqn:Hx; [reflexivity |].
  destruct (accel_axis_bad (y_offset (_accel_scale d))
                           (y_scale (_accel_scale d))) eqn:Hy; [reflexivity |].
  destruct (accel_axis_bad (z_offset (_accel_scale d))
                           (z_scale (_accel_scale d))) eqn:Hz; [reflexivity |].
  exfalso.
  destruct Hexact as [H | [H | [H | [H | [H | H]]]]]; rewrite H in *.
  - now rewrite accel_axis_bad_zero_offset in Hx.
  - now rewrite accel_axis_bad_zero_offset in Hy.
  - now rewrite accel_axis_bad_zero_offset in Hz.
  - now rewrite accel_axis_bad_unit_scale in Hx.
  - now rewrite accel_axis_bad_unit_scale in Hy.
  - now rewrite accel_axis_bad_unit_scale in Hz.
Qed.

Lemma accel_self_test_rejects_exact_calibration_witness :
  fst (fst (accel_self_test cycle_a initial_state)) = 1.
Proof.
  apply (accel_self_test_rejects_exact_calibration cycle_a initial_state).
  left. reflexivity.
Defined.

(** X23. What [self_test] reports.  It succeeds (0) when a sample had been
    counted before; otherwise it forces one measurement and succeeds
    exactly when that invocation fetches a block and the block is counted
    as a duplicate, is all zero, or is published, that is, no register
    wait is pending.  So an all-zero block, which [measure] reports as a
    bus error, passes the self test, and a good block during the register
    wait does not.  With a sample counted before, nothing is done. *)
Theorem self_test_outcome (e : cycle_env) (d : ICM20602) :
  let ret := fst (fst (self_test e d)) in
  (ret = 0 \/ ret = 1)
  /\ (ret = 0 <->
      (0 < _sample_perf d)%N
      \/ (fetches d e = true
          /\ exists r,
              env_read e = Some r
              /\ (duplicate_data d r = true
                  \/ all_zero_data (report_from_bytes r) = true
                  \/ _register_wait d = 0)))
  /\ ((0 < _sample_perf d)%N -> self_test e d = (0, d, [])).
Proof.
  intros ret. subst ret. unfold self_test, fetches.
  destruct (_sample_perf d =? 0)%N eqn:Hperf.
  - apply N.eqb_eq in Hperf. cbn [fst snd].
    unfold measure, m_state, m_events.
    destruct (_in_factory_test d).
    { cbn [fst snd negb andb]. rewrite Hperf. cbn.
      split; [now right |]. split; [| lia].
      split; [discriminate |]. intros [H | [H _]]; [lia | discriminate]. }
    destruct (env_now e <? _reset_wait d).
    { cbn [fst snd negb andb]. rewrite Hperf. cbn.
      split; [now right |]. split; [| lia].
      split; [discriminate |]. intros [H | [H _]]; [lia | discriminate]. }
    destruct (env_read e) as [r |].
    2:{ cbn [fst snd negb andb]. rewrite Hperf. cbn.
        split; [now right |]. split; [| lia].
        split; [discriminate |]. intros [H | [H _]]; [lia | discriminate]. }
    cbn [negb andb].
    destruct (duplicate_data d r) eqn:Hdup.
    { cbn. rewrite Hperf. cbn.
      split; [now left |]. split; [| lia].
      split; [| reflexivity]. intros _. right. split; [reflexivity |].
      exists r. split; [reflexivity | now left]. }
    destruct (all_zero_data (report_from_bytes r)) eqn:Hzero.
    { cbn. rewrite Hperf. cbn.
      split; [now left |]. split; [| lia].
      split; [| reflexivity]. intros _. right. split; [reflexivity |].
      exists r. split; [reflexivity | right; now left]. }
    simpl. destruct (_register_wait d =? 0) eqn:Hwait; simpl.
    + apply Z.eqb_eq in Hwait. rewrite Hperf. cbn.
      split; [now left |]. split; [| lia].
      split; [| reflexivity]. intros _. right. split; [reflexivity |].
      exists r. split; [reflexivity | right; now right].
    + apply Z.eqb_neq in Hwait. rewrite Hperf. cbn.
      split; [now right |]. split; [| lia].
      split; [discriminate |].
      intros [H | [_ (r' & Hr & [H | [H | H]])]];
        [lia | | | contradiction]; injection Hr as <-; congruence.
  - apply N.eqb_neq in Hperf. cbn [fst snd].
    assert (Hpos : (0 <? _sample_perf d)%N = true) by (apply N.ltb_lt; lia).
    rewrite Hpos. split; [now left |]. split; [| reflexivity].
    split; [intros _; left; lia | reflexivity].
Qed.

(** With a sample counted before, the self test passes without touching
    the bus. *)
Lemma self_test_outcome_witness :
  self_test cycle_a after_a = (0, after_a, []).
Proof.
  apply (self_test_outcome cycle_a after_a). reflexivity.
Defined.

(** X24. The gyro self test fails on a gyro that was never calibrated:
    when the three offsets are smaller than 0.000001 in magnitude,
    [gyro_self_test] reports failure whatever the measurement returns;
    the calibration is not changed by the test. *)
Theorem gyro_self_test_uncalibrated (e : cycle_env) (dv : Driver) :
  let s := _gyro_scale dv in
  F32.ltb (fabsf (gyro_x_offset s)) (f32_lit 1 1000000) = true ->
  F32.ltb (fabsf (gyro_y_offset s)) (f32_lit 1 1000000) = true ->
  F32.ltb (fabsf (gyro_z_offset s)) (f32_lit 1 1000000) = true ->
  fst (fst (gyro_self_test e dv)) = 1
  /\ _gyro_scale (snd (fst (gyro_self_test e dv))) = _gyro_scale dv.
Proof.
  intros s Hx Hy Hz. subst s. unfold gyro_self_test.
  destruct (self_test e (core dv)) as [[failed d1] evs].
  unfold set_core. cbn [_gyro_scale].
  rewrite Hx, Hy, Hz. cbn [andb].
  destruct (negb (failed =? 0)); [split; reflexivity |].
  destruct (gyro_axis_bad _ _); [split; reflexivity |].
  destruct (gyro_axis_bad _ _); [split; reflexivity |].
  destruct (gyro_axis_bad _ _); split; reflexivity.
Qed.

Lemma gyro_self_test_uncalibrated_witness :
  fst (fst (gyro_self_test cycle_a initial_driver)) = 1
  /\ fst (fst (gyro_self_test cycle_a calibrated_driver)) = 0.
Proof.
  split; [| reflexivity].
  apply (gyro_self_test_uncalibrated cycle_a initial_driver); reflexivity.
Defined.
